(* ===== verification/_CoqProject ===== *)
-Q . S2P
Prelude.v
JsString.v
Types.v
Json.v
Codec.v
Storage.v
Registrants.v
RegistrationService.v
AuthContext.v
AppLayout.v
Query.v
AdminDashboard.v
Regex.v
DataUrl.v
FileUpload.v
CameraCapture.v
Capture.v
RegistrationForm.v
EditRegistrant.v
System.v
