(* ===== verification/Prelude.v ===== *)
(** * Verification of the quick-registration application

    The program is a browser application (TypeScript, React): a public
    registration form that stores registrants, each with a photo taken by
    the camera or chosen as a file, in the browser's [localStorage], and
    an administrator's dashboard that lists, searches, pages, edits,
    deletes and exports them behind a login.  There is no server: the
    storage is the database and a hardcoded pair is the credential.

    This library models the program's parts as executable Rocq
    definitions, translated from the sources, and proves what makes each
    part correct.  This file is the root: it documents the development
    and holds what the other files share.

    ** The parts of the program and the files that model them

    - [Types]: [src/types/index.ts].  [Registrant] and
      [RegistrantFormData] as records, the gender as an enumeration, an
      optional property as an [option].
    - [Storage]: the Web Storage operations the sources call, as a class
      [Storage] with the laws of [getItem] after [setItem] and
      [removeItem].  [setItem] is partial: a write over the quota throws.
      Two instances: [LocalStorage], with a quota, and the unbounded map.
    - [Json], [Codec]: [JSON.stringify] on the values the program
      stores (objects, arrays, strings, booleans, [null]), [JSON.parse]
      on every text, and the stored shape of a registrant.
    - [Registrants], [RegistrationService]: the service that the
      components import as [services/registrationService], kept in the
      sources as [src/unnamed/part_001].  [Registrants] holds the
      records that [addRegistrant] and [updateRegistrant] build and the
      specification of the collection as a list ([Spec]);
      [RegistrationService] holds [initializeStorage],
      [getAllRegistrants], [getRegistrantById], [addRegistrant],
      [updateRegistrant] and [deleteRegistrant] as effects on a storage.
      What the browser supplies to a call ([crypto.randomUUID],
      [Date.now], the ISO time) is an argument, [Env].
    - [AuthContext]: [src/contexts/AuthContext.tsx].  The provider's
      state, the effect that restores a session at mount, [login] and
      [logout], as effects on the state and the storage.
    - [AppLayout]: [src/components/AppLayout.tsx], the header by the
      session's flag, with the logout button.
    - [Query]: the filter and the pagination computed in
      [src/components/AdminDashboard.tsx].
    - [AdminDashboard]: the rest of that component: its state, its
      handlers and effects, what its JSX shows, and the table handed to
      the PDF library.
    - [Regex], [DataUrl]: the pattern that [FileUpload] matches a media
      type against, and the [data:] URL with its Base64.
    - [FileUpload]: [src/components/FileUpload.tsx], the file strategy
      of image capture.
    - [CameraCapture]: [src/components/CameraCapture.tsx], the camera
      strategy.
    - [Capture]: the capture component that a form has mounted, one
      of the two by the strategy chosen, with the form's state inside
      the child's world, and the camera components that the form has
      unmounted, with what they have not released.
    - [RegistrationForm]: the component [RegistrationForm], kept in the
      sources as [src/unnamed/part_002]; the submission path: the
      schema, the callbacks given to the capture component, [onSubmit]
      around [addRegistrant], and the timer of the success message.
    - [EditRegistrant]: [src/components/EditRegistrant.tsx], the edit
      form: the effect that loads the record of the route's [id], the
      callbacks, [onSubmit] around [updateRegistrant], the three pages
      it shows and the way back to the dashboard.
    - [System]: the components together: the flows from one component
      to another through the storage.
    - [JsString]: the string builtins the sources call.

    The components interact through the storage and through callbacks.
    The service and the session share the storage and touch one key
    each.  The dashboard and the two forms call the service.  A capture
    component hands its picture to its parent through a callback, which
    is a parameter of its model; the parent's state is part of the
    component's world ([Capture.shell]), and a form's session
    interleaves its own events with those of the child it has mounted.

    ** How stateful code is modelled

    Code that reads and writes a store and may throw is a function from
    the store to the store after and an [outcome], a result or a thrown
    value ([eff], below); a handler is written with the monad's
    notation, call by call, in the order of the source.  A throw keeps
    the writes made before it.  A React component is a state machine:
    its state is a record, a handler is a function on worlds (the state
    with what surrounds it), an effect is run after a handler when one
    of its dependencies changed, and a handler reads the state of the
    render it was made in (its closure).  What a component shows is a
    function [render] from its state to a view, and [offered] says which
    events the view lets the user raise; sessions are sequences of
    offered events, and invariants are proved by induction on them.
    Work that finishes later (a [FileReader] load, a [getUserMedia]
    promise) is an event of its own, so that other events can come
    between the start and the end; a request of a camera component
    that the form has unmounted settles on a component that is gone
    ([Capture.retired_settled]).  An error that leaves an effect
    unmounts the tree, as React does where no error boundary is
    declared ([EditRegistrant.mount_edit]).

    ** Typed reading of stored text

    The sources cast what [JSON.parse] returns to the type they expect
    and check nothing.  The model is typed: [Codec.read] gives the value
    read when the text holds one as the program writes it, members in
    any order; it tells a text that is not JSON, on which [JSON.parse]
    throws [SyntaxError], from a JSON text that holds something else
    (another shape, a number, a member more or less).  On such a text
    the sources go on with a value the model has no type for;
    [Storage.JSON_parse] ends the run there with the marker
    [ForeignValue], which is no exception of the sources.  No theorem
    claims a behaviour of the sources on such a storage: the theorems on
    the service carry [view s = Some rs] or [malformed s = true], and
    the invariants are on sessions that start from a storage the
    program could have written.  The theorems that hold of every
    storage ([AdminDashboard.dispatch_storage],
    [System.service_keeps_session] and the like) say of a storage with
    foreign text what the model does, not what the sources do.

    ** What the theorems show

    - The service refines the list specification
      ([RegistrationService.run_call_refines], [session_refines]); the
      stored collection keeps its identifiers distinct and its photo
      paths consistent ([reachable_wf], [Registrants.run_wf]); what is
      stored is read back ([Codec.decode_encode_registrants],
      [add_then_getById]); a refused write and a text that is not
      JSON surface as throws that change nothing
      ([throws_keeps_view], [garbage_throws]).
    - [JSON.parse]: what is printed is read back
      ([Json.parse_stringify]), and the parser refuses no text for lack
      of fuel ([Json.parse_text_fuel]).
    - The properties of section 8 of the specification on updates and
      deletions ([Registrants.update_without_photo],
      [update_with_photo], [delete_unknown], [update_getById]).
    - The session: the invariant of a session that starts without one
      ([AuthContext.reachable_auth]), the behaviour of [login] and
      [logout], and two properties that the specification does not
      have: the restored session is trusted as stored, and a login whose
      write is refused authenticates for the page only.  The layout
      shows the administrator's items exactly to an authenticated
      session, and its button ends it ([AppLayout.click_logout_spec],
      [reachable_header]).
    - Search and pagination: what the filter keeps, the number of pages,
      the content of each page, and that the pages partition the list
      ([Query.pages_partition]).
    - The dashboard: its invariant over sessions
      ([AdminDashboard.reachable_dash_inv]), the two clicks of a
      deletion, what a table shows.
    - File upload: the two checks, exactly
      ([FileUpload.accepted_spec]), what a refusal and an acceptance do,
      and the invariant of the preview.
    - Camera: the handlers release the stream on every way out of the
      live view ([CameraCapture.exit_releases]), but no session reaches
      the live view, and a granted stream is never released
      ([camera_never_active], [granted_stream_leaks]).
    - The registration form: what a submission does on each of its
      paths (issues, no photo, stored, refused), and that every record
      it stores has a photo ([RegistrationForm.form_stores_photos]).
      No session of the form stops a camera track: the cleanup of a
      camera component that the form unmounts has no stream to stop,
      and a stream granted after the unmount stays live
      ([form_streams_stay_live], [gone_granted_leaks]).
      Its scenarios show two defects of the composition: clearing an
      upload leaves a photo of no bytes, and a read that finishes after
      a submission becomes the photo of the next one.
    - The edit form: what its effect shows for a record that is
      stored and for an identifier that no record has, and that a throw
      of the service in the effect leaves a blank page
      ([EditRegistrant.mount_edit_found], [mount_edit_not_found],
      [mount_edit_throws]); what a submission
      does on each of its paths ([submit_updates]); that a session of
      the form changes no record but the one of its route
      ([reachable_edit_only_at], by [Registrants.only_at]); and that an
      edit in which nothing is touched gives a record with a photo a
      new photo path ([untouched_edit]).

    - The composition ([System]): the session and the service do not
      see each other's writes ([service_keeps_session],
      [session_keeps_registrants]); a stored registration is the last
      record the dashboard lists ([registered_is_listed]); the edit
      link of a row opens the form of its record ([edit_link_opens]);
      a stored edit is listed in the record's place
      ([edited_is_listed]); and the edit route of a deleted record
      shows that it was not found ([deleted_is_not_found]).

    Every theorem with a hypothesis is applied to sample data by a
    lemma named after it ([_witness]), and the scenarios of section 8
    are examples that compute.

    ** Bounds and fuel

    - Strings are sequences of code units below 256.  Every literal of
      the sources is ASCII; [toLowerCase] and [trim] are defined on the
      whole range.
    - Page numbers and indices are integers ([Z]): the sources compute
      them from lengths by products, differences and [Math.ceil] of a
      quotient, all exact on JavaScript numbers below 2^53.  Sizes of
      files and quotas are naturals ([N]).
    - [Json.parse_text] recurses on fuel, one more than the length of
      the text.  Every call of the parser that recurses has read a
      character, so this is enough: [Json.parse_text_fuel] shows that
      what any fuel reads, this fuel reads, and [Json.parse_stringify]
      that every text [stringify] writes is read back.  No other
      definition uses fuel.
    - JSON numbers and the code units of 256 and more are recognised by
      the parser and are no values of the model: the program stores
      none, and a text that holds one is foreign.

    ** What is not modelled

    - The route table ([src/unnamed/part_000]): the components
      [ProtectedRoute] and [AdminLogin] that it names are not among the
      sources.  The guard reads the session's flag, which [AuthContext]
      models; the edit form's model has the router's location and the
      path of its own route, nothing else of the router.
    - Rendering detail: CSS classes other than the gender badge's, icon
      components, the layout of the forms, and the renders between a
      handler and its effect.
    - react-hook-form's validation of a field on its changes after a
      submission: the errors of the model are those of the last
      submission.
    - The libraries the sources only call: jsPDF, the JPEG coder of the
      canvas (a parameter of [CameraCapture]), the e-mail test of zod
      and the parsing of a date string (parameters of
      [RegistrationForm] and [EditRegistrant]), the locale-dependent [toLocaleDateString] (a
      parameter of [AdminDashboard]).
    - Two browser contexts writing one storage: a session is one
      context. *)

From stdpp Require Export base tactics option list strings.

(** ** Exceptions as values

    A function of the sources either returns or throws.  [outcome] is the
    sum of the two; [E] is the type of what is thrown. *)

Inductive outcome (E A : Type) : Type :=
| Returns (a : A)
| Throws (e : E).
Arguments Returns {E A} a.
Arguments Throws {E A} e.

(** ** The effect monad

    Code that reads and writes a store [S] (the browser's storage, a
    component's state) and may throw is a function from the store before
    to the store after and the outcome.  A throw keeps the writes made
    before it, as in JavaScript. *)

Definition eff (S E A : Type) : Type := S → S * outcome E A.

Definition eff_ret {S E A} (a : A) : eff S E A := λ s, (s, Returns a).

Definition eff_bind {S E A B} (c : eff S E A) (k : A → eff S E B) : eff S E B :=
  λ s, match c s with
       | (s', Returns a) => k a s'
       | (s', Throws e) => (s', Throws e)
       end.

Definition throw {S E A} (e : E) : eff S E A := λ s, (s, Throws e).

(** [reads f] returns a view of the store, [writes f] updates it. *)
Definition reads {S E A} (f : S → A) : eff S E A := λ s, (s, Returns (f s)).
Definition writes {S E} (f : S → S) : eff S E () := λ s, (f s, Returns ()).

(** [lift_option e o] throws [e] when a partial builtin has no result. *)
Definition lift_option {S E A} (e : E) (o : option A) : eff S E A :=
  match o with Some a => eff_ret a | None => throw e end.

(** An effect on the second component of a pair of stores: a component
    that calls the service runs it on the storage of its world. *)
Definition on_snd {S1 S2 E A} (c : eff S2 E A) : eff (S1 * S2) E A := λ w,
  let '(s', o) := c w.2 in ((w.1, s'), o).

(** [try { c } catch (e) { h e }]. *)
Definition try_catch {S E A} (c : eff S E A) (h : E → eff S E A) : eff S E A :=
  λ s, match c s with
       | (s', Throws e) => h e s'
       | r => r
       end.

(** [try { c } finally { f }]: [f] runs on both paths, and a throw of [c]
    goes on after it. *)
Definition try_finally {S E A} (c : eff S E A) (f : eff S E ()) : eff S E A :=
  λ s, match c s with
       | (s', Returns a) =>
           match f s' with
           | (s'', Returns _) => (s'', Returns a)
           | (s'', Throws e) => (s'', Throws e)
           end
       | (s', Throws e) =>
           match f s' with
           | (s'', Returns _) => (s'', Throws e)
           | (s'', Throws e') => (s'', Throws e')
           end
       end.

(** The monad is registered with stdpp's classes, so that the operations
    of the components are written [x ← c; k] and [c;; k]. *)
#[export] Instance eff_mret {S E} : MRet (eff S E) := λ A, eff_ret.
#[export] Instance eff_mbind {S E} : MBind (eff S E) := λ A B k c, eff_bind c k.

(** ** Automation *)

(** [reg] collects the lemmas that keep an invariant, one per operation,
    for [eauto with reg]; [reg_rw] the equations of the monad, for
    [autorewrite with reg_rw]. *)
Create HintDb reg discriminated.
Create Rewrite HintDb reg_rw.

(** [simp_eff] unfolds the monad so that a run of an operation becomes a
    nest of matches on the runs of its calls. *)
Ltac simp_eff :=
  unfold mbind, mret, eff_mbind, eff_mret, eff_bind, eff_ret, throw, reads,
    writes, lift_option, on_snd, try_catch, try_finally in *;
  simpl in *.

Section eff_laws.
Context {S E : Type}.

Lemma bind_returns {A B} (c : eff S E A) (k : A → eff S E B) s s' a :
  c s = (s', Returns a) → (c ≫= k) s = k a s'.
Proof. unfold mbind, eff_mbind, eff_bind. by intros ->. Qed.

Lemma bind_throws {A B} (c : eff S E A) (k : A → eff S E B) s s' e :
  c s = (s', Throws e) → (c ≫= k) s = (s', Throws e).
Proof. unfold mbind, eff_mbind, eff_bind. by intros ->. Qed.

Lemma bind_ret_l {A B} (a : A) (k : A → eff S E B) s : (mret a ≫= k) s = k a s.
Proof. done. Qed.

Lemma bind_reads {A B} (f : S → A) (k : A → eff S E B) s :
  (reads f ≫= k) s = k (f s) s.
Proof. done. Qed.

Lemma bind_assoc {A B C} (c : eff S E A) (k : A → eff S E B)
    (h : B → eff S E C) s :
  ((c ≫= k) ≫= h) s = (c ≫= (λ a, k a ≫= h)) s.
Proof. unfold mbind, eff_mbind, eff_bind. by destruct (c s) as [? []]. Qed.

(** A run of [c ≫= k] that returns went through a run of [c] that
    returned. *)
Lemma bind_returns_inv {A B} (c : eff S E A) (k : A → eff S E B) s s2 b :
  (c ≫= k) s = (s2, Returns b) →
  ∃ s1 a, c s = (s1, Returns a) ∧ k a s1 = (s2, Returns b).
Proof.
  unfold mbind, eff_mbind, eff_bind. destruct (c s) as [s1 [a|e]]; [eauto|done].
Qed.
End eff_laws.

#[export] Hint Rewrite @bind_ret_l @bind_reads : reg_rw.

(** ** Lists *)

Section list_facts.
Context {A : Type}.
Implicit Types (l : list A) (x : A).

(** A filter that drops nothing is the identity. *)
Lemma filter_length_eq (P : A → Prop) `{∀ x, Decision (P x)} l :
  length (filter P l) = length l → filter P l = l.
Proof.
  induction l as [|x l IH]; [done|]. rewrite filter_cons.
  pose proof (length_filter P l). case_decide; simpl; [|lia].
  intros [=]. f_equal. auto.
Qed.

Lemma filter_length_eq_Forall (P : A → Prop) `{∀ x, Decision (P x)} l :
  length (filter P l) = length l ↔ Forall P l.
Proof.
  split.
  - intros Hl%filter_length_eq. rewrite <- Hl. apply Forall_forall.
    intros x. rewrite list_elem_of_filter. tauto.
  - intros HP. induction HP as [|x l Hx _ IH]; [done|].
    rewrite filter_cons, decide_True by done. simpl. by rewrite IH.
Qed.
End list_facts.
