(* ===== verification/JsString.v ===== *)
(** * JsString: the JavaScript string operations the sources call

    A string of the model is a sequence of code units below 256 (Rocq's
    [string] of [ascii]); that is enough for every literal of the
    sources (keys, credentials, media types, messages).  This file
    defines, over such strings, the builtins that the components use:
    truthiness of a string and of [string | undefined], the [||] of two
    optional strings, [String.prototype.toLowerCase], [trim] and
    [includes], and the decimal form an integer takes inside a template
    literal.  Each is executable and comes with the specification the
    components' proofs use. *)

From Stdlib Require Import Ascii String NArith.
From stdpp Require Import pretty.
From S2P Require Import Prelude.

#[local] Open Scope string_scope.
#[local] Arguments String.append !s1 s2 : simpl nomatch.

(** ** Truthiness *)

(** A string is truthy when it is not empty. *)
Definition truthy (s : string) : bool :=
  match s with "" => false | String _ _ => true end.

(** A value of type [string | undefined] (or [string | null]): [None] is
    [undefined]; it is truthy when it is a non-empty string. *)
Definition truthy_opt (o : option string) : bool :=
  match o with Some s => truthy s | None => false end.

(** [a || b] on two optional strings: [a] when it is truthy, else [b]. *)
Definition js_or (a b : option string) : option string :=
  if truthy_opt a then a else b.

(** ** Characters *)

Definition code (c : ascii) : N := N_of_ascii c.

Definition in_range (lo hi : N) (c : ascii) : bool :=
  ((lo <=? code c) && (code c <=? hi))%N.

(** The code units below 256 that ECMAScript's WhiteSpace and
    LineTerminator productions contain: TAB, LF, VT, FF, CR, SP, NBSP. *)
Definition is_js_space (c : ascii) : bool :=
  in_range 9 13 c || (code c =? 32)%N || (code c =? 160)%N.

(** The code units below 256 with a lower-case form: A-Z and the Latin-1
    capitals U+00C0-U+00DE but for the multiplication sign U+00D7.  Each
    maps to the code unit 32 above. *)
Definition is_upper (c : ascii) : bool :=
  in_range 65 90 c || in_range 192 214 c || in_range 216 222 c.

Definition lower_char (c : ascii) : ascii :=
  if is_upper c then ascii_of_N (code c + 32) else c.

(** The code units below 256 whose upper-case form is one code unit
    below 256: a-z and the Latin-1 small letters U+00E0-U+00FE but for
    the division sign U+00F7.  (The upper-case forms of U+00B5, U+00DF
    and U+00FF lie outside the model; no string the sources capitalise
    holds them.) *)
Definition is_lower (c : ascii) : bool :=
  in_range 97 122 c || in_range 224 246 c || in_range 248 254 c.

Definition upper_char (c : ascii) : ascii :=
  if is_lower c then ascii_of_N (code c - 32) else c.

(** ** String operations *)

(** [s.charAt(0).toUpperCase() + s.slice(1)]. *)
Definition capitalize (s : string) : string :=
  match s with
  | "" => ""
  | String c s' => String (upper_char c) s'
  end.

Fixpoint toLowerCase (s : string) : string :=
  match s with
  | "" => ""
  | String c s' => String (lower_char c) (toLowerCase s')
  end.

Fixpoint trimStart (s : string) : string :=
  match s with
  | "" => ""
  | String c s' => if is_js_space c then trimStart s' else s
  end.

(** [trimEnd] keeps a character when it is not a space or when something
    is kept after it. *)
Fixpoint trimEnd (s : string) : string :=
  match s with
  | "" => ""
  | String c s' =>
      match trimEnd s' with
      | "" => if is_js_space c then "" else String c ""
      | t => String c t
      end
  end.

Definition trim (s : string) : string := trimEnd (trimStart s).

(** [startsWith s p]: [p] is a prefix of [s]. *)
Fixpoint startsWith (s p : string) {struct p} : bool :=
  match p, s with
  | "", _ => true
  | String _ _, "" => false
  | String a p', String b s' => bool_decide (a = b) && startsWith s' p'
  end.

(** [includes s t] is [s.includes(t)]: [t] occurs in [s] at some offset. *)
Fixpoint includes (s t : string) : bool :=
  startsWith s t ||
  match s with
  | "" => false
  | String _ s' => includes s' t
  end.

(** The decimal form of an integer in a template literal.  JavaScript
    prints an integral number below 10^21 in absolute value with all its
    digits, which covers every time stamp [Date.now()] can return. *)
Definition decimal (z : Z) : string := pretty z.

(** [all_chars p s]: every character of [s] satisfies [p]. *)
Fixpoint all_chars (p : ascii → bool) (s : string) : bool :=
  match s with
  | "" => true
  | String c s' => p c && all_chars p s'
  end.

(** ** Specifications *)

Lemma truthy_spec s : truthy s = true ↔ s ≠ "".
Proof. by destruct s. Qed.

Lemma truthy_false s : truthy s = false ↔ s = "".
Proof. by destruct s. Qed.

Lemma truthy_app_l s t : truthy s = true → truthy (s +:+ t) = true.
Proof. by destruct s. Qed.

Lemma js_or_truthy a b : truthy_opt a = true → js_or a b = a.
Proof. unfold js_or. by intros ->. Qed.

Lemma js_or_falsy a b : truthy_opt a = false → js_or a b = b.
Proof. unfold js_or. by intros ->. Qed.

Lemma string_app_assoc (a b c : string) : (a +:+ b) +:+ c = a +:+ b +:+ c.
Proof. induction a as [|x a IH]; simpl; [done|]. by rewrite IH. Qed.

Lemma string_app_nil_r (a : string) : a +:+ "" = a.
Proof. induction a as [|x a IH]; simpl; [done|]. by rewrite IH. Qed.

Lemma string_app_length (a b : string) :
  String.length (a +:+ b) = String.length a + String.length b.
Proof. induction a as [|x a IH]; simpl; [done|]. by rewrite IH. Qed.

Lemma toLowerCase_app a b :
  toLowerCase (a +:+ b) = toLowerCase a +:+ toLowerCase b.
Proof. induction a as [|x a IH]; simpl; [done|]. by rewrite IH. Qed.

Lemma toLowerCase_length s : String.length (toLowerCase s) = String.length s.
Proof. induction s as [|x s IH]; simpl; [done|]. by rewrite IH. Qed.

(** Lower-casing twice is lower-casing once: no lower-case form is itself
    an upper-case code unit. *)
Lemma lower_char_idemp c : lower_char (lower_char c) = lower_char c.
Proof. by destruct c as [[] [] [] [] [] [] [] []]. Qed.

Lemma toLowerCase_idemp s : toLowerCase (toLowerCase s) = toLowerCase s.
Proof. induction s; simpl; [done|]. by rewrite lower_char_idemp, IHs. Qed.

Lemma startsWith_spec s p : startsWith s p = true ↔ ∃ r, s = p +:+ r.
Proof.
  revert s. induction p as [|a p IH]; intros s; simpl.
  - split; [by exists s | done].
  - destruct s as [|b s]; simpl.
    + split; [done | by intros [r ?]].
    + rewrite andb_true_iff, bool_decide_eq_true, IH. split.
      * intros [-> [r ->]]. by exists r.
      * intros [r [= -> ->]]. split; [done | by exists r].
Qed.

(** [includes] is the substring relation. *)
Lemma includes_spec s t : includes s t = true ↔ ∃ a b, s = a +:+ t +:+ b.
Proof.
  induction s as [|c s IH]; simpl.
  - rewrite orb_false_r, startsWith_spec. split.
    + intros [r ->]. by exists "", r.
    + intros [a [b H]]. destruct a; [by exists b | done].
  - rewrite orb_true_iff, startsWith_spec, IH. split.
    + intros [[r ->]|(a & b & ->)]; [by exists "", r | by exists (String c a), b].
    + intros [[|c' a] [b H]]; simpl in H; [left; eauto|].
      injection H as -> ->. right; eauto.
Qed.

Lemma includes_empty s : includes s "" = true.
Proof. destruct s; done. Qed.

Lemma includes_refl s : includes s s = true.
Proof. apply includes_spec. exists "", "". by rewrite string_app_nil_r. Qed.

(** A substring stays one under lower-casing of both sides. *)
Lemma includes_toLowerCase s t :
  includes s t = true → includes (toLowerCase s) (toLowerCase t) = true.
Proof.
  rewrite !includes_spec. intros (a & b & ->).
  exists (toLowerCase a), (toLowerCase b). by rewrite !toLowerCase_app.
Qed.

Lemma trimStart_all_space s : all_chars is_js_space s = true → trimStart s = "".
Proof.
  induction s as [|c s IH]; simpl; [done|].
  rewrite andb_true_iff. intros [-> ?]. auto.
Qed.

Lemma trimEnd_empty s : trimEnd s = "" ↔ all_chars is_js_space s = true.
Proof.
  induction s as [|c s IH]; simpl; [done|].
  destruct (trimEnd s) eqn:E.
  - destruct (is_js_space c); simpl; [by rewrite <- IH | done].
  - split; [done|]. rewrite andb_true_iff. intros [_ H%IH]. done.
Qed.

(** [trim] leaves nothing exactly when every character is a space. *)
Lemma trim_empty s : trim s = "" ↔ all_chars is_js_space s = true.
Proof.
  unfold trim. rewrite trimEnd_empty. induction s as [|c s IH]; simpl; [done|].
  destruct (is_js_space c) eqn:E; simpl; [done|]. by rewrite E.
Qed.

Lemma decimal_inj z1 z2 : decimal z1 = decimal z2 → z1 = z2.
Proof. apply (inj pretty). Qed.
