(* ===== verification/Types.v ===== *)
(** * Types: the data of [src/types/index.ts]

    The [Registrant] record as it is stored, and [RegistrantFormData],
    what the two forms hand to the service.  An optional property
    ([photoData?], [photo?]) is an [option]: [None] is [undefined].  The
    DOM's [File] is a record of the properties the sources read. *)

From S2P Require Import Prelude JsString.

#[local] Open Scope string_scope.

(** The union ['male' | 'female' | 'other']. *)
Inductive Gender : Type := male | female | other.

#[export] Instance Gender_eq_dec : EqDecision Gender.
Proof. solve_decision. Defined.

(** The string a [Gender] is at run time. *)
Definition gender_to_string (g : Gender) : string :=
  match g with male => "male" | female => "female" | other => "other" end.

Definition gender_of_string (s : string) : option Gender :=
  if decide (s = "male") then Some male
  else if decide (s = "female") then Some female
  else if decide (s = "other") then Some other
  else None.

(** The DOM [File]: its name, its declared media type, its size in bytes
    and its content. *)
Record File : Type := mkFile {
  file_name : string;
  file_type : string;
  file_size : N;
  file_bytes : string;
}.

#[export] Instance File_eq_dec : EqDecision File.
Proof. solve_decision. Defined.

(** [interface Registrant]. *)
Record Registrant : Type := mkRegistrant {
  id : string;
  fullName : string;
  email : string;
  phone : string;
  address : string;
  gender : Gender;
  dateOfBirth : string;
  photoPath : string;
  photoData : option string;
  createdAt : string;
}.

#[export] Instance Registrant_eq_dec : EqDecision Registrant.
Proof. solve_decision. Defined.

(** [type RegistrantFormData]: a [Registrant] without [id], [createdAt]
    and [photoPath], with an optional [photo].  Its fields live in the
    module [Form], so that [Form.fullName data] reads as [data.fullName]. *)
Module Form.
Record RegistrantFormData : Type := mkFormData {
  fullName : string;
  email : string;
  phone : string;
  address : string;
  gender : Gender;
  dateOfBirth : string;
  photoData : option string;
  photo : option File;
}.
End Form.

#[export] Instance RegistrantFormData_eq_dec : EqDecision Form.RegistrantFormData.
Proof. solve_decision. Defined.

(** ** Facts on the data *)

Lemma gender_of_to_string g : gender_of_string (gender_to_string g) = Some g.
Proof. by destruct g. Qed.

Lemma gender_to_of_string s g :
  gender_of_string s = Some g → gender_to_string g = s.
Proof.
  unfold gender_of_string. repeat case_decide; naive_solver.
Qed.

Lemma gender_to_string_inj : Inj (=) (=) gender_to_string.
Proof. by intros [] []. Qed.
