(* ===== verification/Json.v ===== *)
(** * Json: the text form that [localStorage] holds

    The service and the session context store their data with
    [JSON.stringify] and read it back with [JSON.parse].  This file models
    the two builtins.  The values of the model ([json]) are the ones the
    program stores: [null], booleans, strings of code units below 256,
    arrays and objects.  [stringify] prints a value the way ECMAScript's
    [JSON.stringify] does without an indent argument: no white space, the
    members of an object in order, a string quoted with the escapes of
    [QuoteJSONString].

    The parser recognises the whole JSON grammar, numbers and every
    [\uXXXX] escape included, white space as well.  [parse_text s] is
    - [None] when [s] is not a JSON text: [JSON.parse] throws [SyntaxError];
    - [Some None] when [s] is a JSON text whose value is outside [json]
      (it holds a number or a code unit of 256 or more): [JSON.parse]
      returns a value that the model does not describe;
    - [Some (Some v)] when [JSON.parse] returns [v].
    [is_json] is the first distinction as a boolean, [parse] the value when
    there is one in the model.

    The parser runs on fuel.  [parse_text_fuel] shows that the fuel of
    [parse_text], one more than the length of the text, reads every text
    that some fuel reads, so a refusal is never for lack of fuel;
    [parse_stringify] is the round trip. *)

From Stdlib Require Import Ascii String NArith Lia.
From S2P Require Import Prelude JsString.

#[local] Open Scope string_scope.
#[local] Arguments String.append !s1 s2 : simpl nomatch.

(** ** Values *)

Inductive json : Type :=
| JNull
| JBool (b : bool)
| JString (s : string)
| JArray (l : list json)
| JObject (m : list (string * json)).

(** [obj_get k m]: the value of member [k] of an object.  [JSON.parse]
    keeps the last of several members of one name. *)
Fixpoint obj_get (k : string) (m : list (string * json)) : option json :=
  match m with
  | [] => None
  | (k', v) :: m' =>
      match obj_get k m' with
      | Some v' => Some v'
      | None => if decide (k = k') then Some v else None
      end
  end.

(** ** Characters of the grammar *)

Definition dquote : ascii := Eval cbv in ascii_of_N 34.
Definition bslash : ascii := Eval cbv in ascii_of_N 92.

(** JSON white space: TAB, LF, CR, SP. *)
Definition is_json_ws (c : ascii) : bool :=
  match code c with 9 | 10 | 13 | 32 => true | _ => false end%N.

(** The lower-case hexadecimal digit of a number below 16. *)
Definition hex_digit (n : N) : ascii :=
  if (n <? 10)%N then ascii_of_N (48 + n) else ascii_of_N (87 + n).

Definition hex_value (c : ascii) : option N :=
  if in_range 48 57 c then Some (code c - 48)%N
  else if in_range 97 102 c then Some (code c - 87)%N
  else if in_range 65 70 c then Some (code c - 55)%N
  else None.

(** The code unit that four hexadecimal digits denote. *)
Definition hex4 (a b c d : ascii) : option N :=
  x ← hex_value a; y ← hex_value b; z ← hex_value c; w ← hex_value d;
  Some (4096 * x + 256 * y + 16 * z + w)%N.

(** A code unit as a character of the model, when it is below 256. *)
Definition unit_char (n : N) : option ascii :=
  if (n <? 256)%N then Some (ascii_of_N n) else None.

Definition is_digit (c : ascii) : bool := in_range 48 57 c.

(** ** Printing *)

(** [QuoteJSONString]: the two-character escapes, [\u00xx] for the other
    control characters, every other code unit as it is. *)
Definition escape_char (c : ascii) : string :=
  match code c with
  | 8 => "\b" | 9 => "\t" | 10 => "\n" | 12 => "\f" | 13 => "\r"
  | 34 => String bslash (String dquote "")
  | 92 => "\\"
  | n => if (n <? 32)%N
         then "\u00" +:+ String (hex_digit (n / 16)) (String (hex_digit (n mod 16)) "")
         else String c ""
  end%N.

Fixpoint escape (s : string) : string :=
  match s with
  | "" => ""
  | String c s' => escape_char c +:+ escape s'
  end.

Definition quote (s : string) : string :=
  String dquote (escape s +:+ String dquote "").

Fixpoint stringify (v : json) : string :=
  match v with
  | JNull => "null"
  | JBool b => if b then "true" else "false"
  | JString s => quote s
  | JArray l =>
      "[" +:+
      (fix elems (l : list json) : string :=
         match l with
         | [] => ""
         | x :: l' =>
             stringify x +:+ match l' with [] => "" | _ => "," +:+ elems l' end
         end) l +:+ "]"
  | JObject m =>
      "{" +:+
      (fix members (m : list (string * json)) : string :=
         match m with
         | [] => ""
         | (k, x) :: m' =>
             quote k +:+ ":" +:+ stringify x +:+
             match m' with [] => "" | _ => "," +:+ members m' end
         end) m +:+ "}"
  end.

(** The elements of an array and the members of an object, separated by
    commas: the two local loops of [stringify], by name. *)
Fixpoint stringify_elems (l : list json) : string :=
  match l with
  | [] => ""
  | x :: l' =>
      stringify x +:+ match l' with [] => "" | _ => "," +:+ stringify_elems l' end
  end.

Fixpoint stringify_members (m : list (string * json)) : string :=
  match m with
  | [] => ""
  | (k, x) :: m' =>
      quote k +:+ ":" +:+ stringify x +:+
      match m' with [] => "" | _ => "," +:+ stringify_members m' end
  end.

(** ** Parsing *)

Fixpoint skip_ws (s : string) : string :=
  match s with
  | "" => ""
  | String c r => if is_json_ws c then skip_ws r else s
  end.

(** [strip p s]: what follows the prefix [p] of [s]. *)
Fixpoint strip (p s : string) {struct p} : option string :=
  match p, s with
  | "", _ => Some s
  | String a p', String b s' => if decide (a = b) then strip p' s' else None
  | String _ _, "" => None
  end.

(** The character that follows a backslash in a two-character escape. *)
Definition unescape (e : ascii) : option ascii :=
  match code e with
  | 34 => Some dquote
  | 92 => Some bslash
  | 47 => Some e
  | 98 => Some (ascii_of_N 8)
  | 102 => Some (ascii_of_N 12)
  | 110 => Some (ascii_of_N 10)
  | 114 => Some (ascii_of_N 13)
  | 116 => Some (ascii_of_N 9)
  | _ => None
  end%N.

(** A text of the grammar may denote a value that the model does not
    have: a number, or a string with a code unit above 255.  The parser
    reads such a text to its end and returns no value for it: a
    result [Some (None, rest)] is a value outside the model, [None] a
    text outside the grammar. *)

(** One more character before a string, one more element before a list
    and one more member before a list of members, each possibly outside
    the model. *)
Definition cons_unit (c : option ascii) (t : option string) : option string :=
  c ← c; t ← t; Some (String c t).

Definition cons_value (v : option json) (l : option (list json)) : option (list json) :=
  v ← v; l ← l; Some (v :: l).

Definition cons_member (k : option string) (v : option json)
    (m : option (list (string * json))) : option (list (string * json)) :=
  k ← k; v ← v; m ← m; Some ((k, v) :: m).

(** The characters of a string after its opening quote, up to the closing
    one; the result is the string and what follows the closing quote.  A
    raw control character is refused, as the grammar does. *)
Fixpoint parse_string_body (s : string) : option (option string * string) :=
  match s with
  | "" => None
  | String c r =>
      if decide (c = dquote) then Some (Some "", r)
      else if decide (c = bslash) then
        match r with
        | String e r' =>
            match unescape e with
            | Some x =>
                '(t, rest) ← parse_string_body r'; Some (cons_unit (Some x) t, rest)
            | None =>
                match r' with
                | String h1 (String h2 (String h3 (String h4 r''))) =>
                    if (code e =? 117)%N then
                      n ← hex4 h1 h2 h3 h4;
                      '(t, rest) ← parse_string_body r'';
                      Some (cons_unit (unit_char n) t, rest)
                    else None
                | _ => None
                end
            end
        | "" => None
        end
      else if (code c <? 32)%N then None
      else '(t, rest) ← parse_string_body r; Some (cons_unit (Some c) t, rest)
  end.

(** Numbers: an optional minus, an integer without a leading zero, an
    optional fraction and an optional exponent.  Each function returns
    what follows the part it reads. *)
Fixpoint skip_digits (s : string) : string :=
  match s with
  | "" => ""
  | String c r => if is_digit c then skip_digits r else s
  end.

Definition digits1 (s : string) : option string :=
  match s with
  | String c r => if is_digit c then Some (skip_digits r) else None
  | "" => None
  end.

Definition parse_int (s : string) : option string :=
  match s with
  | String c r => if (code c =? 48)%N then Some r else digits1 s
  | "" => None
  end.

Definition parse_frac (s : string) : option string :=
  match s with
  | String c r => if (code c =? 46)%N then digits1 r else Some s
  | "" => Some s
  end.

Definition parse_exp (s : string) : option string :=
  match s with
  | String c r =>
      if (code c =? 101)%N || (code c =? 69)%N then
        match r with
        | String d r' =>
            if (code d =? 43)%N || (code d =? 45)%N then digits1 r' else digits1 r
        | "" => None
        end
      else Some s
  | "" => Some s
  end.

Definition parse_number (s : string) : option string :=
  let s' := match s with
            | String c r => if (code c =? 45)%N then r else s
            | "" => s
            end in
  r ← parse_int s'; r ← parse_frac r; parse_exp r.

(** [parse_value n s] reads one value at the head of [s], after white
    space, and returns it with the rest of the text; [parse_elems] reads
    the elements of an array up to its closing bracket, [parse_members]
    the members of an object up to its closing brace.  [n] bounds the
    nesting of calls. *)
Fixpoint parse_value (n : nat) (s : string) {struct n} : option (option json * string) :=
  match n with
  | 0 => None
  | S n =>
      match skip_ws s with
      | "" => None
      | String c r =>
          match code c with
          | 110 => r' ← strip "ull" r; Some (Some JNull, r')
          | 116 => r' ← strip "rue" r; Some (Some (JBool true), r')
          | 102 => r' ← strip "alse" r; Some (Some (JBool false), r')
          | 34 => '(t, r') ← parse_string_body r; Some (fmap (M:=option) JString t, r')
          | 91 =>
              match skip_ws r with
              | "" => None
              | String c' r' =>
                  if (code c' =? 93)%N then Some (Some (JArray []), r')
                  else '(l, r'') ← parse_elems n r; Some (fmap (M:=option) JArray l, r'')
              end
          | 123 =>
              match skip_ws r with
              | "" => None
              | String c' r' =>
                  if (code c' =? 125)%N then Some (Some (JObject []), r')
                  else '(m, r'') ← parse_members n r; Some (fmap (M:=option) JObject m, r'')
              end
          | _ => r' ← parse_number (String c r); Some (@None json, r')
          end%N
      end
  end
with parse_elems (n : nat) (s : string) {struct n}
    : option (option (list json) * string) :=
  match n with
  | 0 => None
  | S n =>
      '(v, r) ← parse_value n s;
      match skip_ws r with
      | "" => None
      | String c r' =>
          match code c with
          | 44 => '(l, r'') ← parse_elems n r'; Some (cons_value v l, r'')
          | 93 => Some (cons_value v (Some []), r')
          | _ => None
          end%N
      end
  end
with parse_members (n : nat) (s : string) {struct n}
    : option (option (list (string * json)) * string) :=
  match n with
  | 0 => None
  | S n =>
      match skip_ws s with
      | "" => None
      | String c r =>
          if (code c =? 34)%N then
            '(k, r1) ← parse_string_body r;
            match skip_ws r1 with
            | "" => None
            | String c1 r2 =>
                if (code c1 =? 58)%N then
                  '(v, r3) ← parse_value n r2;
                  match skip_ws r3 with
                  | "" => None
                  | String c3 r4 =>
                      match code c3 with
                      | 44 => '(m, r5) ← parse_members n r4; Some (cons_member k v m, r5)
                      | 125 => Some (cons_member k v (Some []), r4)
                      | _ => None
                      end%N
                  end
                else None
            end
          else None
      end
  end.

(** [JSON.parse]: one value, then only white space.  The length of the
    text bounds the nesting of its values. *)
Definition parse_text (s : string) : option (option json) :=
  '(v, r) ← parse_value (S (String.length s)) s;
  if decide (skip_ws r = "") then Some v else None.

(** Whether a text is JSON: [JSON.parse] throws a [SyntaxError] exactly
    when it is not. *)
Definition is_json (s : string) : bool := bool_decide (is_Some (parse_text s)).

(** The value of the model that a text denotes. *)
Definition parse (s : string) : option json := mjoin (parse_text s).

(** The fuel that reading a printed value takes. *)
Fixpoint need (v : json) : nat :=
  match v with
  | JArray l =>
      S ((fix go (l : list json) : nat :=
            match l with [] => 0 | x :: l' => S (need x + go l') end) l)
  | JObject m =>
      S ((fix go (m : list (string * json)) : nat :=
            match m with [] => 0 | (_, x) :: m' => S (need x + go m') end) m)
  | _ => 1
  end.

Fixpoint need_elems (l : list json) : nat :=
  match l with [] => 0 | x :: l' => S (need x + need_elems l') end.

Fixpoint need_members (m : list (string * json)) : nat :=
  match m with [] => 0 | (_, x) :: m' => S (need x + need_members m') end.

(** ** Induction on values *)
Section json_induction.
Variable P : json → Prop.
Hypothesis Hnull : P JNull.
Hypothesis Hbool : ∀ b, P (JBool b).
Hypothesis Hstring : ∀ s, P (JString s).
Hypothesis Harray : ∀ l, Forall P l → P (JArray l).
Hypothesis Hobject : ∀ m, Forall (λ kv, P kv.2) m → P (JObject m).

Fixpoint json_induction (v : json) : P v :=
  match v with
  | JNull => Hnull
  | JBool b => Hbool b
  | JString s => Hstring s
  | JArray l =>
      Harray l ((fix go (l : list json) : Forall P l :=
                   match l with
                   | [] => Forall_nil_2 P
                   | x :: l' => Forall_cons_2 P x l' (json_induction x) (go l')
                   end) l)
  | JObject m =>
      Hobject m ((fix go (m : list (string * json)) : Forall (λ kv, P kv.2) m :=
                    match m with
                    | [] => Forall_nil_2 _
                    | kv :: m' => Forall_cons_2 _ kv m' (json_induction kv.2) (go m')
                    end) m)
  end.
End json_induction.

Lemma stringify_array l : stringify (JArray l) = "[" +:+ stringify_elems l +:+ "]".
Proof. done. Qed.
Lemma stringify_object m : stringify (JObject m) = "{" +:+ stringify_members m +:+ "}".
Proof. done. Qed.
Lemma need_array l : need (JArray l) = S (need_elems l).
Proof. done. Qed.
Lemma need_object m : need (JObject m) = S (need_members m).
Proof. done. Qed.

Lemma stringify_elems_cons x l :
  l ≠ [] → stringify_elems (x :: l) = stringify x +:+ "," +:+ stringify_elems l.
Proof. by destruct l. Qed.

Lemma stringify_members_cons k x m :
  m ≠ [] →
  stringify_members ((k, x) :: m) =
  quote k +:+ ":" +:+ stringify x +:+ "," +:+ stringify_members m.
Proof. by destruct m. Qed.

Lemma stringify_elems_one x : stringify_elems [x] = stringify x.
Proof. apply string_app_nil_r. Qed.

Lemma stringify_members_one k x :
  stringify_members [(k, x)] = quote k +:+ ":" +:+ stringify x.
Proof. simpl. by rewrite string_app_nil_r. Qed.

Lemma strip_app p r : strip p (p +:+ r) = Some r.
Proof. induction p as [|a p IH]; simpl; [done|]. by rewrite decide_True. Qed.

Lemma skip_ws_head c r : is_json_ws c = false → skip_ws (String c r) = String c r.
Proof. simpl. by intros ->. Qed.

Lemma parse_string_body_step c t :
  parse_string_body (escape_char c +:+ t) =
  '(u, rest) ← parse_string_body t; Some (cons_unit (Some c) u, rest).
Proof. by destruct c as [[] [] [] [] [] [] [] []]. Qed.

Lemma parse_string_body_escape s r :
  parse_string_body (escape s +:+ String dquote r) = Some (Some s, r).
Proof.
  induction s as [|c s IH]; simpl; [done|].
  by rewrite string_app_assoc, parse_string_body_step, IH.
Qed.

Lemma quote_app s r : quote s +:+ r = String dquote (escape s +:+ String dquote r).
Proof. unfold quote. simpl. by rewrite string_app_assoc. Qed.

(** A printed value starts with a character that is no white space and
    closes neither an array nor an object. *)
Definition starts_value (s : string) : Prop :=
  ∃ c t, s = String c t ∧ is_json_ws c = false ∧
         (code c =? 93)%N = false ∧ (code c =? 125)%N = false.

Lemma stringify_starts v r : starts_value (stringify v +:+ r).
Proof. destruct v as [|[]| | |]; by eexists _, _. Qed.

Lemma stringify_elems_starts l r : l ≠ [] → starts_value (stringify_elems l +:+ r).
Proof.
  destruct l as [|x l]; [done|]. intros _. simpl.
  rewrite string_app_assoc. apply stringify_starts.
Qed.

Lemma stringify_members_starts m r :
  m ≠ [] → starts_value (stringify_members m +:+ r).
Proof. destruct m as [|[k x] m]; [done|]. intros _. by eexists _, _. Qed.

(** What [parse_value] does after an opening bracket, an opening brace
    and an opening quote. *)
Lemma parse_value_bracket n s :
  starts_value s →
  parse_value (S n) ("[" +:+ s) =
  '(l, r) ← parse_elems n s; Some (fmap (M:=option) JArray l, r).
Proof. intros (c & t & -> & Hws & Hc & _). simpl. by rewrite Hws, Hc. Qed.

Lemma parse_value_brace n s :
  starts_value s →
  parse_value (S n) ("{" +:+ s) =
  '(m, r) ← parse_members n s; Some (fmap (M:=option) JObject m, r).
Proof. intros (c & t & -> & Hws & _ & Hc). simpl. by rewrite Hws, Hc. Qed.

Lemma parse_value_quote n s r :
  parse_value (S n) (quote s +:+ r) = Some (Some (JString s), r).
Proof. rewrite quote_app. simpl. by rewrite parse_string_body_escape. Qed.

Lemma parse_members_quote n k s :
  parse_members (S n) (quote k +:+ ":" +:+ s) =
  '(v, r3) ← parse_value n s;
  match skip_ws r3 with
  | "" => None
  | String c3 r4 =>
      match code c3 with
      | 44 => '(m, r5) ← parse_members n r4; Some (cons_member (Some k) v m, r5)
      | 125 => Some (cons_member (Some k) v (Some []), r4)
      | _ => None
      end%N
  end.
Proof. rewrite quote_app. simpl. by rewrite parse_string_body_escape. Qed.

Lemma parse_value_starts n s v r :
  starts_value s → parse_value n s = Some (v, r) → parse_value n (skip_ws s) = Some (v, r).
Proof. intros (c & t & -> & Hws & _). simpl. by rewrite Hws. Qed.

(** ** One more unit of fuel

    The three parsers read what the three printers print when each does
    so with one unit of fuel less. *)
Section parse_step.
Variable n : nat.
Hypothesis IHv : ∀ v r,
  need v <= n → parse_value n (stringify v +:+ r) = Some (Some v, r).
Hypothesis IHe : ∀ l r, l ≠ [] → need_elems l <= n →
  parse_elems n (stringify_elems l +:+ String "]" r) = Some (Some l, r).
Hypothesis IHm : ∀ m r, m ≠ [] → need_members m <= n →
  parse_members n (stringify_members m +:+ String "}" r) = Some (Some m, r).

Lemma parse_array_step l r :
  need_elems l <= n →
  parse_value (S n) (stringify (JArray l) +:+ r) = Some (Some (JArray l), r).
Proof.
  intros Hn. destruct (decide (l = [])) as [->|Hl]; [done|].
  rewrite stringify_array, !string_app_assoc.
  rewrite parse_value_bracket by by apply stringify_elems_starts.
  simpl. by rewrite IHe.
Qed.

Lemma parse_object_step m r :
  need_members m <= n →
  parse_value (S n) (stringify (JObject m) +:+ r) = Some (Some (JObject m), r).
Proof.
  intros Hn. destruct (decide (m = [])) as [->|Hm]; [done|].
  rewrite stringify_object, !string_app_assoc.
  rewrite parse_value_brace by by apply stringify_members_starts.
  simpl. by rewrite IHm.
Qed.

Lemma parse_value_step v r :
  need v <= S n → parse_value (S n) (stringify v +:+ r) = Some (Some v, r).
Proof.
  destruct v as [|[]|s|l|m]; intros Hn; try done.
  - apply parse_value_quote.
  - apply parse_array_step. rewrite need_array in Hn. lia.
  - apply parse_object_step. rewrite need_object in Hn. lia.
Qed.

Lemma parse_elems_step l r :
  l ≠ [] → need_elems l <= S n →
  parse_elems (S n) (stringify_elems l +:+ String "]" r) = Some (Some l, r).
Proof.
  destruct l as [|x l]; [done|]. intros _ Hn. cbn [need_elems] in Hn.
  destruct (decide (l = [])) as [->|Hl].
  - rewrite stringify_elems_one. cbn [parse_elems]. by rewrite IHv by lia.
  - rewrite stringify_elems_cons, !string_app_assoc by done.
    cbn [parse_elems]. rewrite IHv by lia. simpl. by rewrite IHe by (done || lia).
Qed.

Lemma parse_members_step m r :
  m ≠ [] → need_members m <= S n →
  parse_members (S n) (stringify_members m +:+ String "}" r) = Some (Some m, r).
Proof.
  destruct m as [|[k x] m]; [done|]. intros _ Hn. cbn [need_members] in Hn.
  destruct (decide (m = [])) as [->|Hm].
  - rewrite stringify_members_one, !string_app_assoc, parse_members_quote.
    by rewrite IHv by lia.
  - rewrite stringify_members_cons, !string_app_assoc, parse_members_quote by done.
    rewrite IHv by lia. simpl. by rewrite IHm by (done || lia).
Qed.
End parse_step.

(** ** The round trip *)

Lemma parse_stringify_fuel n :
  (∀ v r, need v <= n → parse_value n (stringify v +:+ r) = Some (Some v, r)) ∧
  (∀ l r, l ≠ [] → need_elems l <= n →
     parse_elems n (stringify_elems l +:+ String "]" r) = Some (Some l, r)) ∧
  (∀ m r, m ≠ [] → need_members m <= n →
     parse_members n (stringify_members m +:+ String "}" r) = Some (Some m, r)).
Proof.
  induction n as [|n (IHv & IHe & IHm)].
  - split_and!; [intros [] | intros [|? ?] | intros [|[] ?]]; simpl; (done || lia).
  - split_and!; eauto using parse_value_step, parse_elems_step, parse_members_step.
Qed.

Lemma need_elems_length l :
  Forall (λ v, need v < String.length (stringify v)) l →
  need_elems l <= String.length (stringify_elems l).
Proof.
  induction 1 as [|x l Hx _ IH]; [done|]. cbn [need_elems].
  destruct (decide (l = [])) as [->|Hl].
  - rewrite stringify_elems_one. simpl. lia.
  - rewrite stringify_elems_cons, !string_app_length by done. lia.
Qed.

Lemma need_members_length m :
  Forall (λ kv, need kv.2 < String.length (stringify kv.2)) m →
  need_members m <= String.length (stringify_members m).
Proof.
  induction 1 as [|[k x] m Hx _ IH]; [done|]. cbn [need_members]. simpl in Hx.
  destruct (decide (m = [])) as [->|Hm].
  - rewrite stringify_members_one, !string_app_length. simpl. lia.
  - rewrite stringify_members_cons, !string_app_length by done. lia.
Qed.

(** The fuel a printed value takes is less than the length of its text. *)
Lemma need_length v : need v < String.length (stringify v).
Proof.
  induction v as [|b|s|l IH|m IH] using json_induction;
    [simpl; lia | destruct b; simpl; lia | | |].
  - unfold stringify, quote. simpl. rewrite string_app_length. simpl. lia.
  - apply need_elems_length in IH. rewrite need_array, stringify_array.
    rewrite !string_app_length. simpl. lia.
  - apply need_members_length in IH. rewrite need_object, stringify_object.
    rewrite !string_app_length. simpl. lia.
Qed.

Theorem parse_stringify v : parse (stringify v) = Some v.
Proof.
  unfold parse, parse_text.
  pose proof (proj1 (parse_stringify_fuel (S (String.length (stringify v)))) v "") as H.
  rewrite string_app_nil_r in H. rewrite H; [done|].
  pose proof (need_length v). lia.
Qed.

Lemma stringify_truthy v : truthy (stringify v) = true.
Proof. by destruct v as [|[]| | |]. Qed.

(** ** The fuel of the parser

    The parser stops for lack of fuel on no text: what it reads with
    some fuel it reads with every fuel that is at least the number of
    characters read, and the fuel of [parse_text] is more than the
    length of the text. *)

(** The parser of a value, by the first character after white space. *)
Definition parse_value_of (n : nat) (c : ascii) (r : string)
    : option (option json * string) :=
  if (code c =? 110)%N then r' ← strip "ull" r; Some (Some JNull, r')
  else if (code c =? 116)%N then r' ← strip "rue" r; Some (Some (JBool true), r')
  else if (code c =? 102)%N then r' ← strip "alse" r; Some (Some (JBool false), r')
  else if (code c =? 34)%N then
    '(t, r') ← parse_string_body r; Some (fmap (M:=option) JString t, r')
  else if (code c =? 91)%N then
    match skip_ws r with
    | "" => None
    | String c' r' =>
        if (code c' =? 93)%N then Some (Some (JArray []), r')
        else '(l, r'') ← parse_elems n r; Some (fmap (M:=option) JArray l, r'')
    end
  else if (code c =? 123)%N then
    match skip_ws r with
    | "" => None
    | String c' r' =>
        if (code c' =? 125)%N then Some (Some (JObject []), r')
        else '(m, r'') ← parse_members n r; Some (fmap (M:=option) JObject m, r'')
    end
  else r' ← parse_number (String c r); Some (@None json, r').

Lemma parse_value_S n s :
  parse_value (S n) s =
  match skip_ws s with "" => None | String c r => parse_value_of n c r end.
Proof.
  cbn [parse_value]. destruct (skip_ws s) as [|c r]; [done|].
  unfold parse_value_of. destruct (code c) as [|p]; [done|].
  do 8 (destruct p as [p|p|]; try done).
Qed.

Lemma parse_elems_S n s :
  parse_elems (S n) s =
  '(v, r) ← parse_value n s;
  match skip_ws r with
  | "" => None
  | String c r' =>
      if (code c =? 44)%N then '(l, r'') ← parse_elems n r'; Some (cons_value v l, r'')
      else if (code c =? 93)%N then Some (cons_value v (Some []), r')
      else None
  end.
Proof.
  cbn [parse_elems]. destruct (parse_value n s) as [[v r]|]; [|done]. cbn.
  destruct (skip_ws r) as [|c r']; [done|]. destruct (code c) as [|p]; [done|].
  do 8 (destruct p as [p|p|]; try done).
Qed.

Lemma parse_members_S n s :
  parse_members (S n) s =
  match skip_ws s with
  | "" => None
  | String c r =>
      if (code c =? 34)%N then
        '(k, r1) ← parse_string_body r;
        match skip_ws r1 with
        | "" => None
        | String c1 r2 =>
            if (code c1 =? 58)%N then
              '(v, r3) ← parse_value n r2;
              match skip_ws r3 with
              | "" => None
              | String c3 r4 =>
                  if (code c3 =? 44)%N then
                    '(m, r5) ← parse_members n r4; Some (cons_member k v m, r5)
                  else if (code c3 =? 125)%N then Some (cons_member k v (Some []), r4)
                  else None
              end
            else None
        end
      else None
  end.
Proof.
  cbn [parse_members]. destruct (skip_ws s) as [|c r]; [done|].
  destruct (code c =? 34)%N; [|done].
  destruct (parse_string_body r) as [[k r1]|]; [|done]. cbn.
  destruct (skip_ws r1) as [|c1 r2]; [done|]. destruct (code c1 =? 58)%N; [|done].
  destruct (parse_value n r2) as [[v r3]|]; [|done]. cbn.
  destruct (skip_ws r3) as [|c3 r4]; [done|]. destruct (code c3) as [|p]; [done|].
  do 8 (destruct p as [p|p|]; try done).
Qed.

(** *** What is read is shorter than the text *)

Lemma skip_ws_length s : String.length (skip_ws s) <= String.length s.
Proof. induction s as [|c s IH]; [done|]. simpl. destruct (is_json_ws c); simpl; lia. Qed.

Lemma skip_ws_String s c r :
  skip_ws s = String c r → String.length r < String.length s.
Proof. intros Hs. pose proof (skip_ws_length s) as Hl. rewrite Hs in Hl. simpl in Hl. lia. Qed.

Lemma strip_length p s r :
  strip p s = Some r → String.length r <= String.length s.
Proof.
  revert s. induction p as [|a p IH]; intros s; simpl.
  - intros [= <-]. lia.
  - destruct s as [|b s]; [done|]. case_decide; [|done]. intros ?%IH. simpl. lia.
Qed.

Lemma parse_string_body_length s t r :
  parse_string_body s = Some (t, r) → String.length r < String.length s.
Proof.
  remember (String.length s) as k eqn:Hk. revert s Hk t r.
  induction k as [k IH] using lt_wf_ind. intros s -> t r.
  assert (∀ s' t r, String.length s' < String.length s →
            parse_string_body s' = Some (t, r) → String.length r < String.length s')
    as IH' by (intros; by eapply IH).
  clear IH. destruct s as [|c s]; [done|]. cbn [parse_string_body].
  repeat case_match; intros Hp; try done; simplify_eq; simpl; try lia.
  all: repeat (apply bind_Some in Hp as (? & ? & Hp)); repeat case_match; simplify_eq.
  all: match goal with H : parse_string_body _ = Some _ |- _ =>
         apply IH' in H; simpl in *; lia end.
Qed.

Lemma skip_digits_length s : String.length (skip_digits s) <= String.length s.
Proof. induction s as [|c s IH]; [done|]. simpl. destruct (is_digit c); simpl; lia. Qed.

Lemma digits1_length s r : digits1 s = Some r → String.length r < String.length s.
Proof.
  destruct s as [|c s]; [done|]. simpl. destruct (is_digit c); [|done].
  intros [= <-]. pose proof (skip_digits_length s). lia.
Qed.

Lemma parse_number_length s r :
  parse_number s = Some r → String.length r < String.length s.
Proof.
  unfold parse_number. intros (r1 & Hi & (r2 & Hf & He)%bind_Some)%bind_Some.
  assert (String.length r1 < String.length s) as H1.
  { destruct s as [|c s]; [done|]. destruct (code c =? 45)%N.
    - unfold parse_int in Hi. destruct s as [|d s]; [done|].
      destruct (code d =? 48)%N; [injection Hi as <-|apply digits1_length in Hi];
        simpl in *; lia.
    - unfold parse_int in Hi.
      destruct (code c =? 48)%N; [injection Hi as <-|apply digits1_length in Hi];
        simpl in *; lia. }
  assert (String.length r2 <= String.length r1) as H2.
  { unfold parse_frac in Hf. destruct r1 as [|c r1]; [by injection Hf as <-|].
    destruct (code c =? 46)%N; [apply digits1_length in Hf|injection Hf as <-];
      simpl in *; lia. }
  assert (String.length r <= String.length r2); [|lia].
  unfold parse_exp in He. destruct r2 as [|c r2]; [by injection He as <-|].
  destruct (_ || _); [|injection He as <-; lia].
  destruct r2 as [|d r2]; [done|].
  destruct (_ || _); apply digits1_length in He; simpl in *; lia.
Qed.

(** *** The fuel a text takes *)

(** [fuel_ok p n]: what [p] reads with fuel [n] is at least one
    character, and [p] reads it with every fuel that is at least the
    number of characters read. *)
Definition fuel_ok {A} (p : nat → string → option (A * string)) (n : nat) : Prop :=
  ∀ s a r, p n s = Some (a, r) →
    String.length r < String.length s ∧
    ∀ m, String.length s - String.length r <= m → p m s = Some (a, r).

(** Rewrites with the tests on characters that the context holds. *)
Ltac rewrite_tests :=
  repeat match goal with
    | H : (_ =? _)%N = _ |- _ => rewrite H; clear H
    | H : skip_ws _ = _ |- _ => rewrite H; clear H
    end.

Section fuel_step.
Variable n : nat.
Hypothesis IHv : fuel_ok parse_value n.
Hypothesis IHe : fuel_ok parse_elems n.
Hypothesis IHm : fuel_ok parse_members n.

Lemma parse_value_fuel_step : fuel_ok parse_value (S n).
Proof.
  intros s v r. rewrite parse_value_S.
  destruct (skip_ws s) as [|c r0] eqn:Hs; [done|].
  pose proof (skip_ws_String _ _ _ Hs) as Hlen. unfold parse_value_of.
  repeat case_match; intros Hp; try done;
    try (apply bind_Some in Hp as (x & Hx & Hp); try destruct x as [x r']);
    simplify_eq;
    try match goal with H : strip _ _ = Some _ |- _ =>
          pose proof (strip_length _ _ _ H) end;
    try match goal with H : parse_string_body _ = Some _ |- _ =>
          pose proof (parse_string_body_length _ _ _ H) end;
    try match goal with H : parse_number _ = Some _ |- _ =>
          pose proof (parse_number_length _ _ H) end;
    try match goal with H : skip_ws r0 = String _ _ |- _ =>
          pose proof (skip_ws_String _ _ _ H) end;
    try match goal with H : parse_elems n _ = Some _ |- _ => apply IHe in H as [? Hm'] end;
    try match goal with H : parse_members n _ = Some _ |- _ => apply IHm in H as [? Hm'] end;
    (split; [simpl in *; lia|]);
    (intros [|m] Hm; [simpl in *; lia|]);
    rewrite parse_value_S; unfold parse_value_of; rewrite_tests;
    try (rewrite Hm' by (simpl in *; lia)); try done.
  all: by rewrite Hx.
Qed.

Lemma parse_elems_fuel_step : fuel_ok parse_elems (S n).
Proof.
  intros s l r. rewrite parse_elems_S.
  intros ([v r1] & Hv & Hp)%bind_Some. apply IHv in Hv as [Hl1 Hv].
  destruct (skip_ws r1) as [|c r2] eqn:Hs; [done|].
  pose proof (skip_ws_String _ _ _ Hs) as Hl2.
  repeat case_match; try done;
    try (apply bind_Some in Hp as ([l' r3] & Hx & Hp); apply IHe in Hx as [? Hx]);
    simplify_eq; (split; [lia|]);
    (intros [|m] Hm; [lia|]);
    rewrite parse_elems_S, Hv by lia; cbn; rewrite_tests;
    try rewrite Hx by lia; done.
Qed.

Lemma parse_members_fuel_step : fuel_ok parse_members (S n).
Proof.
  intros s ms r. rewrite parse_members_S.
  destruct (skip_ws s) as [|c r0] eqn:Hs; [done|].
  pose proof (skip_ws_String _ _ _ Hs) as Hl0.
  destruct (code c =? 34)%N eqn:Hc; [|done].
  intros ([k r1] & Hk & Hp)%bind_Some.
  pose proof (parse_string_body_length _ _ _ Hk) as Hl1.
  destruct (skip_ws r1) as [|c1 r2] eqn:Hs1; [done|].
  pose proof (skip_ws_String _ _ _ Hs1) as Hl2.
  destruct (code c1 =? 58)%N eqn:Hc1; [|done].
  apply bind_Some in Hp as ([v r3] & Hv & Hp). apply IHv in Hv as [Hl3 Hv].
  destruct (skip_ws r3) as [|c3 r4] eqn:Hs3; [done|].
  pose proof (skip_ws_String _ _ _ Hs3) as Hl4.
  repeat case_match; try done;
    try (apply bind_Some in Hp as ([m' r5] & Hx & Hp); apply IHm in Hx as [? Hx]);
    simplify_eq; (split; [lia|]);
    (intros [|m] Hm; [lia|]);
    rewrite parse_members_S, Hs, Hc, Hk; cbn; rewrite Hs1, Hc1, Hv by lia; cbn;
    rewrite_tests; try rewrite Hx by lia; done.
Qed.
End fuel_step.

Lemma parse_fuel n :
  fuel_ok parse_value n ∧ fuel_ok parse_elems n ∧ fuel_ok parse_members n.
Proof.
  induction n as [|n (IHv & IHe & IHm)]; [by split_and!; intros ???|].
  split_and!;
    auto using parse_value_fuel_step, parse_elems_fuel_step, parse_members_fuel_step.
Qed.

(** The parser with a fuel of one's choice. *)
Definition parse_with (n : nat) (s : string) : option (option json) :=
  '(v, r) ← parse_value n s;
  if decide (skip_ws r = "") then Some v else None.

(** What any fuel reads of a text, the fuel of [parse_text] reads: a
    text that [parse_text] refuses is refused with every fuel, for its
    form and not for lack of fuel. *)
Theorem parse_text_fuel n s v : parse_with n s = Some v → parse_text s = Some v.
Proof.
  unfold parse_with, parse_text. intros ([v' r] & Hv & Hr)%bind_Some.
  apply (proj1 (parse_fuel n)) in Hv as [_ Hv]. by rewrite Hv by lia.
Qed.

Lemma is_json_spec s : is_json s = true ↔ ∃ n v, parse_with n s = Some v.
Proof.
  unfold is_json. rewrite bool_decide_eq_true. split.
  - intros [v Hv]. by exists (S (String.length s)), v.
  - intros (n & v & Hv). exists v. by eapply parse_text_fuel.
Qed.

Lemma parse_is_json s v : parse s = Some v → is_json s = true.
Proof.
  unfold parse, is_json. intros Hv. apply bool_decide_eq_true.
  by destruct (parse_text s).
Qed.

Definition quoted (s : string) : string := String dquote (s +:+ String dquote "").
Example texts :
  is_json "[1, -2.5e+3]" = true ∧ parse "[1, -2.5e+3]" = None ∧
  is_json "{oops" = false ∧ is_json "01" = false ∧ is_json "1." = false ∧
  is_json "[] x" = false ∧
  parse " [ null , true ] " = Some (JArray [JNull; JBool true]) ∧
  is_json (quoted "\u0100") = true ∧ parse (quoted "\u0100") = None ∧
  parse (quoted "\u0041") = Some (JString "A").
Proof. vm_compute. split_and!; reflexivity. Qed.
