(* ===== verification/Codec.v ===== *)
(** * Codec: typed data as stored text

    [JSON.stringify(x)] on a value of a TypeScript type and
    [JSON.parse(text)] read at that type.  The sources cast what
    [JSON.parse] returns to the type they expect and check nothing; the
    model is typed, so it describes a reading only when the text holds a
    value that the program itself writes.  [Codec A] is what a component
    relies on: reading back what was written gives the value, the text
    written is never empty (so the test [!localStorage.getItem(key)] tells
    an absent key from a written one), and only a JSON text has a reading.
    [read] tells the three cases apart: the value read ([Read]), a text
    that is no JSON ([Malformed]: [JSON.parse] throws), and a JSON text
    that holds something else than a value of the type as the program
    writes it ([Foreign]: [JSON.parse] returns, the sources go on with a
    value of another shape, and the model says nothing of what follows).

    The instance for the array of registrants goes through [Json]: a
    registrant is the object whose members are its properties, in the
    order of the object literal of [addRegistrant], with no [photoData]
    member when it is [undefined].  [decode_registrants] reads a text
    only when it is an array of objects that have the members of a
    [Registrant] and no other, each once and each a string, in any
    order: the sources read members by name, and the spread of
    [updateRegistrant] may print [photoData] after [createdAt], where the
    model prints it in the place [addRegistrant] gives it. *)

From Stdlib Require Import String.
From S2P Require Import Prelude JsString Types Json.

#[local] Open Scope string_scope.
#[local] Open Scope list_scope.

Class Codec (A : Type) : Type := {
  encode : A → string;
  decode : string → option A;
  decode_encode a : decode (encode a) = Some a;
  encode_truthy a : truthy (encode a) = true;
  decode_is_json t a : decode t = Some a → is_json t = true;
}.

(** What [JSON.parse(t)] is to code that expects an [A]. *)
Inductive reading (A : Type) : Type :=
| Read (a : A)
| Foreign
| Malformed.
Arguments Read {A} a.
Arguments Foreign {A}.
Arguments Malformed {A}.

Definition read `{Codec A} (t : string) : reading A :=
  match decode t with
  | Some a => Read a
  | None => if is_json t then Foreign else Malformed
  end.

(** ** Reading members of an object *)

Definition get_string (k : string) (m : list (string * json)) : option string :=
  match obj_get k m with Some (JString s) => Some s | _ => None end.

(** An optional member: absent, or a string. *)
Definition get_opt_string (k : string) (m : list (string * json))
    : option (option string) :=
  match obj_get k m with
  | None => Some None
  | Some (JString s) => Some (Some s)
  | Some _ => None
  end.

Definition get_bool (k : string) (m : list (string * json)) : option bool :=
  match obj_get k m with Some (JBool b) => Some b | _ => None end.

(** ** A registrant as an object *)

Definition registrant_to_json (r : Registrant) : json :=
  JObject
    ([("id", JString (id r));
      ("fullName", JString (fullName r));
      ("email", JString (email r));
      ("phone", JString (phone r));
      ("address", JString (address r));
      ("gender", JString (gender_to_string (gender r)));
      ("dateOfBirth", JString (dateOfBirth r))]
     ++ match photoData r with
        | Some p => [("photoData", JString p)]
        | None => []
        end
     ++ [("photoPath", JString (photoPath r));
         ("createdAt", JString (createdAt r))]).

(** The properties of a [Registrant] (types/index.ts). *)
Definition registrant_keys : list string :=
  ["id"; "fullName"; "email"; "phone"; "address"; "gender"; "dateOfBirth";
   "photoData"; "photoPath"; "createdAt"].

(** The members of an object are among [keys], each at most once. *)
Definition own_members (keys : list string) (m : list (string * json)) : bool :=
  bool_decide (NoDup m.*1 ∧ m.*1 ⊆ keys).

Definition registrant_of_json (v : json) : option Registrant :=
  match v with
  | JObject m =>
      guard (own_members registrant_keys m = true);;
      i ← get_string "id" m;
      n ← get_string "fullName" m;
      e ← get_string "email" m;
      p ← get_string "phone" m;
      a ← get_string "address" m;
      g ← get_string "gender" m ≫= gender_of_string;
      d ← get_string "dateOfBirth" m;
      pd ← get_opt_string "photoData" m;
      pp ← get_string "photoPath" m;
      c ← get_string "createdAt" m;
      Some (mkRegistrant i n e p a g d pp pd c)
  | _ => None
  end.

Definition registrants_to_json (rs : list Registrant) : json :=
  JArray (registrant_to_json <$> rs).

Definition registrants_of_json (v : json) : option (list Registrant) :=
  match v with
  | JArray l => mapM registrant_of_json l
  | _ => None
  end.

(** [JSON.stringify(registrants)] and [JSON.parse(text)] as
    [Registrant[]]. *)
Definition encode_registrants (rs : list Registrant) : string :=
  stringify (registrants_to_json rs).

Definition decode_registrants (s : string) : option (list Registrant) :=
  parse s ≫= registrants_of_json.

(** ** Round trips *)

Lemma registrant_of_to_json r : registrant_of_json (registrant_to_json r) = Some r.
Proof. destruct r as [? ? ? ? ? [] ? ? [] ?]; by vm_compute. Qed.

Lemma registrants_of_to_json rs :
  registrants_of_json (registrants_to_json rs) = Some rs.
Proof.
  unfold registrants_of_json, registrants_to_json. apply mapM_Some.
  induction rs; constructor; auto using registrant_of_to_json.
Qed.

(** C3.  What [JSON.stringify] writes of a list of registrants, [JSON.parse]
    reads back as that list: every field of every record, an absent
    [photoData] included, and the order of the records. *)
Theorem decode_encode_registrants rs :
  decode_registrants (encode_registrants rs) = Some rs.
Proof.
  unfold decode_registrants, encode_registrants.
  rewrite parse_stringify. apply registrants_of_to_json.
Qed.

(** Only a JSON text reads as a list of registrants. *)
Lemma decode_registrants_is_json t rs :
  decode_registrants t = Some rs → is_json t = true.
Proof. intros (v & Hv & _)%bind_Some. by eapply parse_is_json. Qed.

#[export] Instance registrants_codec : Codec (list Registrant).
Proof.
  refine {| encode := encode_registrants; decode := decode_registrants |}.
  - intros rs. unfold decode_registrants, encode_registrants.
    rewrite parse_stringify. apply registrants_of_to_json.
  - intros rs. apply stringify_truthy.
  - apply decode_registrants_is_json.
Defined.

Lemma read_encode `{Codec A} (a : A) : read (encode a) = Read a.
Proof. unfold read. by rewrite decode_encode. Qed.

Lemma read_Read `{Codec A} t (a : A) : read t = Read a ↔ decode t = Some a.
Proof. unfold read. destruct (decode t); [naive_solver|]. by destruct (is_json t). Qed.

Lemma read_Malformed `{Codec A} t : read (A:=A) t = Malformed ↔ is_json t = false.
Proof.
  unfold read. destruct (decode t) as [a|] eqn:Hd.
  - apply decode_is_json in Hd. rewrite Hd. naive_solver.
  - destruct (is_json t); naive_solver.
Qed.

(** The literal ['[]'] of [getAllRegistrants] reads as the empty array. *)
Lemma decode_registrants_empty : decode_registrants "[]" = Some [].
Proof. done. Qed.

Lemma encode_registrants_nil : encode_registrants [] = "[]".
Proof. done. Qed.
