(* ===== verification/Storage.v ===== *)
(** * Storage: the browser's [localStorage]

    The service and the session context reach persistent state through
    three calls only: [localStorage.getItem], [setItem] and [removeItem].
    [Storage] is that port as a class with the laws of a key-value store;
    the components are written and proved against it.  [setItem] is
    partial: a browser refuses a write that would exceed the origin's
    quota and throws [QuotaExceededError], leaving the store as it was.
    [JSON_parse] is the reading of a stored text at a type, with the
    [SyntaxError] of [JSON.parse].

    Two implementations discharge the laws: [LocalStorage], a finite map
    with an optional quota on the number of code units it holds, and the
    bare finite map, which accepts every write ([Unbounded]). *)

From stdpp Require Import gmap.
From S2P Require Import Prelude JsString Json Codec.

#[local] Open Scope string_scope.

(** ** Exceptions of the builtins the sources call *)

Inductive exn : Type :=
| SyntaxError          (* JSON.parse on a text that is not JSON *)
| QuotaExceededError   (* localStorage.setItem beyond the quota *)
| ForeignValue.        (* no exception of the sources: see [JSON_parse] *)

#[export] Instance exn_eq_dec : EqDecision exn.
Proof. solve_decision. Defined.

(** ** The port *)

Class Storage (St : Type) : Type := {
  getItem : string → St → option string;
  setItem : string → string → St → option St;
  removeItem : string → St → St;
  getItem_setItem k v s s' k' :
    setItem k v s = Some s' →
    getItem k' s' = if decide (k' = k) then Some v else getItem k' s;
  getItem_removeItem k s k' :
    getItem k' (removeItem k s) = if decide (k' = k) then None else getItem k' s;
}.

(** A storage that refuses no write. *)
Class Unbounded (St : Type) `{Storage St} : Prop :=
  setItem_total : ∀ k v (s : St), is_Some (setItem k v s).

(** [localStorage.setItem(k, v)] as an effect: it throws when the write is
    refused. *)
Definition setItemE `{Storage St} (k v : string) : eff St exn () := λ s,
  match setItem k v s with
  | Some s' => (s', Returns ())
  | None => (s, Throws QuotaExceededError)
  end.

Definition removeItemE `{Storage St} (k : string) : eff St exn () :=
  writes (removeItem k).

(** [JSON.parse(t)] where the sources expect an [A].  A text that is not
    JSON throws [SyntaxError].  On a JSON text that holds no [A] as the
    program writes it, [JSON.parse] returns and the sources go on with a
    value of another shape; the typed model cannot follow them, and ends
    the run with [ForeignValue], which stands for no behaviour of the
    sources: what a theorem says of a run that ends so, it says of the
    model only. *)
Definition JSON_parse {S} `{Codec A} (t : string) : eff S exn A :=
  match read t with
  | Read a => mret a
  | Foreign => throw ForeignValue
  | Malformed => throw SyntaxError
  end.

(** ** A map with a quota

    [used m] is the number of code units of the keys and values of [m];
    a write is accepted when the map it gives holds at most [quota] code
    units.  With no quota ([None]) every write is accepted. *)

Definition used (m : gmap string string) : N :=
  map_fold (λ k v acc, N.of_nat (String.length k + String.length v) + acc)%N 0%N m.

Record LocalStorage : Type := mkLocalStorage {
  cells : gmap string string;
  quota : option N;
}.

Definition within_quota (q : option N) (m : gmap string string) : bool :=
  match q with None => true | Some n => (used m <=? n)%N end.

Definition ls_getItem (k : string) (s : LocalStorage) : option string :=
  cells s !! k.

Definition ls_setItem (k v : string) (s : LocalStorage) : option LocalStorage :=
  let m := <[k:=v]> (cells s) in
  if within_quota (quota s) m then Some (mkLocalStorage m (quota s)) else None.

Definition ls_removeItem (k : string) (s : LocalStorage) : LocalStorage :=
  mkLocalStorage (delete k (cells s)) (quota s).

(** A fresh origin: nothing stored. *)
Definition empty_storage (q : option N) : LocalStorage := mkLocalStorage ∅ q.

(** ** The implementation satisfies the laws *)

Lemma decide_sym {A} `{EqDecision K} (k k' : K) (x y : A) :
  (if decide (k = k') then x else y) = (if decide (k' = k) then x else y).
Proof. by repeat case_decide. Qed.

Lemma ls_getItem_setItem k v s s' k' :
  ls_setItem k v s = Some s' →
  ls_getItem k' s' = if decide (k' = k) then Some v else ls_getItem k' s.
Proof.
  unfold ls_setItem, ls_getItem. case_match; [|done]. intros [= <-]. simpl.
  rewrite lookup_insert. apply decide_sym.
Qed.

Lemma ls_getItem_removeItem k s k' :
  ls_getItem k' (ls_removeItem k s) =
  if decide (k' = k) then None else ls_getItem k' s.
Proof. unfold ls_getItem. simpl. rewrite lookup_delete. apply decide_sym. Qed.

#[export] Instance local_storage : Storage LocalStorage := {|
  getItem := ls_getItem;
  setItem := ls_setItem;
  removeItem := ls_removeItem;
  getItem_setItem := ls_getItem_setItem;
  getItem_removeItem := ls_getItem_removeItem;
|}.

(** ** A map that accepts every write *)

Lemma gmap_getItem_setItem k v (s s' : gmap string string) k' :
  Some (<[k:=v]> s) = Some s' →
  s' !! k' = if decide (k' = k) then Some v else s !! k'.
Proof. intros [= <-]. rewrite lookup_insert. apply decide_sym. Qed.

Lemma gmap_getItem_removeItem k (s : gmap string string) k' :
  delete k s !! k' = if decide (k' = k) then None else s !! k'.
Proof. rewrite lookup_delete. apply decide_sym. Qed.

#[export] Instance gmap_storage : Storage (gmap string string) := {|
  getItem k s := s !! k;
  setItem k v s := Some (<[k:=v]> s);
  removeItem k s := delete k s;
  getItem_setItem := gmap_getItem_setItem;
  getItem_removeItem := gmap_getItem_removeItem;
|}.

#[export] Instance gmap_unbounded : Unbounded (gmap string string).
Proof. intros k v s. by eexists. Qed.

(** ** Consequences of the laws *)

Section storage_facts.
Context `{Storage St}.
Implicit Types (s : St) (k v : string).

Lemma getItem_setItem_eq k v s s' : setItem k v s = Some s' → getItem k s' = Some v.
Proof. intros Hs. by rewrite (getItem_setItem _ _ _ _ k Hs), decide_True. Qed.

Lemma getItem_setItem_ne k k' v s s' :
  k' ≠ k → setItem k v s = Some s' → getItem k' s' = getItem k' s.
Proof. intros Hne Hs. by rewrite (getItem_setItem _ _ _ _ k' Hs), decide_False. Qed.

Lemma getItem_removeItem_eq k s : getItem k (removeItem k s) = None.
Proof. by rewrite getItem_removeItem, decide_True. Qed.

Lemma getItem_removeItem_ne k k' s :
  k' ≠ k → getItem k' (removeItem k s) = getItem k' s.
Proof. intros. by rewrite getItem_removeItem, decide_False. Qed.

Lemma setItemE_returns k v s s' :
  setItem k v s = Some s' → setItemE k v s = (s', Returns ()).
Proof. unfold setItemE. by intros ->. Qed.

Lemma setItemE_throws k v s :
  setItem k v s = None → setItemE k v s = (s, Throws QuotaExceededError).
Proof. unfold setItemE. by intros ->. Qed.

(** A write either succeeds or throws and leaves the store as it was. *)
Lemma setItemE_cases k v s :
  (∃ s', setItem k v s = Some s' ∧ setItemE k v s = (s', Returns ())) ∨
  (setItem k v s = None ∧ setItemE k v s = (s, Throws QuotaExceededError)).
Proof. unfold setItemE. destruct (setItem k v s); eauto. Qed.
End storage_facts.

(** A store without a quota refuses nothing. *)
Lemma ls_setItem_no_quota k v m :
  ls_setItem k v (mkLocalStorage m None) = Some (mkLocalStorage (<[k:=v]> m) None).
Proof. done. Qed.

(** A store with a quota refuses exactly the writes that exceed it. *)
Lemma ls_setItem_quota k v m n :
  ls_setItem k v (mkLocalStorage m (Some n)) =
  if (used (<[k:=v]> m) <=? n)%N
  then Some (mkLocalStorage (<[k:=v]> m) (Some n)) else None.
Proof. done. Qed.

Lemma ls_setItem_keeps_quota k v s s' : ls_setItem k v s = Some s' → quota s' = quota s.
Proof. unfold ls_setItem. case_match; [|done]. by intros [= <-]. Qed.
