(* ===== verification/Registrants.v ===== *)
(** * Registrants: the collection and what the service does to it

    The pure part of the service (sources: [src/unnamed/part_001]; the
    components import it as [services/registrationService]): the record
    that [addRegistrant] builds, the record that [updateRegistrant]
    builds from the stored one, the search by identifier, and [Spec], the
    collection as a list with one function per operation of the service.
    What the browser supplies at a call ([crypto.randomUUID()],
    [Date.now()], [new Date().toISOString()]) is an argument, [Env].

    The facts proved here are those of section 8 of the specification at
    the level of the list: identifiers stay unique when [randomUUID] is
    fresh, a created record is found by its identifier, an update keeps
    the identifier and the creation time and changes the photo and its
    path together or not at all, a deletion of an unknown identifier
    changes nothing, and a record has a path exactly when it has a
    photo. *)

From Stdlib Require Import String ZArith.
From S2P Require Import Prelude JsString Types.

#[local] Open Scope string_scope.
#[local] Open Scope list_scope.

(** What the browser supplies to one call. *)
Record Env : Type := mkEnv {
  randomUUID : string;   (* crypto.randomUUID() *)
  date_now : Z;          (* Date.now() *)
  iso_now : string;      (* new Date().toISOString() *)
}.

(** The template literal [`photo_${Date.now()}.jpg`]. *)
Definition photo_path (now : Z) : string := "photo_" +:+ decimal now +:+ ".jpg".

(** The object literal of [addRegistrant]. *)
Definition newRegistrant (env : Env) (data : Form.RegistrantFormData) : Registrant :=
  {| id := randomUUID env;
     fullName := Form.fullName data;
     email := Form.email data;
     phone := Form.phone data;
     address := Form.address data;
     gender := Form.gender data;
     dateOfBirth := Form.dateOfBirth data;
     photoData := Form.photoData data;
     photoPath := if truthy_opt (Form.photoData data)
                  then photo_path (date_now env) else "";
     createdAt := iso_now env |}.

(** The object literal of [updateRegistrant]: the spread of the stored
    record keeps [id] and [createdAt]; the photo and its path change
    together, and only when the form brings a photo. *)
Definition updatedRegistrant (env : Env) (old : Registrant)
    (data : Form.RegistrantFormData) : Registrant :=
  {| id := id old;
     fullName := Form.fullName data;
     email := Form.email data;
     phone := Form.phone data;
     address := Form.address data;
     gender := Form.gender data;
     dateOfBirth := Form.dateOfBirth data;
     photoData := js_or (Form.photoData data) (photoData old);
     photoPath := if truthy_opt (Form.photoData data)
                  then photo_path (date_now env) else photoPath old;
     createdAt := createdAt old |}.

(** [registrants.findIndex(r => r.id === id)] with the element found:
    [None] is the index [-1]. *)
Definition findIndex (i : string) (rs : list Registrant) : option (nat * Registrant) :=
  list_find (λ r, id r = i) rs.

(** ** Calls of the service and what they return

    The exported functions as data, so that a session is a list of
    calls. *)

Inductive call : Type :=
| GetAll
| GetById (i : string)
| Add (env : Env) (data : Form.RegistrantFormData)
| Update (env : Env) (i : string) (data : Form.RegistrantFormData)
| Delete (i : string).

Inductive reply : Type :=
| Listed (rs : list Registrant)
| Found (r : option Registrant)
| Added (r : Registrant)
| Updated (r : option Registrant)
| Deleted (b : bool).

(** ** The specification: the collection as a list *)

Module Spec.
Definition getById (i : string) (rs : list Registrant) : option Registrant :=
  snd <$> findIndex i rs.

Definition create (env : Env) (data : Form.RegistrantFormData)
    (rs : list Registrant) : list Registrant :=
  rs ++ [newRegistrant env data].

Definition update (env : Env) (i : string) (data : Form.RegistrantFormData)
    (rs : list Registrant) : option (Registrant * list Registrant) :=
  '(index, old) ← findIndex i rs;
  let r := updatedRegistrant env old data in
  Some (r, <[index:=r]> rs).

Definition delete (i : string) (rs : list Registrant) : list Registrant :=
  filter (λ r, id r ≠ i) rs.

(** Whether a deletion removes something. *)
Definition removes (i : string) (rs : list Registrant) : bool :=
  bool_decide (length (delete i rs) ≠ length rs).

(** Identifiers are pairwise distinct. *)
Definition unique_ids (rs : list Registrant) : Prop := NoDup (id <$> rs).

(** A record has a photo path exactly when it has a photo. *)
Definition photo_consistent (r : Registrant) : Prop :=
  truthy (photoPath r) = truthy_opt (photoData r).

(** The invariant of the collection. *)
Definition wf (rs : list Registrant) : Prop :=
  unique_ids rs ∧ Forall photo_consistent rs.

(** One call: its reply and the collection after it. *)
Definition step (c : call) (rs : list Registrant) : reply * list Registrant :=
  match c with
  | GetAll => (Listed rs, rs)
  | GetById i => (Found (getById i rs), rs)
  | Add env data => (Added (newRegistrant env data), create env data rs)
  | Update env i data =>
      (Updated (fst <$> update env i data rs),
       default rs (snd <$> update env i data rs))
  | Delete i => (Deleted (removes i rs), delete i rs)
  end.

(** A session: the collection after a list of calls. *)
Definition run (cs : list call) (rs : list Registrant) : list Registrant :=
  foldl (λ rs c, (step c rs).2) rs cs.

(** [randomUUID] gave an identifier that no record has. *)
Definition fresh (c : call) (rs : list Registrant) : Prop :=
  match c with
  | Add env _ => randomUUID env ∉ id <$> rs
  | _ => True
  end.

(** Every [Add] of a session, in its turn, had a fresh identifier. *)
Fixpoint fresh_all (cs : list call) (rs : list Registrant) : Prop :=
  match cs with
  | [] => True
  | c :: cs => fresh c rs ∧ fresh_all cs (step c rs).2
  end.
End Spec.

(** ** Sample data

    The three registrants of the scenario of section 8 of the
    specification, and what the browser supplied when each was created. *)

Module Sample.
Definition env1 : Env :=
  mkEnv "3f2b8c1e-0001" 1731059999123 "2024-11-08T09:59:59.123Z".
Definition env2 : Env :=
  mkEnv "3f2b8c1e-0002" 1731060000456 "2024-11-08T10:00:00.456Z".
Definition env3 : Env :=
  mkEnv "3f2b8c1e-0003" 1731060001789 "2024-11-08T10:00:01.789Z".

Definition photo : string := "data:image/jpeg;base64,/9j/4AAQ".

Definition alice : Form.RegistrantFormData :=
  Form.mkFormData "Alice Smith" "alice@example.com" "5550100100"
    "1 Main Street" female "1990-01-01" (Some photo) None.
Definition bob : Form.RegistrantFormData :=
  Form.mkFormData "Bob Jones" "bob@example.com" "5550100200"
    "2 Main Street" male "1985-05-05" None None.
Definition alice_brown : Form.RegistrantFormData :=
  Form.mkFormData "Alice Brown" "brown@example.com" "5550100300"
    "3 Main Street" other "1979-09-09" (Some photo) None.

(** The collection after the three creations. *)
Definition three : list Registrant :=
  Spec.run [Add env1 alice; Add env2 bob; Add env3 alice_brown] [].
End Sample.

(** ** Facts of the specification *)

Section spec_facts.
Implicit Types (rs : list Registrant) (r old : Registrant) (i : string).
Implicit Types (env : Env) (data : Form.RegistrantFormData).

Lemma findIndex_Some i rs index r :
  findIndex i rs = Some (index, r) → rs !! index = Some r ∧ id r = i.
Proof. intros (? & ? & _)%list_find_Some. done. Qed.

Lemma findIndex_None i rs : findIndex i rs = None ↔ i ∉ id <$> rs.
Proof.
  unfold findIndex. rewrite list_find_None, Forall_forall, list_elem_of_fmap.
  split.
  - intros Hall (r & -> & Hr). by apply (Hall r).
  - intros Hnot r Hr Heq. apply Hnot. by exists r.
Qed.

Lemma findIndex_elem_of i rs : i ∈ id <$> rs → is_Some (findIndex i rs).
Proof.
  intros Hi. destruct (findIndex i rs) eqn:E; [done|].
  by apply findIndex_None in E.
Qed.

(** With unique identifiers, a record is found at its own index. *)
Lemma findIndex_unique rs index r :
  Spec.unique_ids rs → rs !! index = Some r → findIndex (id r) rs = Some (index, r).
Proof.
  intros Hu Hr. apply list_find_Some. split_and!; [done..|].
  intros j y Hy Hlt Heq.
  assert ((id <$> rs) !! j = Some (id r)) as Hj
    by (rewrite list_lookup_fmap, Hy; simpl; by rewrite Heq).
  assert ((id <$> rs) !! index = Some (id r)) as Hindex
    by (by rewrite list_lookup_fmap, Hr).
  pose proof (NoDup_lookup _ _ _ _ Hu Hj Hindex). lia.
Qed.

(** *** [getById] *)

Lemma getById_None i rs : Spec.getById i rs = None ↔ i ∉ id <$> rs.
Proof. unfold Spec.getById. rewrite fmap_None. apply findIndex_None. Qed.

Lemma getById_Some i rs r : Spec.getById i rs = Some r → r ∈ rs ∧ id r = i.
Proof.
  unfold Spec.getById. intros ([index r'] & Hf & ->)%fmap_Some.
  apply findIndex_Some in Hf as [? ?]. eauto using list_elem_of_lookup_2.
Qed.

Lemma getById_unique rs r :
  Spec.unique_ids rs → r ∈ rs → Spec.getById (id r) rs = Some r.
Proof.
  intros Hu [index Hr]%list_elem_of_lookup. unfold Spec.getById.
  by rewrite (findIndex_unique _ _ _ Hu Hr).
Qed.

(** *** [create] *)

Lemma create_ids env data rs :
  id <$> Spec.create env data rs = (id <$> rs) ++ [randomUUID env].
Proof. unfold Spec.create. by rewrite fmap_app. Qed.

Lemma create_length env data rs :
  length (Spec.create env data rs) = S (length rs).
Proof. unfold Spec.create. rewrite length_app. simpl. lia. Qed.

Lemma create_unique_ids env data rs :
  Spec.unique_ids rs → randomUUID env ∉ id <$> rs →
  Spec.unique_ids (Spec.create env data rs).
Proof.
  unfold Spec.unique_ids. rewrite create_ids, NoDup_app. intros Hu Hfresh.
  split_and!; [done| |apply NoDup_singleton].
  intros x Hx ->%list_elem_of_singleton. done.
Qed.

(** The record just created is the one its identifier finds. *)
Lemma create_getById env data rs :
  randomUUID env ∉ id <$> rs →
  Spec.getById (randomUUID env) (Spec.create env data rs) = Some (newRegistrant env data).
Proof.
  intros Hfresh%findIndex_None. unfold Spec.getById, Spec.create, findIndex in *.
  rewrite list_find_app_r by done. simpl. by rewrite decide_True.
Qed.

(** Records that were there are found as before, whatever the new
    identifier is. *)
Lemma create_getById_old env data rs i r :
  Spec.getById i rs = Some r → Spec.getById i (Spec.create env data rs) = Some r.
Proof.
  unfold Spec.getById, Spec.create, findIndex.
  intros ([index r'] & Hf & ->)%fmap_Some. by erewrite list_find_app_l.
Qed.

(** *** [update] *)

Lemma update_None env i data rs :
  Spec.update env i data rs = None ↔ i ∉ id <$> rs.
Proof.
  rewrite <- findIndex_None. unfold Spec.update.
  destruct (findIndex i rs) as [[index old]|]; naive_solver.
Qed.

Lemma update_Some env i data rs r rs' :
  Spec.update env i data rs = Some (r, rs') ↔
  ∃ index old, findIndex i rs = Some (index, old) ∧
               r = updatedRegistrant env old data ∧ rs' = <[index:=r]> rs.
Proof.
  unfold Spec.update. destruct (findIndex i rs) as [[index old]|]; simpl.
  - split; [intros [= <- <-]; eauto | intros (? & ? & [= <- <-] & -> & ->); done].
  - split; [done | intros (? & ? & ? & _); done].
Qed.

(** The identifiers, in order, are what they were. *)
Lemma update_ids env i data rs r rs' :
  Spec.update env i data rs = Some (r, rs') → id <$> rs' = id <$> rs ∧ id r = i.
Proof.
  intros (index & old & Hf & -> & ->)%update_Some.
  apply findIndex_Some in Hf as [Hold Hid]. split; [|done].
  rewrite list_fmap_insert. apply list_insert_id.
  by rewrite list_lookup_fmap, Hold.
Qed.

Lemma update_length env i data rs r rs' :
  Spec.update env i data rs = Some (r, rs') → length rs' = length rs.
Proof. intros (index & old & _ & _ & ->)%update_Some. apply length_insert. Qed.

Lemma update_unique_ids env i data rs r rs' :
  Spec.unique_ids rs → Spec.update env i data rs = Some (r, rs') →
  Spec.unique_ids rs'.
Proof. unfold Spec.unique_ids. intros Hu [-> _]%update_ids. done. Qed.

(** Only the record found changes. *)
Lemma update_others env i data rs r rs' index old j :
  findIndex i rs = Some (index, old) →
  Spec.update env i data rs = Some (r, rs') → j ≠ index → rs' !! j = rs !! j.
Proof.
  intros Hf (index' & old' & Hf' & _ & ->)%update_Some Hj.
  rewrite Hf in Hf'. injection Hf' as <- <-. by apply list_lookup_insert_ne.
Qed.

(** The updated record is stored where the old one was. *)
Lemma update_lookup env i data rs r rs' index old :
  findIndex i rs = Some (index, old) →
  Spec.update env i data rs = Some (r, rs') → rs' !! index = Some r.
Proof.
  intros Hf (index' & old' & Hf' & _ & ->)%update_Some.
  rewrite Hf in Hf'. injection Hf' as <- <-.
  apply findIndex_Some in Hf as [Hold _].
  apply list_lookup_insert_eq. by eapply lookup_lt_Some.
Qed.

(** Where a record is replaced by one of the same identifier, every
    identifier finds what it found, the replaced record's its
    replacement. *)
Lemma findIndex_insert i j rs index old r :
  findIndex i rs = Some (index, old) → id r = i →
  findIndex j (<[index:=r]> rs) =
  if decide (j = i) then Some (index, r) else findIndex j rs.
Proof.
  unfold findIndex. intros (Hold & Hid & Hfirst)%list_find_Some Hr.
  pose proof (lookup_lt_Some _ _ _ Hold) as Hlt.
  case_decide as Hj.
  - subst j. apply list_find_Some. split_and!; [by apply list_lookup_insert_eq|done|].
    intros k y Hy Hk. rewrite list_lookup_insert_ne in Hy by lia. eauto.
  - destruct (list_find _ rs) as [[k x]|] eqn:Hfind.
    + apply list_find_Some in Hfind as (Hx & Hxj & Hbefore).
      assert (k ≠ index) by (intros ->; congruence).
      apply list_find_Some. split_and!; [by rewrite list_lookup_insert_ne|done|].
      intros k' y Hy Hk'. destruct (decide (k' = index)) as [->|].
      * rewrite list_lookup_insert_eq in Hy by done. congruence.
      * rewrite list_lookup_insert_ne in Hy by done. eauto.
    + apply list_find_None in Hfind. apply list_find_None, Forall_insert; [done|].
      congruence.
Qed.

(** After an update, the identifier finds the updated record and every
    other identifier finds what it found. *)
Theorem update_getById env i data rs r rs' j :
  Spec.update env i data rs = Some (r, rs') →
  Spec.getById j rs' = if decide (j = i) then Some r else Spec.getById j rs.
Proof.
  intros (index & old & Hf & -> & ->)%update_Some. unfold Spec.getById.
  rewrite (findIndex_insert i j rs index old) by (done || by apply findIndex_Some in Hf as [_ ?]).
  by case_decide.
Qed.

(** A record keeps its identifier and its creation time. *)
Lemma updated_keeps env old data :
  id (updatedRegistrant env old data) = id old ∧
  createdAt (updatedRegistrant env old data) = createdAt old.
Proof. done. Qed.

(** Without a photo in the form, the stored photo and its path stay. *)
Lemma updated_without_photo env old data :
  truthy_opt (Form.photoData data) = false →
  photoData (updatedRegistrant env old data) = photoData old ∧
  photoPath (updatedRegistrant env old data) = photoPath old.
Proof. intros Hp. simpl. by rewrite js_or_falsy, Hp. Qed.

(** With a photo in the form, the photo and its path are both new. *)
Lemma updated_with_photo env old data :
  truthy_opt (Form.photoData data) = true →
  photoData (updatedRegistrant env old data) = Form.photoData data ∧
  photoPath (updatedRegistrant env old data) = photo_path (date_now env).
Proof. intros Hp. simpl. by rewrite js_or_truthy, Hp. Qed.

Lemma photo_path_truthy now : truthy (photo_path now) = true.
Proof. done. Qed.

(** *** [delete] *)

Lemma delete_elem_of i rs r : r ∈ Spec.delete i rs ↔ r ∈ rs ∧ id r ≠ i.
Proof. unfold Spec.delete. rewrite list_elem_of_filter. tauto. Qed.

Lemma delete_not_in i rs : i ∉ id <$> Spec.delete i rs.
Proof. intros (r & -> & [_ Hr]%delete_elem_of)%list_elem_of_fmap. done. Qed.

Lemma delete_sublist i rs : Spec.delete i rs `sublist_of` rs.
Proof. apply sublist_filter. Qed.

Lemma delete_unique_ids i rs : Spec.unique_ids rs → Spec.unique_ids (Spec.delete i rs).
Proof.
  unfold Spec.unique_ids. intros Hu. eapply sublist_NoDup; [done|].
  apply fmap_sublist, delete_sublist.
Qed.

(** An update is of the record its identifier finds. *)
Lemma update_of_found env i data rs r rs' :
  Spec.update env i data rs = Some (r, rs') →
  ∃ old, Spec.getById i rs = Some old ∧ r = updatedRegistrant env old data.
Proof.
  intros (index & old & Hf & -> & _)%update_Some. exists old.
  unfold Spec.getById. by rewrite Hf.
Qed.

(** C31.  Section 8, update preserves untouched photo: an update whose form
    brings no photo keeps the photo and the path of the stored record,
    both, with its identifier and its creation time. *)
Theorem update_without_photo env i data rs r rs' :
  Spec.update env i data rs = Some (r, rs') →
  truthy_opt (Form.photoData data) = false →
  ∃ old, Spec.getById i rs = Some old ∧
         photoData r = photoData old ∧ photoPath r = photoPath old ∧
         id r = id old ∧ createdAt r = createdAt old.
Proof.
  intros (old & Hold & ->)%update_of_found Hp. exists old.
  pose proof (updated_without_photo env old data Hp) as [? ?].
  pose proof (updated_keeps env old data) as [? ?]. done.
Qed.

(** C32.  Section 8, update replaces photo atomically: an update whose form
    brings a photo stores that photo and a path made at the time of the
    update, which is not empty; the identifier and the creation time
    stay. *)
Theorem update_with_photo env i data rs r rs' :
  Spec.update env i data rs = Some (r, rs') →
  truthy_opt (Form.photoData data) = true →
  ∃ old, Spec.getById i rs = Some old ∧
         photoData r = Form.photoData data ∧
         photoPath r = photo_path (date_now env) ∧ truthy (photoPath r) = true ∧
         id r = id old ∧ createdAt r = createdAt old.
Proof.
  intros (old & Hold & ->)%update_of_found Hp. exists old.
  pose proof (updated_with_photo env old data Hp) as [? Hpath].
  pose proof (updated_keeps env old data) as [? ?].
  split_and!; try done. rewrite Hpath. apply photo_path_truthy.
Qed.

Lemma removes_true i rs : Spec.removes i rs = true ↔ i ∈ id <$> rs.
Proof.
  unfold Spec.removes, Spec.delete. rewrite bool_decide_eq_true.
  rewrite filter_length_eq_Forall, Forall_forall. split.
  - intros Hn. destruct (decide (i ∈ id <$> rs)) as [|Hnot]; [done|].
    exfalso. apply Hn. intros r Hr <-. apply Hnot, list_elem_of_fmap. by exists r.
  - intros (r & -> & Hr)%list_elem_of_fmap Hall. by apply (Hall r).
Qed.

Lemma delete_absent i rs : i ∉ id <$> rs → Spec.delete i rs = rs.
Proof.
  intros Hi. apply filter_length_eq, filter_length_eq_Forall, Forall_forall.
  intros r Hr <-. apply Hi, list_elem_of_fmap. by exists r.
Qed.

(** Deleting an identifier that is not there changes nothing and
    answers [false]. *)
Theorem delete_unknown i rs :
  i ∉ id <$> rs → Spec.delete i rs = rs ∧ Spec.removes i rs = false.
Proof.
  intros Hi. split; [by apply delete_absent|].
  apply not_true_is_false. by rewrite removes_true.
Qed.

Lemma delete_idemp i rs : Spec.delete i (Spec.delete i rs) = Spec.delete i rs.
Proof. apply delete_absent, delete_not_in. Qed.

Lemma delete_cons i r rs :
  Spec.delete i (r :: rs) =
  if decide (id r ≠ i) then r :: Spec.delete i rs else Spec.delete i rs.
Proof. unfold Spec.delete. by rewrite filter_cons. Qed.

(** With unique identifiers, a deletion removes exactly one record. *)
Lemma delete_unique_length i rs :
  Spec.unique_ids rs → i ∈ id <$> rs → S (length (Spec.delete i rs)) = length rs.
Proof.
  unfold Spec.unique_ids. induction rs as [|r rs IH]; simpl.
  - by intros _ ?%elem_of_nil.
  - intros [Hr Hu]%NoDup_cons Hi. rewrite delete_cons.
    case_decide as Hid; simpl.
    + apply elem_of_cons in Hi as [->|Hi]; [done|]. f_equal. auto.
    + destruct Hid. f_equal. by rewrite (delete_absent (id r) rs Hr).
Qed.

(** *** The photo and its path *)

Lemma new_photo_consistent env data : Spec.photo_consistent (newRegistrant env data).
Proof.
  unfold Spec.photo_consistent. simpl.
  by destruct (truthy_opt (Form.photoData data)).
Qed.

Lemma updated_photo_consistent env old data :
  Spec.photo_consistent old → Spec.photo_consistent (updatedRegistrant env old data).
Proof.
  unfold Spec.photo_consistent. simpl. unfold js_or. intros Hold.
  by destruct (truthy_opt (Form.photoData data)) eqn:E.
Qed.

(** *** The invariant is kept *)

Lemma wf_nil : Spec.wf [].
Proof. split; constructor. Qed.

Lemma create_wf env data rs :
  Spec.wf rs → randomUUID env ∉ id <$> rs → Spec.wf (Spec.create env data rs).
Proof.
  intros [Hu Hp] Hfresh. split; [by apply create_unique_ids|].
  apply Forall_app. split; [done|].
  apply Forall_singleton, new_photo_consistent.
Qed.

Lemma update_wf env i data rs r rs' :
  Spec.wf rs → Spec.update env i data rs = Some (r, rs') → Spec.wf rs'.
Proof.
  intros [Hu Hp] Hup. split; [by eapply update_unique_ids|].
  apply update_Some in Hup as (index & old & Hf & -> & ->).
  apply findIndex_Some in Hf as [Hold _].
  apply Forall_insert; [done|]. apply updated_photo_consistent.
  by eapply (Forall_lookup_1 _ _ _ _ Hp).
Qed.

Lemma delete_wf i rs : Spec.wf rs → Spec.wf (Spec.delete i rs).
Proof.
  intros [Hu Hp]. split; [by apply delete_unique_ids|].
  rewrite Forall_forall in *. intros r [Hr _]%delete_elem_of. auto.
Qed.

#[local] Hint Resolve wf_nil create_wf update_wf delete_wf : reg.

(** Every call keeps the invariant, an [Add] when its identifier is
    fresh. *)
Lemma step_wf c rs : Spec.wf rs → Spec.fresh c rs → Spec.wf (Spec.step c rs).2.
Proof.
  destruct c as [|i|env data|env i data|i]; simpl; intros Hwf Hfresh;
    eauto with reg.
  destruct (Spec.update env i data rs) as [[r rs']|] eqn:Hup; simpl;
    eauto with reg.
Qed.

(** Every session whose [Add]s had fresh identifiers keeps the
    invariant. *)
Theorem run_wf cs rs : Spec.wf rs → Spec.fresh_all cs rs → Spec.wf (Spec.run cs rs).
Proof.
  revert rs. induction cs as [|c cs IH]; intros rs Hwf; [done|].
  intros [Hc Hcs]. apply IH; [by apply step_wf|done].
Qed.
End spec_facts.

#[export] Hint Resolve wf_nil create_wf update_wf delete_wf step_wf : reg.

(** *** What an update touches *)

(** [rs'] is [rs] but for the records of [i], which keep their
    identifier and their date of creation. *)
Definition only_at (i : string) (rs rs' : list Registrant) : Prop :=
  Forall2 (λ a b, id a = id b ∧ createdAt a = createdAt b ∧ (id a ≠ i → a = b)) rs rs'.

Lemma only_at_refl i rs : only_at i rs rs.
Proof. by apply Forall_Forall2_diag, Forall_true. Qed.

Lemma only_at_trans i rs1 rs2 rs3 :
  only_at i rs1 rs2 → only_at i rs2 rs3 → only_at i rs1 rs3.
Proof.
  unfold only_at. intros H12. revert rs3.
  induction H12 as [|a b rs1 rs2 (Hid & Hc & Hne) _ IH]; intros rs3 H23;
    inversion H23 as [|? c ? rs3' (Hid' & Hc' & Hne')]; subst; constructor; [|by apply IH].
  split_and!; [congruence..|]. intros Ha. rewrite Hne by done. apply Hne'. congruence.
Qed.

Lemma only_at_update env i data rs r rs' :
  Spec.update env i data rs = Some (r, rs') → only_at i rs rs'.
Proof.
  unfold Spec.update. destruct (findIndex i rs) as [[index old]|] eqn:Hf; [|done].
  cbn. intros [= <- <-]. apply findIndex_Some in Hf as [Hold Hid].
  rewrite <-(list_insert_id rs index old) at 1 by done.
  apply Forall2_insert; [apply only_at_refl|]. by split_and!.
Qed.

Lemma only_at_length i rs rs' : only_at i rs rs' → length rs = length rs'.
Proof. apply Forall2_length. Qed.

(** ** The facts on sample data *)

Lemma run_wf_witness : Spec.wf Sample.three.
Proof.
  apply (run_wf [Add Sample.env1 Sample.alice; Add Sample.env2 Sample.bob;
                 Add Sample.env3 Sample.alice_brown] []);
    [apply wf_nil|]. repeat split; apply (bool_decide_unpack _); by vm_compute.
Defined.

(** Alice's record updated with Bob's form, which has no photo, and
    Bob's record updated with Alice's form, which has one. *)
Definition alice_as_bob : Registrant :=
  updatedRegistrant Sample.env2 (newRegistrant Sample.env1 Sample.alice) Sample.bob.
Definition bob_as_alice : Registrant :=
  updatedRegistrant Sample.env3 (newRegistrant Sample.env2 Sample.bob) Sample.alice.

Lemma update_without_photo_witness :
  ∃ old, Spec.getById "3f2b8c1e-0001" Sample.three = Some old ∧
         photoData alice_as_bob = photoData old ∧
         photoPath alice_as_bob = photoPath old ∧
         id alice_as_bob = id old ∧ createdAt alice_as_bob = createdAt old.
Proof.
  apply (update_without_photo Sample.env2 "3f2b8c1e-0001" Sample.bob Sample.three _
           (<[0%nat:=alice_as_bob]> Sample.three)); by vm_compute.
Defined.

Lemma update_with_photo_witness :
  ∃ old, Spec.getById "3f2b8c1e-0002" Sample.three = Some old ∧
         photoData bob_as_alice = Form.photoData Sample.alice ∧
         photoPath bob_as_alice = photo_path (date_now Sample.env3) ∧
         truthy (photoPath bob_as_alice) = true ∧
         id bob_as_alice = id old ∧ createdAt bob_as_alice = createdAt old.
Proof.
  apply (update_with_photo Sample.env3 "3f2b8c1e-0002" Sample.alice Sample.three _
           (<[1%nat:=bob_as_alice]> Sample.three)); by vm_compute.
Defined.

Lemma delete_unknown_witness :
  Spec.delete "no-such-id" Sample.three = Sample.three ∧
  Spec.removes "no-such-id" Sample.three = false.
Proof. apply delete_unknown. apply (bool_decide_unpack _). by vm_compute. Defined.

Lemma delete_unique_length_witness :
  S (length (Spec.delete "3f2b8c1e-0002" Sample.three)) = length Sample.three.
Proof.
  apply delete_unique_length; apply (bool_decide_unpack _); by vm_compute.
Defined.

Lemma update_getById_witness :
  Spec.getById "3f2b8c1e-0001"
    (<[1%nat:=bob_as_alice]> Sample.three)
  = if decide ("3f2b8c1e-0001" = "3f2b8c1e-0002")
    then Some bob_as_alice
    else Spec.getById "3f2b8c1e-0001" Sample.three.
Proof.
  apply (update_getById Sample.env3 "3f2b8c1e-0002" Sample.alice Sample.three).
  by vm_compute.
Defined.

(** The scenario without a photo of section 8: the path is empty and the
    photo absent. *)
Example create_without_photo :
  photoPath (newRegistrant Sample.env2 Sample.bob) = "" ∧
  photoData (newRegistrant Sample.env2 Sample.bob) = None.
Proof. done. Qed.

(** When [randomUUID] repeats an identifier, the collection holds two
    records of that identifier, [getById] finds the older one, and a
    deletion removes both. *)
Example collision :
  let rs := Spec.create Sample.env1 Sample.bob (Spec.create Sample.env1 Sample.alice []) in
  length rs = 2%nat ∧
  Spec.getById "3f2b8c1e-0001" rs = Some (newRegistrant Sample.env1 Sample.alice) ∧
  Spec.delete "3f2b8c1e-0001" rs = [].
Proof. by vm_compute. Qed.
