(* ===== verification/RegistrationService.v ===== *)
(** * RegistrationService: the store of registrants

    The service that the components import as
    [services/registrationService] (sources: [src/unnamed/part_001]):
    the five exported functions and [initializeStorage], written in the effect monad over the storage
    port.  Each reads the whole array under the key ["registrants"],
    changes it and writes the whole array back.  An [async] function of
    the sources has no [await]: its body runs to its end when called, so
    it is a plain effect here, and a rejected promise is a throw.

    [view] reads the list a storage holds.  The theorems show that every
    function, run on a storage with a view, does to the view what
    [Registrants.Spec] says (refinement), that it throws only when the
    browser refuses a write and then changes nothing, and that it touches
    no other key.  On a storage whose text is not JSON ([malformed])
    every function throws the [SyntaxError] of [JSON.parse]; a JSON text
    that is no collection as the program writes it has no view, and a
    run on it is outside the model ([Storage.JSON_parse]). *)

From Stdlib Require Import String ZArith.
From stdpp Require Import gmap.
From S2P Require Import Prelude JsString Types Json Codec Storage Registrants.

#[local] Open Scope string_scope.
#[local] Open Scope list_scope.

Definition STORAGE_KEY : string := "registrants".

(** ** The service *)

Section service.
Context `{Storage St} `{Codec (list Registrant)}.

Definition initializeStorage : eff St exn () :=
  item ← reads (getItem STORAGE_KEY);
  if truthy_opt item then mret ()
  else setItemE STORAGE_KEY (encode ([] : list Registrant)).

Definition getAllRegistrants : eff St exn (list Registrant) :=
  initializeStorage;;
  item ← reads (getItem STORAGE_KEY);
  JSON_parse (default "[]" (js_or item (Some "[]"))).

Definition getRegistrantById (i : string) : eff St exn (option Registrant) :=
  registrants ← getAllRegistrants;
  mret (snd <$> findIndex i registrants).

Definition addRegistrant (env : Env) (data : Form.RegistrantFormData)
    : eff St exn Registrant :=
  registrants ← getAllRegistrants;
  let r := newRegistrant env data in
  setItemE STORAGE_KEY (encode (registrants ++ [r]));;
  mret r.

Definition updateRegistrant (env : Env) (i : string)
    (data : Form.RegistrantFormData) : eff St exn (option Registrant) :=
  registrants ← getAllRegistrants;
  match findIndex i registrants with
  | None => mret None
  | Some (index, old) =>
      let r := updatedRegistrant env old data in
      setItemE STORAGE_KEY (encode (<[index:=r]> registrants));;
      mret (Some r)
  end.

Definition deleteRegistrant (i : string) : eff St exn bool :=
  registrants ← getAllRegistrants;
  let filteredRegistrants := filter (λ r, id r ≠ i) registrants in
  if decide (length filteredRegistrants = length registrants) then mret false
  else setItemE STORAGE_KEY (encode filteredRegistrants);; mret true.

(** The list a storage holds: the reading of the text under the key, the
    empty list when nothing (or the empty text) is there. *)
Definition view (s : St) : option (list Registrant) :=
  match getItem STORAGE_KEY s with
  | Some t => if truthy t then decode t else Some []
  | None => Some []
  end.

(** The key holds a text that is not JSON. *)
Definition malformed (s : St) : bool :=
  match getItem STORAGE_KEY s with
  | Some t => truthy t && negb (is_json t)
  | None => false
  end.

(** The key holds a text: [initializeStorage] has nothing to do. *)
Definition initialized (s : St) : Prop :=
  truthy_opt (getItem STORAGE_KEY s) = true.

(** The service touches no other key. *)
Definition frame (s s' : St) : Prop :=
  ∀ k, k ≠ STORAGE_KEY → getItem k s' = getItem k s.

(** [refines s rs run b rs']: a run from a storage [s] that holds [rs]
    either returns [b] and leaves a storage that holds [rs'], or throws
    [QuotaExceededError], some write having been refused, and leaves a
    storage that still holds [rs]. *)
Definition refines {B} (s : St) (rs : list Registrant)
    (run : St * outcome exn B) (b : B) (rs' : list Registrant) : Prop :=
  frame s run.1 ∧
  ((run.2 = Returns b ∧ view run.1 = Some rs' ∧ initialized run.1) ∨
   (run.2 = Throws QuotaExceededError ∧ view run.1 = Some rs ∧
    ∃ k v s0, setItem k v s0 = None)).

(** [setItem(STORAGE_KEY, JSON.stringify(rs)); return b]: how the three
    mutating functions end. *)
Definition write_back {B} (rs : list Registrant) (b : B) : eff St exn B :=
  setItemE STORAGE_KEY (encode rs);; mret b.

(** A call of the service, with its reply. *)
Definition run_call (c : call) : eff St exn reply :=
  match c with
  | GetAll => rs ← getAllRegistrants; mret (Listed rs)
  | GetById i => r ← getRegistrantById i; mret (Found r)
  | Add env data => r ← addRegistrant env data; mret (Added r)
  | Update env i data => r ← updateRegistrant env i data; mret (Updated r)
  | Delete i => b ← deleteRegistrant i; mret (Deleted b)
  end.

(** The storage after a call, whether it returned or threw. *)
Definition after (c : call) (s : St) : St := (run_call c s).1.

(** The storages a session can reach from one that holds nothing, every
    [Add] with a fresh identifier. *)
Inductive reachable : St → Prop :=
| reachable_init s : view s = Some [] → reachable s
| reachable_step s c :
    reachable s →
    (∀ rs, view s = Some rs → Spec.fresh c rs) →
    reachable (after c s).

(** ** What [view] sees of a write *)

Lemma view_setItem s s' rs :
  setItem STORAGE_KEY (encode rs) s = Some s' → view s' = Some rs.
Proof.
  intros Hs. unfold view. rewrite (getItem_setItem_eq _ _ _ _ Hs).
  by rewrite encode_truthy, decode_encode.
Qed.

Lemma initialized_setItem s s' t :
  truthy t = true → setItem STORAGE_KEY t s = Some s' → initialized s'.
Proof. intros Ht Hs. unfold initialized. by rewrite (getItem_setItem_eq _ _ _ _ Hs). Qed.

Lemma view_not_initialized s : ¬ initialized s → view s = Some [].
Proof.
  unfold initialized, view. destruct (getItem STORAGE_KEY s) as [t|]; [|done].
  simpl. by destruct (truthy t).
Qed.

Lemma view_initialized s :
  initialized s → ∃ t, getItem STORAGE_KEY s = Some t ∧ truthy t = true ∧ view s = decode t.
Proof.
  unfold initialized, view. destruct (getItem STORAGE_KEY s) as [t|]; [|done].
  simpl. intros Ht. exists t. by rewrite Ht.
Qed.

(** ** [initializeStorage] and [getAllRegistrants] *)

Lemma initializeStorage_initialized s :
  initialized s → initializeStorage s = (s, Returns ()).
Proof. unfold initializeStorage. autorewrite with reg_rw. by intros ->. Qed.

Lemma initializeStorage_fresh s :
  ¬ initialized s →
  initializeStorage s = setItemE STORAGE_KEY (encode ([] : list Registrant)) s.
Proof.
  unfold initializeStorage, initialized. autorewrite with reg_rw.
  by destruct (truthy_opt _).
Qed.

Lemma getAll_initialized s :
  initialized s →
  getAllRegistrants s =
  (s, match view s with
      | Some rs => Returns rs
      | None => Throws (if malformed s then SyntaxError else ForeignValue)
      end).
Proof.
  intros Hi. unfold getAllRegistrants.
  rewrite (bind_returns _ _ _ _ _ (initializeStorage_initialized s Hi)), bind_reads.
  destruct (view_initialized s Hi) as (t & Ht & Htt & ->). unfold malformed.
  rewrite Ht, Htt, js_or_truthy by done. unfold JSON_parse, read. simpl.
  destruct (decode t); [done|]. by destruct (is_json t).
Qed.

Lemma getAll_fresh s s' :
  ¬ initialized s → setItem STORAGE_KEY (encode ([] : list Registrant)) s = Some s' →
  getAllRegistrants s = (s', Returns []).
Proof.
  intros Hi Hs. unfold getAllRegistrants.
  erewrite bind_returns; [|by rewrite initializeStorage_fresh, (setItemE_returns _ _ _ _ Hs)].
  rewrite bind_reads, (getItem_setItem_eq _ _ _ _ Hs).
  rewrite js_or_truthy by apply encode_truthy. simpl.
  unfold JSON_parse. by rewrite read_encode.
Qed.

Lemma getAll_refused s :
  ¬ initialized s → setItem STORAGE_KEY (encode ([] : list Registrant)) s = None →
  getAllRegistrants s = (s, Throws QuotaExceededError).
Proof.
  intros Hi Hs. unfold getAllRegistrants.
  erewrite bind_throws; [done|].
  by rewrite initializeStorage_fresh, (setItemE_throws _ _ _ Hs).
Qed.

Lemma frame_trans s1 s2 s3 : frame s1 s2 → frame s2 s3 → frame s1 s3.
Proof. intros H12 H23 k Hk. by rewrite H23, H12. Qed.

Lemma frame_setItem s s' t : setItem STORAGE_KEY t s = Some s' → frame s s'.
Proof. intros Hs k Hk. by apply (getItem_setItem_ne STORAGE_KEY k t s s'). Qed.

(** Every run of [getAllRegistrants] on a storage that holds [rs] returns
    [rs], unless the first write of the empty array is refused. *)
Lemma getAll_refines s rs :
  view s = Some rs → refines s rs (getAllRegistrants s) rs rs.
Proof.
  intros Hv. destruct (decide (initialized s)) as [Hi|Hi].
  - rewrite getAll_initialized, Hv by done. split; [done|]. by left.
  - rewrite (view_not_initialized s Hi) in Hv. injection Hv as <-.
    destruct (setItem STORAGE_KEY (encode ([] : list Registrant)) s) as [s'|] eqn:Hs.
    + rewrite (getAll_fresh _ _ Hi Hs). split; [exact (frame_setItem _ _ _ Hs)|]. left.
      eauto using view_setItem, initialized_setItem, encode_truthy.
    + rewrite (getAll_refused _ Hi Hs). split; [done|]. right.
      eauto 10 using view_not_initialized.
Qed.

Lemma write_back_refines {B} s rs rs' (b : B) :
  view s = Some rs → refines s rs (write_back rs' b s) b rs'.
Proof.
  intros Hv. unfold write_back.
  destruct (setItemE_cases STORAGE_KEY (encode rs') s) as [(s' & Hs & Hr)|[Hs Hr]].
  - rewrite (bind_returns _ _ _ _ _ Hr). split; [exact (frame_setItem _ _ _ Hs)|]. left.
    eauto using view_setItem, initialized_setItem, encode_truthy.
  - rewrite (bind_throws _ _ _ _ _ Hr). split; [done|]. right. eauto 10.
Qed.

(** An operation that reads the array and then runs [k] on it refines
    what [k] refines. *)
Lemma getAll_bind_refines {B} (k : list Registrant → eff St exn B) s rs b rs' :
  view s = Some rs →
  (∀ s1, view s1 = Some rs → initialized s1 → refines s1 rs (k rs s1) b rs') →
  refines s rs ((getAllRegistrants ≫= k) s) b rs'.
Proof.
  intros Hv Hk. destruct (getAll_refines s rs Hv) as [Hf [(Hr & Hv1 & Hi)|(Hr & Hv1 & Hq)]];
    destruct (getAllRegistrants s) as [s1 o] eqn:Hrun; simpl in *; subst o.
  - rewrite (bind_returns _ _ _ _ _ Hrun).
    destruct (Hk s1 Hv1 Hi) as [Hf' Hcases]. split; [by eapply frame_trans|done].
  - rewrite (bind_throws _ _ _ _ _ Hrun). split; [done|]. by right.
Qed.

Lemma ret_refines {B} s rs (b : B) :
  view s = Some rs → initialized s →
  refines s rs ((mret b : eff St exn B) s) b rs.
Proof. intros. split; [done|]. by left. Qed.

(** ** Each function refines its specification *)

Theorem getRegistrantById_refines s rs i :
  view s = Some rs →
  refines s rs (getRegistrantById i s) (Spec.getById i rs) rs.
Proof.
  intros Hv. apply getAll_bind_refines; [done|]. intros s1 Hv1 Hi.
  by apply ret_refines.
Qed.

Theorem addRegistrant_refines s rs env data :
  view s = Some rs →
  refines s rs (addRegistrant env data s)
    (newRegistrant env data) (Spec.create env data rs).
Proof.
  intros Hv. apply getAll_bind_refines; [done|]. intros s1 Hv1 Hi.
  by apply write_back_refines.
Qed.

Theorem updateRegistrant_refines s rs env i data :
  view s = Some rs →
  refines s rs (updateRegistrant env i data s)
    (fst <$> Spec.update env i data rs)
    (default rs (snd <$> Spec.update env i data rs)).
Proof.
  intros Hv. apply getAll_bind_refines; [done|]. intros s1 Hv1 Hi.
  unfold Spec.update. destruct (findIndex i rs) as [[index old]|]; simpl.
  - by apply write_back_refines.
  - by apply ret_refines.
Qed.

Theorem deleteRegistrant_refines s rs i :
  view s = Some rs →
  refines s rs (deleteRegistrant i s) (Spec.removes i rs) (Spec.delete i rs).
Proof.
  intros Hv. apply getAll_bind_refines; [done|]. intros s1 Hv1 Hi.
  unfold Spec.removes, Spec.delete. case_decide as Hlen.
  - rewrite bool_decide_eq_false_2 by tauto.
    rewrite (filter_length_eq _ _ Hlen). by apply ret_refines.
  - rewrite bool_decide_eq_true_2 by done. by apply write_back_refines.
Qed.

(** A reply built from the result of a refining run refines too. *)
Lemma bind_ret_refines {A B} (c : eff St exn A) (f : A → B) s rs a rs' :
  refines s rs (c s) a rs' →
  refines s rs ((c ≫= λ x, mret (f x)) s) (f a) rs'.
Proof.
  intros [Hf Hc]. destruct (c s) as [s1 [x|e]] eqn:Hrun; simpl in *.
  - rewrite (bind_returns _ _ _ _ _ Hrun). split; [done|].
    destruct Hc as [([= ->] & ? & ?)|(? & _)]; [by left|done].
  - rewrite (bind_throws _ _ _ _ _ Hrun). split; [done|].
    destruct Hc as [(? & _)|([= ->] & ? & ?)]; [done|by right].
Qed.

(** Every call refines its step of the specification. *)
Lemma call_refines c s rs :
  view s = Some rs →
  refines s rs (run_call c s) (Spec.step c rs).1 (Spec.step c rs).2.
Proof.
  intros Hv. destruct c; simpl; apply bind_ret_refines;
    auto using getAll_refines, getRegistrantById_refines, addRegistrant_refines,
      updateRegistrant_refines, deleteRegistrant_refines.
Qed.

(** C1.  The service implements the specification: from a storage that
    holds [rs], a call touches no key but its own and either returns the
    reply of the specification and leaves a storage that holds the
    collection of the specification, or throws [QuotaExceededError] and
    leaves a storage that holds [rs] still. *)
Theorem run_call_refines c s rs :
  view s = Some rs →
  frame s (after c s) ∧
  match (run_call c s).2 with
  | Returns r =>
      r = (Spec.step c rs).1 ∧ view (after c s) = Some (Spec.step c rs).2
  | Throws e => e = QuotaExceededError ∧ view (after c s) = Some rs
  end.
Proof.
  intros Hv. unfold after.
  destruct (call_refines c s rs Hv) as [Hf [(-> & ? & _)|(-> & ? & _)]]; auto.
Qed.

(** After a call the storage holds what the specification says, or what
    it held. *)
Lemma after_view c s rs :
  view s = Some rs →
  view (after c s) = Some (Spec.step c rs).2 ∨ view (after c s) = Some rs.
Proof.
  intros Hv. destruct (call_refines c s rs Hv) as [_ [(_ & ? & _)|(_ & ? & _)]];
    auto.
Qed.

(** C2.  The invariant of the collection holds in every reachable storage:
    the text under the key reads as a list of registrants, their
    identifiers are unique and each has a path exactly when it has a
    photo. *)
Theorem reachable_wf s : reachable s → ∃ rs, view s = Some rs ∧ Spec.wf rs.
Proof.
  induction 1 as [s Hv|s c _ (rs & Hv & Hwf) Hfresh].
  - eauto with reg.
  - destruct (after_view c s rs Hv) as [Hv'|Hv']; eauto with reg.
Qed.

(** On a storage that refuses no write, a refining run returns. *)
Lemma refines_unbounded `{!Unbounded St} {B} s rs
    (run : St * outcome exn B) b rs' :
  refines s rs run b rs' →
  run.2 = Returns b ∧ view run.1 = Some rs' ∧ initialized run.1 ∧ frame s run.1.
Proof.
  intros [Hf [(? & ? & ?)|(_ & _ & k & v & s0 & Hnone)]]; [done|].
  destruct (setItem_total k v s0) as [? ?]. congruence.
Qed.

(** A storage whose text does not read as an array of registrants:
    [getAllRegistrants] writes nothing, and throws [SyntaxError] when the
    text is not JSON. *)
Lemma unreadable_initialized s : view s = None → initialized s.
Proof.
  intros Hv. destruct (decide (initialized s)) as [|Hn]; [done|].
  apply view_not_initialized in Hn. congruence.
Qed.

Lemma malformed_unreadable s : malformed s = true → view s = None.
Proof.
  unfold malformed, view. destruct (getItem STORAGE_KEY s) as [t|]; [|done].
  intros [-> Hj%negb_true_iff]%andb_true_iff.
  destruct (decode t) as [rs|] eqn:Hd; [|done].
  apply decode_is_json in Hd. congruence.
Qed.

Lemma getAll_unreadable s :
  view s = None →
  getAllRegistrants s =
  (s, Throws (if malformed s then SyntaxError else ForeignValue)).
Proof. intros Hv. by rewrite getAll_initialized, Hv by by apply unreadable_initialized. Qed.

Lemma getAll_malformed s :
  malformed s = true → getAllRegistrants s = (s, Throws SyntaxError).
Proof.
  intros Hm. rewrite getAll_unreadable by by apply malformed_unreadable.
  by rewrite Hm.
Qed.

(** A run that throws threw [QuotaExceededError] or [SyntaxError]; after
    a refused write the storage holds what it held. *)
Theorem throws_keeps_view c s rs e :
  view s = Some rs → (run_call c s).2 = Throws e →
  e = QuotaExceededError ∧ view (after c s) = Some rs.
Proof.
  intros Hv He. unfold after.
  destruct (call_refines c s rs Hv) as [_ [(Hr & _)|(Hr & ? & _)]];
    rewrite Hr in He; [done|]. by injection He as <-.
Qed.

(** A call on a storage that does not read writes nothing. *)
Lemma run_call_unreadable c s :
  view s = None →
  run_call c s = (s, Throws (if malformed s then SyntaxError else ForeignValue)).
Proof.
  intros Hg%getAll_unreadable. destruct c; simpl;
    unfold getRegistrantById, addRegistrant, updateRegistrant, deleteRegistrant;
    rewrite ?bind_assoc; by rewrite (bind_throws _ _ _ _ _ Hg).
Qed.

(** C9.  On a storage whose key holds a text that is not JSON, each of the
    five exported functions throws the [SyntaxError] of [JSON.parse] and
    writes nothing. *)
Theorem garbage_throws s env i data :
  malformed s = true →
  getAllRegistrants s = (s, Throws SyntaxError) ∧
  getRegistrantById i s = (s, Throws SyntaxError) ∧
  addRegistrant env data s = (s, Throws SyntaxError) ∧
  updateRegistrant env i data s = (s, Throws SyntaxError) ∧
  deleteRegistrant i s = (s, Throws SyntaxError).
Proof.
  intros Hg%getAll_malformed.
  unfold getRegistrantById, addRegistrant, updateRegistrant, deleteRegistrant.
  by rewrite !(bind_throws _ _ _ _ _ Hg).
Qed.

Section unbounded.
Context `{!Unbounded St}.

(** Every call returns what the specification says. *)
Theorem run_call_returns c s rs :
  view s = Some rs →
  ∃ s', run_call c s = (s', Returns (Spec.step c rs).1) ∧
        view s' = Some (Spec.step c rs).2 ∧ initialized s' ∧ frame s s'.
Proof.
  intros Hv. pose proof (refines_unbounded _ _ _ _ _ (call_refines c s rs Hv)) as H1.
  destruct (run_call c s) as [s' o]; simpl in *. destruct H1 as (-> & ? & ? & ?).
  eauto.
Qed.

Theorem addRegistrant_returns s rs env data :
  view s = Some rs →
  ∃ s', addRegistrant env data s = (s', Returns (newRegistrant env data)) ∧
        view s' = Some (rs ++ [newRegistrant env data]) ∧ initialized s'.
Proof.
  intros Hv.
  pose proof (refines_unbounded _ _ _ _ _ (addRegistrant_refines s rs env data Hv)) as H1.
  destruct (addRegistrant env data s) as [s' o]; simpl in *.
  destruct H1 as (-> & ? & ? & ?). eauto.
Qed.

(** C4.  Section 8, round trip: the record [addRegistrant] returns is the one
    [getRegistrantById] finds under its identifier, when the identifier
    is fresh. *)
Theorem add_then_getById s rs env data :
  view s = Some rs → randomUUID env ∉ id <$> rs →
  ∃ s' r, addRegistrant env data s = (s', Returns r) ∧
          getRegistrantById (id r) s' = (s', Returns (Some r)).
Proof.
  intros Hv Hfresh. destruct (addRegistrant_returns s rs env data Hv) as (s' & Hrun & Hv' & Hi).
  exists s', (newRegistrant env data). split; [done|].
  unfold getRegistrantById. rewrite (bind_returns _ _ s' s' (rs ++ [newRegistrant env data])).
  - pose proof (create_getById env data rs Hfresh) as Hget.
    unfold Spec.getById, Spec.create in Hget. simpl. by rewrite Hget.
  - by rewrite getAll_initialized, Hv'.
Qed.

(** C10.  A session on the storage is the session of the specification. *)
Theorem session_refines cs s rs :
  view s = Some rs → view (foldl (λ s c, after c s) s cs) = Some (Spec.run cs rs).
Proof.
  revert s rs. induction cs as [|c cs IH]; intros s rs Hv; [done|]. simpl.
  apply IH. unfold after.
  destruct (run_call_returns c s rs Hv) as (s' & -> & ? & _). done.
Qed.

(** *** What the service observes of a storage *)

(** Two storages hold the same collection. *)
Definition same_view (s1 s2 : St) : Prop :=
  ∃ rs, view s1 = Some rs ∧ view s2 = Some rs.

(** Two runs gave the same outcome and left the same collection. *)
Definition same_run {B} (r1 r2 : St * outcome exn B) : Prop :=
  r1.2 = r2.2 ∧ same_view r1.1 r2.1.

#[export] Instance same_view_per : RelationClasses.PER same_view.
Proof.
  split.
  - intros s1 s2 (rs & ? & ?). by exists rs.
  - intros s1 s2 s3 (rs & ? & H2) (rs' & H2' & ?). exists rs.
    split; [done|congruence].
Qed.

(** The service observes a storage through [view] only: on storages
    that hold the same collection, a call gives the same outcome and
    leaves the same collection, whatever else the storages hold and
    however the collection is written in them. *)
#[export] Instance run_call_proper : Proper ((=) ==> same_view ==> same_run) run_call.
Proof.
  intros c _ <- s1 s2 (rs & Hv1 & Hv2).
  destruct (run_call_returns c s1 rs Hv1) as (s1' & -> & Hv1' & _).
  destruct (run_call_returns c s2 rs Hv2) as (s2' & -> & Hv2' & _).
  split; [done|]. by eexists.
Qed.
End unbounded.

End service.

(** ** Runs on sample data *)

(** The storage of a fresh origin, one that holds the three sample
    registrants, one with a quota too small for a registrant, and one
    whose text is no array. *)
Definition fresh_origin : gmap string string := ∅.
Definition three_stored : gmap string string :=
  {[ STORAGE_KEY := encode Sample.three ]}.
Definition small_origin : LocalStorage := empty_storage (Some 20%N).
Definition garbled : gmap string string := {[ STORAGE_KEY := "{oops" ]}.

Lemma run_call_refines_witness :
  frame three_stored (after (Delete "3f2b8c1e-0002") three_stored) ∧
  match (run_call (Delete "3f2b8c1e-0002") three_stored).2 with
  | Returns r =>
      r = (Spec.step (Delete "3f2b8c1e-0002") Sample.three).1 ∧
      view (after (Delete "3f2b8c1e-0002") three_stored)
      = Some (Spec.step (Delete "3f2b8c1e-0002") Sample.three).2
  | Throws e =>
      e = QuotaExceededError ∧
      view (after (Delete "3f2b8c1e-0002") three_stored) = Some Sample.three
  end.
Proof.
  apply (run_call_refines (Delete "3f2b8c1e-0002") three_stored Sample.three).
  by vm_compute.
Defined.

Lemma reachable_wf_witness :
  ∃ rs, view (after (Add Sample.env1 Sample.alice) fresh_origin) = Some rs ∧ Spec.wf rs.
Proof.
  apply (reachable_wf (after (Add Sample.env1 Sample.alice) fresh_origin)).
  apply reachable_step; [by apply reachable_init|].
  intros rs [= <-]. apply not_elem_of_nil.
Defined.

Lemma add_then_getById_witness :
  ∃ s' r, addRegistrant Sample.env1 Sample.alice fresh_origin = (s', Returns r) ∧
          getRegistrantById (id r) s' = (s', Returns (Some r)).
Proof.
  apply (add_then_getById fresh_origin []); [done|apply not_elem_of_nil].
Defined.

Lemma throws_keeps_view_witness :
  QuotaExceededError = QuotaExceededError ∧
  view (after (Add Sample.env1 Sample.alice) small_origin) = Some [].
Proof.
  apply (throws_keeps_view (Add Sample.env1 Sample.alice) small_origin []);
    by vm_compute.
Defined.

Lemma garbage_throws_witness :
  getAllRegistrants garbled = (garbled, Throws SyntaxError) ∧
  getRegistrantById "3f2b8c1e-0001" garbled = (garbled, Throws SyntaxError) ∧
  addRegistrant Sample.env1 Sample.alice garbled = (garbled, Throws SyntaxError) ∧
  updateRegistrant Sample.env1 "3f2b8c1e-0001" Sample.alice garbled
  = (garbled, Throws SyntaxError) ∧
  deleteRegistrant "3f2b8c1e-0001" garbled = (garbled, Throws SyntaxError).
Proof. apply (garbage_throws garbled). by vm_compute. Defined.

(** A text that is JSON and no array of registrants is not [malformed]:
    the model ends the run and says nothing of the sources. *)
Example foreign_texts :
  let s : gmap string string := {[ STORAGE_KEY := "[1]" ]} in
  malformed s = false ∧ view s = None ∧
  getAllRegistrants s = (s, Throws ForeignValue).
Proof. by vm_compute. Qed.

Lemma session_refines_witness :
  view (foldl (λ s c, after c s) fresh_origin
          [Add Sample.env1 Sample.alice; Add Sample.env2 Sample.bob;
           Add Sample.env3 Sample.alice_brown]) = Some Sample.three.
Proof.
  apply (session_refines
           [Add Sample.env1 Sample.alice; Add Sample.env2 Sample.bob;
            Add Sample.env3 Sample.alice_brown] fresh_origin []).
  done.
Defined.
