(* ===== verification/AuthContext.v ===== *)
(** * AuthContext: the administrator's session

    [src/contexts/AuthContext.tsx].  The provider keeps two pieces of
    React state, [admin] and [isAuthenticated], and mirrors a session in
    [localStorage] under the key ["admin"].  A world of the model is the
    pair of the component's state and the storage; the effect run at
    mount, [login] and [logout] are effects on worlds.  A state setter
    called before a throw has taken effect, as in the sources, where
    [login] sets the state and then writes the storage.

    [JSON.parse(storedAdmin)] is read at the type [Admin]
    ([Storage.JSON_parse]): a text that is not JSON throws
    [SyntaxError]; a JSON text that is no object with the two members of
    an [Admin] is a value that the sources store as they find it, and
    that the typed model does not describe ([ForeignValue]).  The
    program writes no such text ([reachable_auth]).  The effect has no
    handler: what it throws leaves it, and React unmounts the tree. *)

From Stdlib Require Import String.
From stdpp Require Import gmap.
From S2P Require Import Prelude JsString Types Json Codec Storage.

#[local] Open Scope string_scope.
#[local] Open Scope list_scope.

Module AuthContext.

(** [interface Admin]. *)
Record Admin : Type := mkAdmin {
  username : string;
  isAuthenticated : bool;
}.

#[export] Instance Admin_eq_dec : EqDecision Admin.
Proof. solve_decision. Defined.

(** The state of [AuthProvider]: [useState<Admin | null>(null)] and
    [useState<boolean>(false)]. *)
Record AuthState : Type := mkAuthState {
  admin : option Admin;
  authenticated : bool;
}.

Definition initial_state : AuthState := mkAuthState None false.

Definition ADMIN_KEY : string := "admin".

(** [{ username, isAuthenticated: true }] as JSON, and back. *)
Definition admin_to_json (a : Admin) : json :=
  JObject [("username", JString (username a));
           ("isAuthenticated", JBool (isAuthenticated a))].

Definition admin_keys : list string := ["username"; "isAuthenticated"].

Definition admin_of_json (v : json) : option Admin :=
  match v with
  | JObject m =>
      guard (own_members admin_keys m = true);;
      u ← get_string "username" m;
      b ← get_bool "isAuthenticated" m;
      Some (mkAdmin u b)
  | _ => None
  end.

Definition encode_admin (a : Admin) : string := stringify (admin_to_json a).
Definition decode_admin (s : string) : option Admin := parse s ≫= admin_of_json.

#[export] Instance admin_codec : Codec Admin.
Proof.
  refine {| encode := encode_admin; decode := decode_admin |}.
  - intros [u []]; unfold decode_admin, encode_admin; by rewrite parse_stringify.
  - intros a. apply stringify_truthy.
  - intros t a (v & Hv & _)%bind_Some. by eapply parse_is_json.
Defined.

(** The errors of this component: those of the builtins, and the [Error]
    that [useAuth] throws outside a provider. *)
Inductive auth_error : Type :=
| Builtin (e : exn)
| NoProvider.

(** [useAuth]: the context, or a throw when there is none. *)
Definition useAuth {C} (context : option C) : outcome auth_error C :=
  match context with
  | None => Throws NoProvider
  | Some c => Returns c
  end.

(** A world: the state of the provider and the storage. *)
Definition world (St : Type) : Type := AuthState * St.

Section auth.
Context `{Storage St}.
#[local] Abbreviation world := (world St).

Definition setAdmin (a : option Admin) : eff world exn () :=
  writes (λ w, (mkAuthState a (authenticated w.1), w.2)).

Definition setIsAuthenticated (b : bool) : eff world exn () :=
  writes (λ w, (mkAuthState (admin w.1) b, w.2)).

(** The effect of [useEffect(..., [])]: restore a persisted session. *)
Definition restore : eff world exn () :=
  storedAdmin ← reads (λ w, getItem ADMIN_KEY w.2);
  if truthy_opt storedAdmin then
    parsedAdmin ← JSON_parse (default "" storedAdmin);
    setAdmin (Some parsedAdmin);;
    setIsAuthenticated (isAuthenticated parsedAdmin)
  else mret ().

Definition login (u password : string) : eff world exn bool :=
  if bool_decide (u = "admin") && bool_decide (password = "admin123") then
    let adminUser := mkAdmin u true in
    setAdmin (Some adminUser);;
    setIsAuthenticated true;;
    on_snd (setItemE ADMIN_KEY (encode_admin adminUser));;
    mret true
  else mret false.

Definition logout : eff world exn () :=
  setAdmin None;;
  setIsAuthenticated false;;
  on_snd (removeItemE ADMIN_KEY).

(** A page load: the provider starts from its initial state and runs its
    effect on the storage the last page left. *)
Definition reload : eff world exn () := λ w, restore (initial_state, w.2).

(** The events of a session. *)
Inductive auth_event : Type :=
| Reload
| Login (u password : string)
| Logout.

Definition handle (e : auth_event) : eff world exn () :=
  match e with
  | Reload => reload
  | Login u p => login u p;; mret ()
  | Logout => logout
  end.

(** The one session the program writes. *)
Definition valid_admin : Admin := mkAdmin "admin" true.

(** What holds of every world of a session: the provider is authenticated
    exactly when it holds the valid administrator, and the storage holds
    no session or the valid one. *)
Definition state_ok (st : AuthState) : Prop :=
  (authenticated st = true → admin st = Some valid_admin) ∧
  (admin st = None ∨ admin st = Some valid_admin).

Definition storage_ok (s : St) : Prop :=
  getItem ADMIN_KEY s = None ∨ getItem ADMIN_KEY s = Some (encode_admin valid_admin).

Definition world_ok (w : world) : Prop := state_ok w.1 ∧ storage_ok w.2.

(** The worlds a session reaches from a first page load on a storage
    without a session. *)
Inductive reachable_world : world → Prop :=
| reachable_first s : getItem ADMIN_KEY s = None → reachable_world (initial_state, s)
| reachable_event w e : reachable_world w → reachable_world (handle e w).1.

End auth.

End AuthContext.
Export AuthContext.

(** ** The codec of a session *)

Lemma decode_encode_admin a : decode_admin (encode_admin a) = Some a.
Proof. exact (decode_encode (A:=Admin) a). Qed.

Lemma encode_admin_truthy a : truthy (encode_admin a) = true.
Proof. apply stringify_truthy. Qed.

Section auth_facts.
Context `{Storage St}.
Implicit Types (w : world St) (s : St) (st : AuthState).

(** *** [login] *)

Lemma login_wrong u p w :
  ¬ (u = "admin" ∧ p = "admin123") → login u p w = (w, Returns false).
Proof.
  intros Hne. unfold login.
  destruct (bool_decide (u = "admin") && bool_decide (p = "admin123")) eqn:E; [|done].
  apply andb_true_iff in E as [?%bool_decide_eq_true ?%bool_decide_eq_true]. tauto.
Qed.

Lemma login_valid st s :
  login "admin" "admin123" (st, s) =
  match setItem ADMIN_KEY (encode_admin valid_admin) s with
  | Some s' => ((mkAuthState (Some valid_admin) true, s'), Returns true)
  | None => ((mkAuthState (Some valid_admin) true, s), Throws QuotaExceededError)
  end.
Proof.
  unfold login. simpl. simp_eff. unfold on_snd, setItemE. simpl.
  by destruct (setItem ADMIN_KEY _ s).
Qed.

Lemma logout_run st s : logout (st, s) = ((initial_state, removeItem ADMIN_KEY s), Returns ()).
Proof. done. Qed.

Lemma restore_none st s : getItem ADMIN_KEY s = None → restore (st, s) = ((st, s), Returns ()).
Proof. unfold restore. autorewrite with reg_rw. simpl. by intros ->. Qed.

Lemma restore_stored st s a :
  getItem ADMIN_KEY s = Some (encode_admin a) →
  restore (st, s) = ((mkAuthState (Some a) (isAuthenticated a), s), Returns ()).
Proof.
  unfold restore. autorewrite with reg_rw. cbn [fst snd]. intros ->.
  cbn [truthy_opt]. rewrite encode_admin_truthy. unfold JSON_parse.
  change (default "" (Some (encode_admin a))) with (encode a).
  by rewrite read_encode.
Qed.

(** A text that is not JSON makes the effect throw; the state is as it
    was. *)
Lemma restore_malformed st s t :
  getItem ADMIN_KEY s = Some t → truthy t = true → is_json t = false →
  restore (st, s) = ((st, s), Throws SyntaxError).
Proof.
  unfold restore. autorewrite with reg_rw. cbn [fst snd]. intros -> Ht Hd.
  cbn [truthy_opt]. rewrite Ht. unfold JSON_parse.
  change (default "" (Some t)) with t.
  by rewrite (proj2 (read_Malformed (A:=Admin) t) Hd).
Qed.

(** The effect writes nothing. *)
Lemma restore_storage w : (restore w).1.2 = w.2.
Proof.
  unfold restore. rewrite bind_reads. destruct (truthy_opt _); [|done].
  unfold JSON_parse. by destruct (read _).
Qed.

(** *** Section 8, the session scenario *)

(** C16.  Logging in with the valid pair authenticates and, the write accepted,
    the session survives a page load. *)
Theorem login_persists st s s' :
  setItem ADMIN_KEY (encode_admin valid_admin) s = Some s' →
  login "admin" "admin123" (st, s) = ((mkAuthState (Some valid_admin) true, s'), Returns true) ∧
  reload (mkAuthState (Some valid_admin) true, s') =
    ((mkAuthState (Some valid_admin) true, s'), Returns ()).
Proof.
  intros Hs. rewrite login_valid, Hs. split; [done|].
  unfold reload. cbn [snd]. by rewrite (restore_stored _ _ valid_admin)
    by (by rewrite (getItem_setItem_eq _ _ _ _ Hs)).
Qed.

(** C17.  Any other pair leaves the provider and the storage as they were. *)
Theorem login_rejects u p w :
  (u, p) ≠ ("admin", "admin123") → login u p w = (w, Returns false).
Proof. intros Hne. apply login_wrong. intros [-> ->]. done. Qed.

(** [login] returns [true] only for the valid pair. *)
Theorem login_true_valid u p w w' :
  login u p w = (w', Returns true) → u = "admin" ∧ p = "admin123".
Proof.
  intros Hrun. destruct (decide (u = "admin" ∧ p = "admin123")) as [|Hne]; [done|].
  rewrite (login_wrong _ _ _ Hne) in Hrun. done.
Qed.

(** After [logout] no page load finds a session. *)
Theorem logout_forgets st s :
  ∃ s', logout (st, s) = ((initial_state, s'), Returns ()) ∧
        reload (initial_state, s') = ((initial_state, s'), Returns ()).
Proof.
  exists (removeItem ADMIN_KEY s). split; [done|].
  unfold reload. apply restore_none, getItem_removeItem_eq.
Qed.

(** C35.  A refused write on a storage without a session: [login] has set the
    state before the write throws, so the provider is authenticated for
    this page, and the next page load finds no session. *)
Theorem login_not_persisted st s :
  setItem ADMIN_KEY (encode_admin valid_admin) s = None →
  getItem ADMIN_KEY s = None →
  login "admin" "admin123" (st, s) =
    ((mkAuthState (Some valid_admin) true, s), Throws QuotaExceededError) ∧
  reload (mkAuthState (Some valid_admin) true, s) = ((initial_state, s), Returns ()).
Proof.
  intros Hs Hg. rewrite login_valid, Hs. split; [done|].
  unfold reload. by apply restore_none.
Qed.

(** C34.  The effect at mount trusts the storage: a stored session of any user
    name authenticates, with no credential checked. *)
Theorem restore_trusts_storage st s u :
  getItem ADMIN_KEY s = Some (encode_admin (mkAdmin u true)) →
  restore (st, s) = ((mkAuthState (Some (mkAdmin u true)) true, s), Returns ()).
Proof. apply restore_stored. Qed.

(** *** The session touches one key *)

Lemma handle_frame e w k :
  k ≠ ADMIN_KEY → getItem k (handle e w).1.2 = getItem k w.2.
Proof.
  intros Hk. destruct w as [st s]. destruct e as [|u p|]; simpl.
  - unfold reload. by rewrite restore_storage.
  - destruct (decide (u = "admin" ∧ p = "admin123")) as [[-> ->]|Hne].
    + unfold mbind at 1, eff_mbind, eff_bind. rewrite login_valid.
      destruct (setItem _ _ s) as [s'|] eqn:Hs; [|done].
      simpl. by rewrite (getItem_setItem_ne _ _ _ _ _ Hk Hs).
    + unfold mbind at 1, eff_mbind, eff_bind. by rewrite login_wrong.
  - by apply getItem_removeItem_ne.
Qed.

(** *** The invariant *)

Lemma initial_state_ok : state_ok initial_state.
Proof. split; [done|by left]. Qed.

Lemma valid_state_ok : state_ok (mkAuthState (Some valid_admin) true).
Proof. split; [done|by right]. Qed.

Lemma handle_world_ok e w : world_ok w → world_ok (handle e w).1.
Proof.
  destruct w as [st s]. intros [Hst Hs]. destruct e as [|u p|]; simpl.
  - unfold reload. cbn [snd]. destruct Hs as [Hs|Hs].
    + rewrite (restore_none _ _ Hs). split; [apply initial_state_ok|by left].
    + rewrite (restore_stored _ _ _ Hs). split; [apply valid_state_ok|by right].
  - unfold mbind at 1, eff_mbind, eff_bind.
    destruct (decide (u = "admin" ∧ p = "admin123")) as [[-> ->]|Hne].
    + rewrite login_valid. destruct (setItem _ _ s) as [s'|] eqn:Hset; simpl.
      * split; [apply valid_state_ok|]. right. by apply getItem_setItem_eq in Hset.
      * split; [apply valid_state_ok|done].
    + by rewrite login_wrong.
  - split; [apply initial_state_ok|]. left. apply getItem_removeItem_eq.
Qed.

(** C6.  In every world of a session the provider is authenticated only as the
    valid administrator, and the storage holds no session or the valid
    one. *)
Theorem reachable_auth w : reachable_world w → world_ok w.
Proof.
  induction 1 as [s Hs|w e _ IH].
  - split; [apply initial_state_ok|by left].
  - by apply handle_world_ok.
Qed.
End auth_facts.

(** ** The session on sample storages *)

Definition no_session : gmap string string := ∅.
Definition session_stored : gmap string string :=
  {[ ADMIN_KEY := encode_admin valid_admin ]}.
Definition forged : gmap string string :=
  {[ ADMIN_KEY := encode_admin (mkAdmin "mallory" true) ]}.
Definition full_origin : LocalStorage := empty_storage (Some 10%N).

Lemma login_persists_witness :
  login "admin" "admin123" (initial_state, no_session) =
    ((mkAuthState (Some valid_admin) true, session_stored), Returns true) ∧
  reload (mkAuthState (Some valid_admin) true, session_stored) =
    ((mkAuthState (Some valid_admin) true, session_stored), Returns ()).
Proof. apply (login_persists initial_state no_session session_stored). by vm_compute. Defined.

Lemma login_rejects_witness :
  login "admin" "letmein" (initial_state, no_session) =
    ((initial_state, no_session), Returns false).
Proof. apply (login_rejects "admin" "letmein"). done. Defined.

Lemma reachable_auth_witness :
  world_ok (handle Logout (handle (Login "admin" "admin123") (initial_state, no_session)).1).1.
Proof.
  apply reachable_auth. do 2 apply reachable_event. by apply reachable_first.
Defined.

Lemma restore_trusts_storage_witness :
  restore (initial_state, forged) =
    ((mkAuthState (Some (mkAdmin "mallory" true)) true, forged), Returns ()).
Proof. apply (restore_trusts_storage initial_state forged "mallory"). by vm_compute. Defined.

Lemma login_not_persisted_witness :
  login "admin" "admin123" (initial_state, full_origin) =
    ((mkAuthState (Some valid_admin) true, full_origin), Throws QuotaExceededError) ∧
  reload (mkAuthState (Some valid_admin) true, full_origin) =
    ((initial_state, full_origin), Returns ()).
Proof. apply (login_not_persisted initial_state full_origin); by vm_compute. Defined.

(** The forged session is not one that [login] would have written. *)
Example forged_not_valid :
  (login "mallory" "anything" (initial_state, no_session)).2 = Returns false.
Proof. done. Qed.
