(* ===== verification/AppLayout.v ===== *)
(** * AppLayout: the page chrome

    [src/components/AppLayout.tsx].  The layout reads the session from
    the context, shows the links that the session allows and the logout
    button, and renders the page of the route in its outlet.  Its only
    handler is [logout], of [AuthContext]: a click on the button is the
    event [Logout] of a session.

    The view holds what depends on the state: the items of the
    navigation bar and the year of the footer, which the browser
    supplies. *)

From Stdlib Require Import String ZArith.
From stdpp Require Import gmap.
From S2P Require Import Prelude JsString Types Json Storage AuthContext.

#[local] Open Scope string_scope.
#[local] Open Scope list_scope.

(** ** The view *)

(** The items of the header: the brand, a link to it, and those of
    [nav]. *)
Inductive NavItem : Type :=
| Brand
| DashboardLink
| LogoutButton
| AdminLoginLink.

#[export] Instance NavItem_eq_dec : EqDecision NavItem.
Proof. solve_decision. Defined.

(** The [to] of an item that is a [Link]. *)
Definition to (i : NavItem) : option string :=
  match i with
  | Brand => Some "/"
  | DashboardLink => Some "/admin/dashboard"
  | AdminLoginLink => Some "/admin/login"
  | LogoutButton => None
  end.

Definition BRAND : string := "Bax Registration App".

(** [isAuthenticated ? (...) : (...)]. *)
Definition nav (isAuthenticated : bool) : list NavItem :=
  if isAuthenticated then [DashboardLink; LogoutButton] else [AdminLoginLink].

(** The text of the footer, with [new Date().getFullYear()]; the first
    character is the copyright sign. *)
Definition footer (year : Z) : string :=
  String (Ascii.ascii_of_N 169) (" " +:+ decimal year +:+ " RegistrationApp. All rights reserved.").

Record LayoutView : Type := mkLayoutView {
  header : list NavItem;
  footer_text : string;
}.

Definition layout_render (year : Z) (st : AuthState) : LayoutView :=
  mkLayoutView (Brand :: nav (authenticated st)) (footer year).

(** The component: [useAuth()] throws outside a provider. *)
Definition AppLayout (year : Z) (context : option AuthState)
    : outcome auth_error LayoutView :=
  match useAuth context with
  | Returns st => Returns (layout_render year st)
  | Throws e => Throws e
  end.

(** ** The button *)

Section layout.
Context `{Storage St}.

(** The click that the view offers: [onClick={logout}]. *)
Definition layout_offered (w : world St) : Prop :=
  LogoutButton ∈ header (layout_render 0 w.1).

Definition click_logout : eff (world St) exn () := handle Logout.

End layout.

(** ** Facts *)

Section layout_facts.
Context `{Storage St}.
Implicit Types (st : AuthState) (s : St) (w : world St).

Lemma elem_of_nav i b :
  i ∈ nav b ↔ if b then i = DashboardLink ∨ i = LogoutButton else i = AdminLoginLink.
Proof. destruct b; cbn; rewrite ?elem_of_cons, ?elem_of_nil; tauto. Qed.

(** The header shows the dashboard link and the logout button exactly
    when the session is authenticated, and the login link exactly when
    it is not. *)
Theorem header_spec year st :
  (DashboardLink ∈ header (layout_render year st) ↔ authenticated st = true) ∧
  (LogoutButton ∈ header (layout_render year st) ↔ authenticated st = true) ∧
  (AdminLoginLink ∈ header (layout_render year st) ↔ authenticated st = false).
Proof.
  cbn. rewrite !elem_of_cons, !elem_of_nav.
  destruct (authenticated st); intuition congruence.
Qed.

(** Outside a provider the layout throws and shows nothing. *)
Theorem layout_outside_provider year : AppLayout year None = Throws NoProvider.
Proof. done. Qed.

(** C33.  A click on the logout button: the header shows the login link and
    no button, the session is gone from the storage and a page load
    finds none. *)
Theorem click_logout_spec year st s :
  let w' := (click_logout (st, s)).1 in
  header (layout_render year w'.1) = [Brand; AdminLoginLink] ∧
  getItem ADMIN_KEY w'.2 = None ∧
  ¬ layout_offered w' ∧
  (reload w').1 = w'.
Proof.
  unfold click_logout. cbn [handle]. rewrite logout_run. cbn [fst snd].
  assert (getItem ADMIN_KEY (removeItem ADMIN_KEY s) = None) as Hnone
    by apply getItem_removeItem_eq.
  split_and!; [done..| |].
  - unfold layout_offered. cbn. rewrite !elem_of_cons, elem_of_nil.
    intuition congruence.
  - unfold reload. cbn [snd]. by rewrite restore_none.
Qed.

(** In a session that starts without a stored session, the dashboard
    link and the logout button are shown only to the administrator of
    the hardcoded pair. *)
Theorem reachable_header year w i :
  reachable_world w → i ∈ header (layout_render year w.1) →
  i = DashboardLink ∨ i = LogoutButton →
  admin w.1 = Some valid_admin.
Proof.
  intros Hw.
  assert (world_ok w) as [[Hauth _] _].
  { induction Hw as [s Hs|w e _ IH]; [|by apply handle_world_ok].
    split; [apply initial_state_ok|by left]. }
  intros Hi Hitem. apply Hauth. apply elem_of_cons in Hi as [->|Hi%elem_of_nav];
    [by destruct Hitem|].
  destruct (authenticated w.1); [done|]. subst i. by destruct Hitem.
Qed.
End layout_facts.

(** ** The layout on sample data *)

Lemma reachable_header_witness :
  admin ((handle (Login "admin" "admin123") (initial_state, no_session)).1).1
  = Some valid_admin.
Proof.
  apply (reachable_header 2024
           (handle (Login "admin" "admin123") (initial_state, no_session)).1
           LogoutButton).
  - apply reachable_event. by apply reachable_first.
  - cbn [header layout_render]. change (authenticated _) with true.
    cbn [nav]. rewrite !elem_of_cons. auto.
  - by right.
Defined.

Example footer_2024 :
  footer 2024 =
  String (Ascii.ascii_of_N 169) " 2024 RegistrationApp. All rights reserved.".
Proof. by vm_compute. Qed.
