(* ===== verification/Query.v ===== *)
(** * Query: search and pagination of the dashboard

    The pure part of [src/components/AdminDashboard.tsx]: the filter that
    the effect on [searchTerm] and [registrants] computes, and the
    pagination computed at each render ([indexOfLastItem],
    [indexOfFirstItem], [currentItems], [totalPages]).  Page numbers and
    indices are JavaScript numbers; they are integers here ([Z]), and
    [slice] is [Array.prototype.slice] with its treatment of negative and
    out-of-range indices.

    The theorems are those of sections 4.3 and 8 of the specification:
    what the filter keeps, the number of pages, the size of each page
    and of the last one, and that the pages partition the filtered
    list. *)

From Stdlib Require Import String ZArith.
From S2P Require Import Prelude JsString Types Registrants.

#[local] Open Scope string_scope.
#[local] Open Scope list_scope.
#[local] Open Scope Z_scope.

(** ** The filter *)

(** The predicate of [registrants.filter(...)]: the lower-cased term
    occurs in the lower-cased name or e-mail, or the term as typed occurs
    in the phone number. *)
Definition matches (searchTerm : string) (registrant : Registrant) : bool :=
  let lowercasedSearch := toLowerCase searchTerm in
  includes (toLowerCase (fullName registrant)) lowercasedSearch
  || includes (toLowerCase (email registrant)) lowercasedSearch
  || includes (phone registrant) searchTerm.

(** What the effect stores in [filteredRegistrants]. *)
Definition apply_filter (searchTerm : string) (registrants : list Registrant)
    : list Registrant :=
  if decide (trim searchTerm = "") then registrants
  else filter (λ r, matches searchTerm r = true) registrants.

(** ** Pagination *)

(** [arr.slice(start, end)]. *)
Definition slice {A} (start end_ : Z) (l : list A) : list A :=
  let len := Z.of_nat (length l) in
  let k := if start <? 0 then Z.max (len + start) 0 else Z.min start len in
  let final := if end_ <? 0 then Z.max (len + end_) 0 else Z.min end_ len in
  take (Z.to_nat (final - k)) (drop (Z.to_nat k) l).

(** [Math.ceil(n / k)] for integers [n] and [k > 0]. *)
Definition ceil_div (n k : Z) : Z := - ((- n) / k).

Definition indexOfLastItem (currentPage itemsPerPage : Z) : Z :=
  currentPage * itemsPerPage.

Definition indexOfFirstItem (currentPage itemsPerPage : Z) : Z :=
  indexOfLastItem currentPage itemsPerPage - itemsPerPage.

Definition currentItems {A} (currentPage itemsPerPage : Z) (filtered : list A)
    : list A :=
  slice (indexOfFirstItem currentPage itemsPerPage)
        (indexOfLastItem currentPage itemsPerPage) filtered.

Definition totalPages {A} (itemsPerPage : Z) (filtered : list A) : Z :=
  ceil_div (Z.of_nat (length filtered)) itemsPerPage.

(** The page numbers [1 .. n]. *)
Definition page_numbers (n : Z) : list Z :=
  (λ i, Z.of_nat i + 1) <$> seq 0 (Z.to_nat n).

(** ** The filter: facts *)

Section filter_facts.
Implicit Types (t : string) (r : Registrant) (rs : list Registrant).

(** An empty term, or one of white space only, keeps every record. *)
Lemma apply_filter_blank t rs :
  all_chars is_js_space t = true → apply_filter t rs = rs.
Proof. intros Ht%trim_empty. unfold apply_filter. by rewrite decide_True. Qed.

Lemma apply_filter_empty rs : apply_filter "" rs = rs.
Proof. done. Qed.

Lemma apply_filter_elem_of t rs r :
  trim t ≠ "" → r ∈ apply_filter t rs ↔ r ∈ rs ∧ matches t r = true.
Proof.
  intros Ht. unfold apply_filter. rewrite decide_False by done.
  rewrite list_elem_of_filter. tauto.
Qed.

(** The filtered list is a sublist of the list: no record is invented,
    none is repeated, the order is kept. *)
Lemma apply_filter_sublist t rs : apply_filter t rs `sublist_of` rs.
Proof. unfold apply_filter. case_decide; [done|apply sublist_filter]. Qed.

Lemma apply_filter_length t rs : (length (apply_filter t rs) <= length rs)%nat.
Proof. apply sublist_length, apply_filter_sublist. Qed.

Lemma matches_name t r :
  includes (toLowerCase (fullName r)) (toLowerCase t) = true → matches t r = true.
Proof. unfold matches. by intros ->. Qed.

Lemma matches_substring_of_name t r :
  includes (fullName r) t = true → matches t r = true.
Proof. intros Hi. by apply matches_name, includes_toLowerCase. Qed.

(** Section 8, search: a record whose name holds the term, the case of
    both ignored, is kept. *)
Lemma apply_filter_keeps_name t rs r :
  r ∈ rs → includes (toLowerCase (fullName r)) (toLowerCase t) = true →
  r ∈ apply_filter t rs.
Proof.
  intros Hr Hi. unfold apply_filter. case_decide; [done|].
  apply list_elem_of_filter. eauto using matches_name.
Qed.

(** A term that matches no record gives the empty list. *)
Lemma apply_filter_none t rs :
  trim t ≠ "" → Forall (λ r, matches t r = false) rs → apply_filter t rs = [].
Proof.
  intros Ht Hall. unfold apply_filter. rewrite decide_False by done.
  induction Hall as [|r rs Hr _ IH]; [done|].
  rewrite filter_cons, decide_False by congruence. done.
Qed.

(** C40.  Section 8, search monotonicity: the filter keeps every record whose
    name holds the term, the case of both ignored; a term that is not
    blank and matches no record gives the empty list; and the filtered
    list is a sublist of the list, so no record is invented, repeated
    or moved. *)
Theorem search_monotone t rs :
  (∀ r, r ∈ rs → includes (toLowerCase (fullName r)) (toLowerCase t) = true →
        r ∈ apply_filter t rs) ∧
  (trim t ≠ "" → Forall (λ r, matches t r = false) rs → apply_filter t rs = []) ∧
  apply_filter t rs `sublist_of` rs.
Proof.
  split_and!; [intros r; apply apply_filter_keeps_name|apply apply_filter_none|
               apply apply_filter_sublist].
Qed.

(** The search ignores the case of the term for names and e-mails. *)
Lemma matches_name_case t t' r :
  toLowerCase t = toLowerCase t' →
  includes (toLowerCase (fullName r)) (toLowerCase t) = true → matches t' r = true.
Proof. intros Heq Hi. apply matches_name. by rewrite <- Heq. Qed.
End filter_facts.

(** ** Pagination: facts *)

(** Division and modulo are read by [lia] through their equations. *)
#[local] Ltac Zify.zify_post_hook ::= Z.div_mod_to_equations.

Section ceil_facts.
Implicit Types (n k : Z).

Lemma ceil_div_bounds n k : 0 < k → k * (ceil_div n k - 1) < n <= k * ceil_div n k.
Proof. unfold ceil_div. intros. lia. Qed.

(** The least number of pages of [k] items that hold [n] items. *)
Lemma ceil_div_least n k m : 0 < k → n <= k * m → ceil_div n k <= m.
Proof. intros Hk Hm. pose proof (ceil_div_bounds n k Hk). nia. Qed.

Lemma ceil_div_0 k : ceil_div 0 k = 0.
Proof. unfold ceil_div. by destruct k. Qed.

Lemma ceil_div_nonneg n k : 0 < k → 0 <= n → 0 <= ceil_div n k.
Proof. unfold ceil_div. intros. lia. Qed.

Lemma ceil_div_pos n k : 0 < k → 0 < n → 1 <= ceil_div n k.
Proof. unfold ceil_div. intros. lia. Qed.

Lemma ceil_div_exact n k : 0 < k → ceil_div (k * n) k = n.
Proof. unfold ceil_div. intros. nia. Qed.

(** The usual integer formula. *)
Lemma ceil_div_alt n k : 0 < k → ceil_div n k = (n + k - 1) / k.
Proof. unfold ceil_div. intros. nia. Qed.
End ceil_facts.

Section slice_facts.
Context {A : Type}.
Implicit Types (l : list A) (p K : Z).

(** Within bounds, [slice] is [take] after [drop]. *)
Lemma slice_take_drop start end_ l :
  0 <= start <= end_ →
  slice start end_ l = take (Z.to_nat (end_ - start)) (drop (Z.to_nat start) l).
Proof.
  intros Hse. unfold slice.
  rewrite (proj2 (Z.ltb_ge start 0)), (proj2 (Z.ltb_ge end_ 0)) by lia.
  destruct (decide (start <= Z.of_nat (length l))) as [Hle|Hgt].
  - rewrite (Z.min_l start) by lia.
    destruct (decide (end_ <= Z.of_nat (length l))); [by rewrite Z.min_l by lia|].
    rewrite !take_ge; [done|rewrite length_drop; lia..].
  - rewrite !drop_ge by lia. by rewrite !take_nil.
Qed.

Lemma slice_length start end_ l :
  0 <= start <= end_ →
  Z.of_nat (length (slice start end_ l)) =
  Z.max 0 (Z.min end_ (Z.of_nat (length l)) - start).
Proof.
  intros Hse. rewrite slice_take_drop, length_take, length_drop by done. lia.
Qed.

Lemma slice_sublist start end_ l : slice start end_ l `sublist_of` l.
Proof.
  unfold slice. etrans; [apply sublist_take|apply sublist_drop].
Qed.

(** The items of page [p]: [K] items after the first [(p - 1) * K]. *)
Lemma currentItems_take_drop p K l :
  1 <= p → 0 < K →
  currentItems p K l = take (Z.to_nat K) (drop (Z.to_nat ((p - 1) * K)) l).
Proof.
  intros Hp HK. unfold currentItems, indexOfFirstItem, indexOfLastItem.
  rewrite slice_take_drop by nia. do 2 f_equal; lia.
Qed.

(** A page holds at most [K] items. *)
Lemma currentItems_length_le p K l :
  1 <= p → 0 < K → Z.of_nat (length (currentItems p K l)) <= K.
Proof.
  intros Hp HK. rewrite currentItems_take_drop, length_take by done. lia.
Qed.

(** The size of a page among the [totalPages]. *)
Lemma currentItems_length p K l :
  1 <= p <= totalPages K l → 0 < K →
  Z.of_nat (length (currentItems p K l)) =
  Z.min K (Z.of_nat (length l) - (p - 1) * K).
Proof.
  intros Hp HK. unfold totalPages in Hp.
  pose proof (ceil_div_bounds (Z.of_nat (length l)) K HK).
  rewrite currentItems_take_drop, length_take, length_drop by lia. nia.
Qed.

(** Every page among the [totalPages] shows something. *)
Lemma currentItems_nonempty p K l :
  1 <= p <= totalPages K l → 0 < K → currentItems p K l ≠ [].
Proof.
  intros Hp HK Hnil. pose proof (currentItems_length p K l Hp HK) as Hlen.
  rewrite Hnil in Hlen. unfold totalPages in Hp.
  pose proof (ceil_div_bounds (Z.of_nat (length l)) K HK). simpl in Hlen. nia.
Qed.

(** Section 8, pagination total: all pages but the last are full, and the
    last holds what is left. *)
Lemma currentItems_last_length K l :
  0 < K → l ≠ [] →
  Z.of_nat (length (currentItems (totalPages K l) K l)) =
  Z.of_nat (length l) - K * (totalPages K l - 1).
Proof.
  intros HK Hl. assert (0 < Z.of_nat (length l)) by (destruct l; simpl; [done|lia]).
  pose proof (ceil_div_bounds (Z.of_nat (length l)) K HK) as Hb.
  rewrite currentItems_length; unfold totalPages in *; [nia| |done].
  pose proof (ceil_div_pos (Z.of_nat (length l)) K). lia.
Qed.

(** A page past the last one is empty. *)
Lemma currentItems_beyond p K l :
  totalPages K l < p → 1 <= p → 0 < K → currentItems p K l = [].
Proof.
  intros Hp H1 HK. unfold totalPages in Hp.
  pose proof (ceil_div_bounds (Z.of_nat (length l)) K HK).
  rewrite currentItems_take_drop, drop_ge by nia. apply take_nil.
Qed.

Lemma totalPages_nil K : totalPages K (@nil A) = 0.
Proof. apply ceil_div_0. Qed.

Lemma totalPages_pos K l : 0 < K → l ≠ [] → 1 <= totalPages K l.
Proof.
  intros HK Hl. apply ceil_div_pos; [done|]. destruct l; simpl; [done|lia].
Qed.

Lemma totalPages_nonneg K l : 0 < K → 0 <= totalPages K l.
Proof. intros. apply ceil_div_nonneg; lia. Qed.
End slice_facts.

Section partition.
Context {A : Type}.
Implicit Types (l : list A).

(** Cutting a list into [n] chunks of [k] items and joining them gives
    the list back, when [n] chunks are enough. *)
Lemma chunks_concat (k n : nat) l :
  (length l <= n * k)%nat →
  concat ((λ i, take k (drop (i * k) l)) <$> seq 0 n) = l.
Proof.
  revert l. induction n as [|n IH]; intros l Hlen.
  - by destruct l; simpl in *; [|lia].
  - rewrite <- cons_seq, fmap_cons, <- fmap_S_seq, <- list_fmap_compose.
    cbn [concat]. rewrite Nat.mul_0_l, drop_0.
    transitivity (take k l ++ drop k l); [|apply take_drop]. f_equal.
    etrans; [|apply (IH (drop k l)); rewrite length_drop; lia].
    f_equal. apply list_fmap_ext. intros _ i _. simpl.
    rewrite drop_drop. do 2 f_equal; lia.
Qed.

(** Item [i] of page [p] is item [(p - 1) * K + i] of the list. *)
Theorem currentItems_lookup p K l (i : nat) :
  1 <= p → Z.of_nat i < K →
  currentItems p K l !! i = l !! (Z.to_nat ((p - 1) * K) + i)%nat.
Proof.
  intros Hp Hi. rewrite currentItems_take_drop by lia.
  rewrite lookup_take_lt by lia. apply lookup_drop.
Qed.

(** [totalPages] is the number [p] of pages such that [p] pages of [K]
    hold the list and [p - 1] do not. *)
Theorem totalPages_spec K l p :
  0 < K →
  totalPages K l = p ↔ K * (p - 1) < Z.of_nat (length l) <= K * p.
Proof.
  intros HK. unfold totalPages.
  pose proof (ceil_div_bounds (Z.of_nat (length l)) K HK). split; [by intros <-|].
  intros Hp. nia.
Qed.

(** C30.  The pages [1 .. totalPages] partition the filtered list: every record
    is on exactly one page, in order. *)
Theorem pages_partition K l :
  0 < K → concat ((λ p, currentItems p K l) <$> page_numbers (totalPages K l)) = l.
Proof.
  intros HK. unfold page_numbers. rewrite <- list_fmap_compose.
  etrans; [|apply (chunks_concat (Z.to_nat K) (Z.to_nat (totalPages K l)) l)].
  - f_equal. apply list_fmap_ext. intros _ i _. simpl.
    rewrite currentItems_take_drop by lia. do 2 f_equal; nia.
  - pose proof (totalPages_nonneg K l HK). unfold totalPages in *.
    pose proof (ceil_div_bounds (Z.of_nat (length l)) K HK). nia.
Qed.
End partition.

(** ** The facts on sample data *)

Lemma pages_partition_witness :
  concat ((λ p, currentItems p 2 Sample.three) <$> page_numbers (totalPages 2 Sample.three))
  = Sample.three.
Proof. apply (pages_partition 2 Sample.three). lia. Defined.

Lemma currentItems_last_length_witness :
  Z.of_nat (length (currentItems (totalPages 2 Sample.three) 2 Sample.three)) =
  Z.of_nat (length Sample.three) - 2 * (totalPages 2 Sample.three - 1).
Proof. apply (currentItems_last_length 2 Sample.three); [lia|done]. Defined.

Lemma apply_filter_keeps_name_witness :
  newRegistrant Sample.env3 Sample.alice_brown ∈ apply_filter "BROWN" Sample.three.
Proof.
  apply apply_filter_keeps_name; [|done].
  apply (bool_decide_unpack _). by vm_compute.
Defined.

Lemma apply_filter_none_witness : apply_filter "zed" Sample.three = [].
Proof.
  apply apply_filter_none; [done|]. apply (bool_decide_unpack _). by vm_compute.
Defined.

Lemma search_monotone_witness :
  (∀ r, r ∈ Sample.three →
        includes (toLowerCase (fullName r)) (toLowerCase "alice") = true →
        r ∈ apply_filter "alice" Sample.three) ∧
  (trim "alice" ≠ "" → Forall (λ r, matches "alice" r = false) Sample.three →
   apply_filter "alice" Sample.three = []) ∧
  apply_filter "alice" Sample.three `sublist_of` Sample.three.
Proof. apply (search_monotone "alice" Sample.three). Defined.

Lemma apply_filter_blank_witness : apply_filter "   " Sample.three = Sample.three.
Proof. apply apply_filter_blank. done. Defined.

Lemma currentItems_lookup_witness :
  currentItems 2 2 Sample.three !! 0%nat
  = Sample.three !! (Z.to_nat ((2 - 1) * 2) + 0)%nat.
Proof. apply (currentItems_lookup 2 2 Sample.three 0); lia. Defined.

Lemma totalPages_spec_witness :
  totalPages 5 (seq 0 11) = 3 ↔ 5 * (3 - 1) < Z.of_nat (length (seq 0 11)) <= 5 * 3.
Proof. apply (totalPages_spec 5 (seq 0 11) 3). lia. Defined.

(** Section 8, the scenario: of "Alice Smith", "Bob Jones" and "Alice
    Brown", a search for "alice" keeps the two Alices, on one page of
    one. *)
Example scenario_alice :
  fullName <$> apply_filter "alice" Sample.three = ["Alice Smith"; "Alice Brown"] ∧
  totalPages 5 (apply_filter "alice" Sample.three) = 1 ∧
  currentItems 1 5 (apply_filter "alice" Sample.three) = apply_filter "alice" Sample.three.
Proof. by vm_compute. Qed.

(** A term with a leading space is not blank and is matched as typed:
    it finds nothing here, though "alice" does. *)
Example untrimmed_term : apply_filter " alice" Sample.three = [].
Proof. by vm_compute. Qed.

(** Negative and crossing indices of [slice], as in JavaScript. *)
Example slice_negative :
  slice (-2) 3 [1; 2; 3; 4] = [3] ∧ slice 3 1 [1; 2; 3; 4] = [] ∧
  slice 0 (-1) [1; 2; 3; 4] = [1; 2; 3].
Proof. done. Qed.
