(* ===== verification/AdminDashboard.v ===== *)
(** * AdminDashboard: the administrator's list

    [src/components/AdminDashboard.tsx] as a state machine.  [State] is
    the React state of the component; a world is the state and the
    storage.  The handlers ([loadRegistrants], [handleDelete],
    [cancelDelete], [paginate], the change of the search box) are effects
    on worlds, [render] is what the JSX shows of a state, and
    [exportToPDF] is the table handed to the PDF library.

    React runs the effect on [[searchTerm, registrants]] after a render
    in which one of the two changed; it compares arrays by identity, and
    every [JSON.parse] makes a new array, so the state carries the
    identity of its array ([registrants_ref]).  [dispatch] runs a handler
    and then the effect when a dependency changed: a world of the model
    is one in which React has nothing left to run.  An effect reads the
    values of the render that scheduled it ([closure]).

    [formatDate] is [new Date(s).toLocaleDateString()], which depends on
    the browser's locale: it is a parameter. *)

From Stdlib Require Import String ZArith.
From stdpp Require Import gmap.
From S2P Require Import Prelude JsString Types Json Codec Storage Registrants.
From S2P Require Import RegistrationService Query.

#[local] Open Scope string_scope.
#[local] Open Scope list_scope.
#[local] Open Scope Z_scope.

Module AdminDashboard.

(** ** State *)

Record State : Type := mkState {
  registrants : list Registrant;
  registrants_ref : nat;
  filteredRegistrants : list Registrant;
  isLoading : bool;
  searchTerm : string;
  deleteConfirm : option string;
  currentPage : Z;
  itemsPerPage : Z;
}.

(** The state of the first render. *)
Definition initial : State := mkState [] 0 [] true "" None 1 5.

Definition set_registrants (v : list Registrant) (st : State) : State :=
  mkState v (S (registrants_ref st)) (filteredRegistrants st) (isLoading st)
    (searchTerm st) (deleteConfirm st) (currentPage st) (itemsPerPage st).

Definition set_filteredRegistrants (v : list Registrant) (st : State) : State :=
  mkState (registrants st) (registrants_ref st) v (isLoading st)
    (searchTerm st) (deleteConfirm st) (currentPage st) (itemsPerPage st).

Definition set_isLoading (v : bool) (st : State) : State :=
  mkState (registrants st) (registrants_ref st) (filteredRegistrants st) v
    (searchTerm st) (deleteConfirm st) (currentPage st) (itemsPerPage st).

Definition set_searchTerm (v : string) (st : State) : State :=
  mkState (registrants st) (registrants_ref st) (filteredRegistrants st)
    (isLoading st) v (deleteConfirm st) (currentPage st) (itemsPerPage st).

Definition set_deleteConfirm (v : option string) (st : State) : State :=
  mkState (registrants st) (registrants_ref st) (filteredRegistrants st)
    (isLoading st) (searchTerm st) v (currentPage st) (itemsPerPage st).

Definition set_currentPage (v : Z) (st : State) : State :=
  mkState (registrants st) (registrants_ref st) (filteredRegistrants st)
    (isLoading st) (searchTerm st) (deleteConfirm st) v (itemsPerPage st).

(** The state after a load that read [data], and after one that threw. *)
Definition loaded (data : list Registrant) (st : State) : State :=
  set_isLoading false
    (set_filteredRegistrants data (set_registrants data (set_isLoading true st))).

Definition load_failed (st : State) : State :=
  set_isLoading false (set_isLoading true st).

(** ** What is rendered *)

(** The rounded badge of a gender: its colour classes and its label. *)
Record Badge : Type := mkBadge { badge_class : string; badge_label : string }.

(** A row of the table. *)
Record Row : Type := mkRow {
  row_key : string;
  row_photo : option string;      (* the [src] of the image, or "N/A" *)
  row_name : string;
  row_email : string;
  row_phone : string;
  row_gender : Badge;
  row_dob : string;
  row_edit : string;              (* the target of the edit link *)
  row_delete_armed : bool;        (* the delete button is red *)
  row_cancel : bool;              (* the Cancel button is shown *)
}.

(** The pagination bar. *)
Record Pagination : Type := mkPagination {
  previous_disabled : bool;
  next_disabled : bool;
  showing_from : Z;
  showing_to : Z;
  showing_of : Z;
  page_buttons : list (Z * bool);   (* the number and whether it is current *)
}.

Inductive Body : Type :=
| Spinner
| NoRegistrants
| NoResults (term : string)
| Table (rows : list Row) (pagination : option Pagination).

Record View : Type := mkView {
  search_value : string;
  body : Body;
}.

(** ** The table handed to the PDF library *)

Record PdfRow : Type := mkPdfRow {
  pdf_img : string;            (* drawn in the first cell when not empty *)
  pdf_cells : list string;     (* name, e-mail, phone, gender, date *)
}.

Record PdfDocument : Type := mkPdf {
  pdf_title : string;
  pdf_head : list string;
  pdf_body : list PdfRow;
  pdf_file : string;
}.

(** ** Events *)

Inductive event : Type :=
| ChangeSearch (value : string)
| ClickDelete (i : string)
| ClickCancel
| ClickPrevious
| ClickNext
| ClickPage (index : Z).

Section dashboard.
Context `{Storage St} `{Codec (list Registrant)}.
Variable formatDate : string → string.

#[local] Abbreviation world := (State * St)%type.

Definition set (f : State → State) : eff world exn () :=
  writes (λ w, (f w.1, w.2)).

(** ** The effect on [[searchTerm, registrants]] *)

Definition filter_effect (closure : State) : State → State :=
  λ st, set_currentPage 1
          (set_filteredRegistrants
             (apply_filter (searchTerm closure) (registrants closure)) st).

(** React runs the effect when a dependency of the new render differs
    from that of the last. *)
Definition deps_changed (before after : State) : bool :=
  negb (bool_decide (searchTerm before = searchTerm after)
        && bool_decide (registrants_ref before = registrants_ref after)).

Definition settle (before : State) (w : world) : world :=
  if deps_changed before w.1 then (filter_effect w.1 w.1, w.2) else w.

(** ** Handlers *)

Definition loadRegistrants : eff world exn () :=
  set (set_isLoading true);;
  try_finally
    (try_catch
       (data ← on_snd getAllRegistrants;
        set (set_registrants data);;
        set (set_filteredRegistrants data))
       (λ _, mret ()))
    (set (set_isLoading false)).

Definition handleDelete (closure : State) (i : string) : eff world exn () :=
  if decide (deleteConfirm closure = Some i) then
    on_snd (deleteRegistrant i);;
    loadRegistrants;;
    set (set_deleteConfirm None)
  else set (set_deleteConfirm (Some i)).

Definition cancelDelete : eff world exn () := set (set_deleteConfirm None).

Definition paginate (pageNumber : Z) : eff world exn () :=
  set (set_currentPage pageNumber).

Definition handler (closure : State) (e : event) : eff world exn () :=
  match e with
  | ChangeSearch value => set (set_searchTerm value)
  | ClickDelete i => handleDelete closure i
  | ClickCancel => cancelDelete
  | ClickPrevious => paginate (Z.max 1 (currentPage closure - 1))
  | ClickNext =>
      paginate (Z.min (totalPages (itemsPerPage closure) (filteredRegistrants closure))
                      (currentPage closure + 1))
  | ClickPage index => paginate (index + 1)
  end.

(** An event: its handler, then the effect if a dependency changed. *)
Definition dispatch (e : event) (w : world) : world :=
  settle w.1 (handler w.1 e w).1.

(** The first render and its two effects.  Both run with the values of
    the first render: the second stores the filter of the empty list and
    is run again once [registrants] has changed. *)
Definition mount (s : St) : world :=
  let w1 := (loadRegistrants (initial, s)).1 in
  settle initial (filter_effect initial w1.1, w1.2).

(** ** Rendering *)

Definition gender_badge (g : Gender) : Badge :=
  mkBadge
    (match g with
     | male => "bg-blue-100 text-blue-800"
     | female => "bg-pink-100 text-pink-800"
     | other => "bg-purple-100 text-purple-800"
     end)
    (capitalize (gender_to_string g)).

Definition render_row (st : State) (registrant : Registrant) : Row :=
  mkRow (id registrant)
        (if truthy_opt (photoData registrant) then photoData registrant else None)
        (fullName registrant) (email registrant) (phone registrant)
        (gender_badge (gender registrant))
        (formatDate (dateOfBirth registrant))
        ("/admin/edit/" +:+ id registrant)
        (bool_decide (deleteConfirm st = Some (id registrant)))
        (bool_decide (deleteConfirm st = Some (id registrant))).

Definition render_pagination (st : State) : option Pagination :=
  let total := totalPages (itemsPerPage st) (filteredRegistrants st) in
  if decide (1 < total) then
    Some (mkPagination
            (bool_decide (currentPage st = 1))
            (bool_decide (currentPage st = total))
            (indexOfFirstItem (currentPage st) (itemsPerPage st) + 1)
            (Z.min (indexOfLastItem (currentPage st) (itemsPerPage st))
                   (Z.of_nat (length (filteredRegistrants st))))
            (Z.of_nat (length (filteredRegistrants st)))
            ((λ n, (n, bool_decide (currentPage st = n))) <$> page_numbers total))
  else None.

Definition render (st : State) : View :=
  mkView (searchTerm st)
    (if isLoading st then Spinner
     else if decide (length (registrants st) = 0%nat) then NoRegistrants
     else if decide (length (filteredRegistrants st) = 0%nat)
          then NoResults (searchTerm st)
     else Table (render_row st <$>
                   currentItems (currentPage st) (itemsPerPage st)
                     (filteredRegistrants st))
                (render_pagination st)).

(** ** Export *)

Definition pdf_row (r : Registrant) : PdfRow :=
  mkPdfRow (if truthy_opt (photoData r) then default "" (photoData r) else "")
           [fullName r; email r; phone r; gender_to_string (gender r);
            formatDate (dateOfBirth r)].

Definition exportToPDF (st : State) : PdfDocument :=
  mkPdf "Registrant List"
        ["Photo"; "Name"; "Email"; "Phone"; "Gender"; "DOB"]
        (pdf_row <$> filteredRegistrants st)
        "registrants_with_photos.pdf".

(** ** Which events the rendered page offers *)

Definition offered (st : State) (e : event) : Prop :=
  match e, body (render st) with
  | ChangeSearch _, _ => True
  | ClickDelete i, Table rows _ => i ∈ row_key <$> rows
  | ClickCancel, Table rows _ => Exists (λ r, row_cancel r = true) rows
  | ClickPrevious, Table _ (Some p) => previous_disabled p = false
  | ClickNext, Table _ (Some p) => next_disabled p = false
  | ClickPage index, Table _ (Some p) => (index + 1) ∈ fst <$> page_buttons p
  | _, _ => False
  end.

#[export] Instance offered_dec st e : Decision (offered st e).
Proof.
  unfold offered.
  destruct e, (body (render st)) as [| | |rows [p|]]; apply _.
Defined.

(** One step of a session on the dashboard. *)
Inductive dash_step : world → world → Prop :=
| step_event w e : offered w.1 e → dash_step w (dispatch e w).

(** The worlds of a session: from the mount, by steps. *)
Inductive reachable_dash : world → Prop :=
| reachable_mount s : reachable_dash (mount s)
| reachable_next w w' : reachable_dash w → dash_step w w' → reachable_dash w'.

(** ** The invariant of the dashboard

    The filtered list is the filter of the list, the page is a page of
    the filtered list, and the page size is the constant 5. *)
Record inv (st : State) : Prop := mkInv {
  inv_page_size : itemsPerPage st = 5;
  inv_filtered :
    filteredRegistrants st = apply_filter (searchTerm st) (registrants st);
  inv_page_low : 1 <= currentPage st;
  inv_page_high :
    currentPage st <= Z.max 1 (totalPages (itemsPerPage st) (filteredRegistrants st));
  inv_loaded : isLoading st = false;
}.

End dashboard.

End AdminDashboard.
Export AdminDashboard.

(** ** Facts *)

Section dashboard_facts.
Context `{Storage St} `{Codec (list Registrant)}.
Variable formatDate : string → string.
Implicit Types (st : State) (s : St) (w : State * St) (e : event).

(** *** [loadRegistrants] *)

Lemma loadRegistrants_run st s :
  loadRegistrants (st, s) =
  match getAllRegistrants s with
  | (s', Returns data) => ((loaded data st, s'), Returns ())
  | (s', Throws _) => ((load_failed st, s'), Returns ())
  end.
Proof.
  unfold loadRegistrants, set. simp_eff. by destruct (getAllRegistrants s) as [s' [data|e]].
Qed.

(** A failure to read the storage is caught: the handler never throws. *)
Theorem loadRegistrants_returns w : (loadRegistrants w).2 = Returns ().
Proof.
  destruct w as [st s]. rewrite loadRegistrants_run.
  by destruct (getAllRegistrants s) as [s' [data|e]].
Qed.

(** *** [handleDelete] *)

Lemma handleDelete_arm closure i w :
  deleteConfirm closure ≠ Some i →
  handleDelete closure i w = ((set_deleteConfirm (Some i) w.1, w.2), Returns ()).
Proof. intros Hne. unfold handleDelete. by rewrite decide_False. Qed.

Lemma handleDelete_confirmed closure i st s :
  deleteConfirm closure = Some i →
  handleDelete closure i (st, s) =
  match deleteRegistrant i s with
  | (s1, Throws e) => ((st, s1), Throws e)
  | (s1, Returns _) =>
      match getAllRegistrants s1 with
      | (s2, Returns data) => ((set_deleteConfirm None (loaded data st), s2), Returns ())
      | (s2, Throws _) => ((set_deleteConfirm None (load_failed st), s2), Returns ())
      end
  end.
Proof.
  intros Hc. unfold handleDelete. rewrite decide_True by done.
  unfold mbind at 1, eff_mbind, eff_bind, on_snd. cbn [fst snd].
  destruct (deleteRegistrant i s) as [s1 [b|e]]; [|done].
  unfold mbind, eff_mbind, eff_bind. rewrite loadRegistrants_run.
  by destruct (getAllRegistrants s1) as [s2 [data|e]].
Qed.

(** *** The effect establishes the invariant *)

Lemma filter_effect_inv st :
  itemsPerPage st = 5 → isLoading st = false → inv (filter_effect st st).
Proof.
  intros HK Hl. split; simpl; try done. lia.
Qed.

Lemma settle_same before st s :
  searchTerm before = searchTerm st → registrants_ref before = registrants_ref st →
  settle before (st, s) = (st, s).
Proof.
  intros Ht Hr. unfold settle, deps_changed. simpl.
  by rewrite !bool_decide_eq_true_2.
Qed.

Lemma settle_changed before st s :
  deps_changed before st = true → settle before (st, s) = (filter_effect st st, s).
Proof. unfold settle. simpl. by intros ->. Qed.

(** Whatever changed, a settled state with the page size and no load in
    progress satisfies the invariant if it did before the effect ran or
    the effect ran. *)
Lemma settle_inv before st s :
  itemsPerPage st = 5 → isLoading st = false →
  (deps_changed before st = false → inv st) →
  inv (settle before (st, s)).1.
Proof.
  intros HK Hl Hinv. unfold settle. simpl.
  destruct (deps_changed before st); [by apply filter_effect_inv|auto].
Qed.

(** *** What a rendered table tells of the state *)

Lemma render_table st rows pg :
  body (render formatDate st) = Table rows pg →
  isLoading st = false ∧ filteredRegistrants st ≠ [] ∧
  rows = render_row formatDate st <$>
           currentItems (currentPage st) (itemsPerPage st) (filteredRegistrants st) ∧
  pg = render_pagination st.
Proof.
  unfold render. simpl. destruct (isLoading st); [done|].
  repeat case_decide; try done. intros [= <- <-].
  split_and!; try done. by destruct (filteredRegistrants st).
Qed.

Lemma render_pagination_Some st p :
  render_pagination st = Some p →
  1 < totalPages (itemsPerPage st) (filteredRegistrants st) ∧
  previous_disabled p = bool_decide (currentPage st = 1) ∧
  next_disabled p =
    bool_decide (currentPage st = totalPages (itemsPerPage st) (filteredRegistrants st)) ∧
  fst <$> page_buttons p =
    page_numbers (totalPages (itemsPerPage st) (filteredRegistrants st)).
Proof.
  unfold render_pagination. case_decide; [|done]. intros [= <-]. simpl.
  split_and!; try done. rewrite <- list_fmap_compose. apply list_fmap_id.
Qed.

Lemma elem_of_page_numbers n t : n ∈ page_numbers t ↔ 1 <= n <= t.
Proof.
  unfold page_numbers. rewrite list_elem_of_fmap. split.
  - intros (i & -> & Hi%elem_of_seq). lia.
  - intros Hn. exists (Z.to_nat (n - 1)). split; [lia|]. apply elem_of_seq. lia.
Qed.

(** The pagination bar is there only when there are at least two pages. *)
Lemma offered_pagination st e :
  offered formatDate st e →
  match e with
  | ClickPrevious | ClickNext | ClickPage _ =>
      1 < totalPages (itemsPerPage st) (filteredRegistrants st)
  | _ => True
  end.
Proof.
  unfold offered. destruct e; try done;
    destruct (body (render formatDate st)) as [| | |rows [p|]] eqn:Hb; try done;
    apply render_table in Hb as (_ & _ & _ & Hp); symmetry in Hp;
    apply render_pagination_Some in Hp; tauto.
Qed.

Lemma offered_page st index :
  offered formatDate st (ClickPage index) →
  1 <= index + 1 <= totalPages (itemsPerPage st) (filteredRegistrants st).
Proof.
  unfold offered.
  destruct (body (render formatDate st)) as [| | |rows [p|]] eqn:Hb; try done.
  apply render_table in Hb as (_ & _ & _ & Hp). symmetry in Hp.
  apply render_pagination_Some in Hp as (_ & _ & _ & ->).
  apply elem_of_page_numbers.
Qed.

(** *** The invariant is established at mount and kept by every event *)

(** Setting a field that the invariant does not read keeps it. *)
Lemma inv_set_deleteConfirm st v : inv st → inv (set_deleteConfirm v st).
Proof. by intros []. Qed.

Lemma inv_load_failed st : inv st → inv (load_failed st).
Proof. by intros []. Qed.

Lemma inv_set_currentPage st p :
  inv st → 1 <= p →
  p <= Z.max 1 (totalPages (itemsPerPage st) (filteredRegistrants st)) →
  inv (set_currentPage p st).
Proof. by intros []. Qed.

Lemma deps_changed_loaded before data st v :
  registrants_ref st = registrants_ref before →
  deps_changed before (set_deleteConfirm v (loaded data st)) = true.
Proof.
  intros Hr. unfold deps_changed. simpl. rewrite Hr.
  rewrite (bool_decide_eq_false_2 (registrants_ref before = _)) by lia.
  by rewrite andb_false_r.
Qed.

Theorem mount_inv s : inv (mount s).1.
Proof.
  unfold mount. rewrite loadRegistrants_run.
  destruct (getAllRegistrants s) as [s' [data|e]]; cbn [fst snd].
  - by apply settle_inv.
  - apply settle_inv; [done..|]. intros _. by split.
Qed.

Lemma dispatch_delete_inv st s i :
  inv st → inv (dispatch (ClickDelete i) (st, s)).1.
Proof.
  intros Hinv. pose proof (inv_page_size _ Hinv). pose proof (inv_loaded _ Hinv).
  unfold dispatch. cbn [handler fst].
  destruct (decide (deleteConfirm st = Some i)) as [Hc|Hc].
  - rewrite (handleDelete_confirmed _ _ _ _ Hc).
    destruct (deleteRegistrant i s) as [s1 [b|e]]; cbn [fst].
    + destruct (getAllRegistrants s1) as [s2 [data|e]]; cbn [fst].
      * apply settle_inv; [done..|]. by rewrite deps_changed_loaded.
      * rewrite settle_same by done. by apply inv_set_deleteConfirm, inv_load_failed.
    + by rewrite settle_same.
  - rewrite (handleDelete_arm _ _ _ Hc). cbn [fst snd].
    rewrite settle_same by done. by apply inv_set_deleteConfirm.
Qed.

Lemma dispatch_search_inv st s value :
  inv st → inv (dispatch (ChangeSearch value) (st, s)).1.
Proof.
  intros Hinv. pose proof (inv_page_size _ Hinv). pose proof (inv_loaded _ Hinv).
  unfold dispatch. cbn [handler fst]. apply settle_inv; [done..|].
  unfold deps_changed. simpl. rewrite (bool_decide_eq_true_2 (_ = _ :> nat)) by done.
  rewrite andb_true_r. intros <-%negb_false_iff%bool_decide_eq_true.
  by destruct st.
Qed.

(** Every event that the page offers keeps the invariant. *)
Theorem dispatch_inv e w :
  inv w.1 → offered formatDate w.1 e → inv (dispatch e w).1.
Proof.
  destruct w as [st s]. cbn [fst]. intros Hinv Hoff.
  pose proof (offered_pagination _ _ Hoff) as Hpg.
  pose proof (inv_page_low _ Hinv). pose proof (inv_page_high _ Hinv).
  destruct e as [value|i| | | |index];
    [by apply dispatch_search_inv | by apply dispatch_delete_inv | ..];
    try pose proof (offered_page _ _ Hoff); clear Hoff;
    unfold dispatch; cbn [handler fst]; unfold cancelDelete, paginate, set;
    simp_eff; rewrite settle_same by done; cbn [fst].
  - by apply inv_set_deleteConfirm.
  - apply inv_set_currentPage; [done|lia..].
  - apply inv_set_currentPage; [done|lia..].
  - apply inv_set_currentPage; [done|lia..].
Qed.

(** C7.  In every world of a session the filtered list is the filter of the
    list and the current page is one of its pages. *)
Theorem reachable_dash_inv w : reachable_dash formatDate w → inv w.1.
Proof.
  induction 1 as [s|w w' _ IH Hstep]; [apply mount_inv|].
  destruct Hstep as [w e Hoff]. by apply dispatch_inv.
Qed.

(** *** Deleting takes two clicks *)

(** C26.  Only the second of two clicks on the delete button of one record
    reaches the storage. *)
Theorem dispatch_storage e w :
  (∀ i, e = ClickDelete i → deleteConfirm w.1 ≠ Some i) → (dispatch e w).2 = w.2.
Proof.
  destruct w as [st s]. cbn [fst snd]. intros Hne. unfold dispatch, settle.
  assert ((handler st e (st, s)).1.2 = s) as Hs.
  { destruct e; try done. simpl. by rewrite handleDelete_arm by eauto. }
  by destruct (deps_changed _ _).
Qed.

(** The first click arms the button and changes nothing else. *)
Lemma dispatch_arm st s i :
  deleteConfirm st ≠ Some i →
  dispatch (ClickDelete i) (st, s) = (set_deleteConfirm (Some i) st, s).
Proof.
  intros Hne. unfold dispatch. cbn [handler fst].
  rewrite handleDelete_arm by done. by apply settle_same.
Qed.

(** C27.  The second click, on a storage that accepts writes: the record is
    deleted, the list is read again and filtered, the first page is
    shown and the button is disarmed. *)
Theorem dispatch_confirm `{!Unbounded St} st s rs i :
  view s = Some rs → deleteConfirm st = Some i →
  ∃ s', dispatch (ClickDelete i) (st, s) =
          (filter_effect (set_deleteConfirm None (loaded (Spec.delete i rs) st))
             (set_deleteConfirm None (loaded (Spec.delete i rs) st)), s') ∧
        view s' = Some (Spec.delete i rs).
Proof.
  intros Hv Hc. unfold dispatch. cbn [handler fst].
  rewrite (handleDelete_confirmed _ _ _ _ Hc).
  pose proof (refines_unbounded _ _ _ _ _ (deleteRegistrant_refines s rs i Hv)) as Hd.
  destruct (deleteRegistrant i s) as [s1 o]. cbn [fst snd] in Hd.
  destruct Hd as (-> & Hv1 & Hi1 & _). rewrite getAll_initialized, Hv1 by done.
  exists s1. split; [|done]. cbn [fst]. apply settle_changed.
  by apply deps_changed_loaded.
Qed.

(** *** What the page shows *)

(** Under the invariant a table is never blank and never longer than a
    page. *)
Theorem render_rows st rows pg :
  inv st → body (render formatDate st) = Table rows pg →
  rows ≠ [] ∧ (length rows <= 5)%nat.
Proof.
  intros [HK _ Hlow Hhigh _] (_ & Hne & -> & _)%render_table.
  pose proof (totalPages_pos (itemsPerPage st) _ ltac:(lia) Hne).
  rewrite length_fmap. split.
  - intros Hnil%fmap_nil_inv. revert Hnil. apply currentItems_nonempty; lia.
  - pose proof (currentItems_length_le (currentPage st) (itemsPerPage st)
      (filteredRegistrants st) Hlow ltac:(lia)). lia.
Qed.

(** The rows are the records of the current page, in order. *)
Lemma render_rows_keys st rows pg :
  body (render formatDate st) = Table rows pg →
  row_key <$> rows =
  id <$> currentItems (currentPage st) (itemsPerPage st) (filteredRegistrants st).
Proof.
  intros (_ & _ & -> & _)%render_table. by rewrite <- list_fmap_compose.
Qed.

(** *** Export *)

(** The export holds every record of the filtered list, whatever the
    page shown, in order. *)
Theorem exportToPDF_all st :
  inv st →
  pdf_body (exportToPDF formatDate st) =
  pdf_row formatDate <$> apply_filter (searchTerm st) (registrants st).
Proof. intros Hinv. simpl. by rewrite (inv_filtered _ Hinv). Qed.

(** An image is drawn for a record exactly when it has a photo. *)
Lemma pdf_row_img r :
  truthy (pdf_img (pdf_row formatDate r)) = truthy_opt (photoData r).
Proof. simpl. by destruct (photoData r) as [[]|]. Qed.
End dashboard_facts.

(** ** The dashboard on a sample origin

    The storage is the unbounded map, the codec that of [Codec], the
    date is shown as stored. *)

Definition shown_date : string → string := λ s, s.

(** The dashboard mounted on the origin that holds the three sample
    records. *)
Definition mounted : State * gmap string string := mount three_stored.

(** The same with the delete button of Bob's row armed. *)
Definition armed : State := set_deleteConfirm (Some "3f2b8c1e-0002") mounted.1.

Lemma reachable_dash_inv_witness :
  inv (dispatch (ClickDelete "3f2b8c1e-0003")
         (dispatch (ChangeSearch "alice") mounted)).1.
Proof.
  apply (reachable_dash_inv shown_date).
  eapply reachable_next;
    [|apply step_event; apply (bool_decide_unpack _); by vm_compute].
  eapply reachable_next; [apply reachable_mount|].
  by apply step_event.
Defined.

Lemma dispatch_storage_witness :
  (dispatch (ClickDelete "3f2b8c1e-0002") mounted).2 = mounted.2.
Proof. apply (dispatch_storage (ClickDelete "3f2b8c1e-0002") mounted). by intros i [= <-]. Defined.

Lemma dispatch_confirm_witness :
  ∃ s', dispatch (ClickDelete "3f2b8c1e-0002") (armed, three_stored) =
          (filter_effect
             (set_deleteConfirm None (loaded (Spec.delete "3f2b8c1e-0002" Sample.three) armed))
             (set_deleteConfirm None (loaded (Spec.delete "3f2b8c1e-0002" Sample.three) armed)),
           s') ∧
        view s' = Some (Spec.delete "3f2b8c1e-0002" Sample.three).
Proof.
  apply (dispatch_confirm armed three_stored Sample.three "3f2b8c1e-0002");
    by vm_compute.
Defined.

Lemma render_rows_witness :
  render_row shown_date mounted.1 <$> Sample.three ≠ [] ∧
  (length (render_row shown_date mounted.1 <$> Sample.three) <= 5)%nat.
Proof.
  apply (render_rows shown_date mounted.1 _ None); [apply mount_inv|by vm_compute].
Defined.

Lemma exportToPDF_all_witness :
  pdf_body (exportToPDF shown_date mounted.1) =
  pdf_row shown_date <$> apply_filter (searchTerm mounted.1) (registrants mounted.1).
Proof. apply (exportToPDF_all shown_date mounted.1). apply mount_inv. Defined.

(** Section 8, the scenario of the two clicks: after them Bob is gone
    from the storage and from the list shown, and the button is
    disarmed. *)
Example scenario_delete :
  let w := dispatch (ClickDelete "3f2b8c1e-0002")
             (dispatch (ClickDelete "3f2b8c1e-0002") mounted) in
  fullName <$> registrants w.1 = ["Alice Smith"; "Alice Brown"] ∧
  fmap (M:=list) fullName <$> view w.2 = Some ["Alice Smith"; "Alice Brown"] ∧
  deleteConfirm w.1 = None ∧ currentPage w.1 = 1.
Proof. by vm_compute. Qed.

(** The export is not paged: with six records on two pages, the document
    holds the six. *)
Example export_not_paged :
  let st := loaded (Sample.three ++ Sample.three) initial in
  length (currentItems (currentPage st) (itemsPerPage st) (filteredRegistrants st)) = 5%nat ∧
  length (pdf_body (exportToPDF shown_date st)) = 6%nat.
Proof. by vm_compute. Qed.
