(* ===== verification/Regex.v ===== *)
(** * Regex: the pattern that [FileUpload] matches a media type against

    [file.type.match('image.*')] compiles its argument to a regular
    expression and searches the string for it.  This file gives the
    fragment of the pattern language that the argument uses (literal
    characters, [.], and a postfix star on either), its matcher, the
    unanchored search, and the compiler from the pattern's text.  The
    theorem used by the component is [js_match_prefix_any]: a pattern
    that is a literal text followed by [.*] is found exactly in the
    strings that hold the text. *)

From Stdlib Require Import Ascii String NArith.
From S2P Require Import Prelude JsString.

#[local] Open Scope string_scope.
#[local] Open Scope list_scope.
#[local] Arguments String.append !s1 s2 : simpl nomatch.

(** An atom matches one character: a given one, or ([.]) any but a line
    terminator. *)
Inductive atom : Type :=
| Lit (c : ascii)
| Any.

(** An atom once, or ([a*]) any number of times. *)
Inductive item : Type :=
| One (a : atom)
| Many (a : atom).

Definition pattern : Type := list item.

Definition is_line_terminator (c : ascii) : bool :=
  (code c =? 10)%N || (code c =? 13)%N.

Definition atom_matches (a : atom) (c : ascii) : bool :=
  match a with
  | Lit d => bool_decide (c = d)
  | Any => negb (is_line_terminator c)
  end.

(** [match_here p s]: a prefix of [s] matches [p]. *)
Fixpoint match_here (p : pattern) : string → bool :=
  match p with
  | [] => λ _, true
  | One a :: p' => λ s,
      match s with
      | String c s' => atom_matches a c && match_here p' s'
      | "" => false
      end
  | Many a :: p' =>
      fix star (s : string) : bool :=
        match_here p' s ||
        match s with
        | String c s' => atom_matches a c && star s'
        | "" => false
        end
  end.

(** [search p s]: [p] matches at some offset of [s]. *)
Fixpoint search (p : pattern) (s : string) : bool :=
  match_here p s ||
  match s with
  | String _ s' => search p s'
  | "" => false
  end.

(** The characters with a meaning of their own in a pattern. *)
Definition is_meta (c : ascii) : bool :=
  bool_decide (c ∈ list_ascii_of_string "\^$*+?()[]{}|").

(** The pattern of a text of the fragment; [None] outside it. *)
Fixpoint compile (t : string) : option pattern :=
  match t with
  | "" => Some []
  | String c t' =>
      if is_meta c then None
      else
        let a := if decide (c = "."%char) then Any else Lit c in
        match t' with
        | String "*" t'' => cons (Many a) <$> compile t''
        | _ => cons (One a) <$> compile t'
        end
  end.

(** Whether [s.match(t)] finds a match ([null] is [false]). *)
Definition js_match (s t : string) : bool :=
  match compile t with
  | Some p => search p s
  | None => false
  end.

(** The pattern of a literal text. *)
Fixpoint lits (t : string) : pattern :=
  match t with
  | "" => []
  | String c t' => One (Lit c) :: lits t'
  end.

(** ** Facts *)

(** A literal text followed by [.*] matches the strings that start with
    the text. *)
Lemma match_here_lits_any t s :
  match_here (lits t ++ [Many Any]) s = startsWith s t.
Proof.
  revert s. induction t as [|c t IH]; intros s; [by destruct s|].
  destruct s as [|d s]; simpl; [done|]. by rewrite IH, (bool_decide_ext (d = c) (c = d)).
Qed.

Lemma search_lits_any t s : search (lits t ++ [Many Any]) s = includes s t.
Proof.
  induction s as [|c s IH]; simpl; rewrite match_here_lits_any; [done|].
  by rewrite <- IH.
Qed.

(** A text without a special character compiles, with [.*] after it, to
    its literals and a star. *)
Definition plain (c : ascii) : bool := negb (is_meta c) && bool_decide (c ≠ "."%char).

Lemma compile_lits_any t :
  all_chars plain t = true → compile (t +:+ ".*") = Some (lits t ++ [Many Any]).
Proof.
  induction t as [|c t IH]; [done|]. cbn [all_chars]. unfold plain at 1.
  rewrite !andb_true_iff, negb_true_iff, bool_decide_eq_true.
  intros [[Hm Hd] Ht]. cbn [append compile]. rewrite Hm, decide_False by done.
  rewrite IH by done. destruct t as [|e t]; [done|].
  cbn [append]. destruct (ascii_dec e "*") as [->|Hne]; [done|].
  by destruct e as [[] [] [] [] [] [] [] []].
Qed.

(** [s.match(t + '.*')] succeeds exactly when [s] holds [t]: the pattern
    is not anchored. *)
Theorem js_match_prefix_any s t :
  all_chars plain t = true → js_match s (t +:+ ".*") = includes s t.
Proof.
  intros Ht. unfold js_match. rewrite compile_lits_any by done.
  apply search_lits_any.
Qed.
