(* ===== verification/DataUrl.v ===== *)
(** * DataUrl: the encoded image

    Both capture strategies hand the forms one string, a [data:] URL: the
    media type, then the bytes in Base64.  [FileReader.readAsDataURL]
    builds it from a [File]; [HTMLCanvasElement.toDataURL] from a
    canvas.  This file defines Base64 over byte strings (code units
    below 256), its inverse, the URL of a file and the reading of such a
    URL, and proves that the URL determines the media type and the
    bytes. *)

From Stdlib Require Import Ascii String NArith Lia.
From S2P Require Import Prelude JsString Types.

#[local] Open Scope string_scope.
#[local] Open Scope list_scope.
#[local] Open Scope N_scope.
#[local] Arguments String.append !s1 s2 : simpl nomatch.

(** ** Base64 *)

(** The 64 digits, in order. *)
Definition b64_alphabet : string :=
  "ABCDEFGHIJKLMNOPQRSTUVWXYZabcdefghijklmnopqrstuvwxyz0123456789+/".

(** The digit of a value below 64. *)
Definition b64_char (n : N) : ascii :=
  default "="%char (String.get (N.to_nat n) b64_alphabet).

Fixpoint index_of (c : ascii) (s : string) : option N :=
  match s with
  | "" => None
  | String d s' => if decide (c = d) then Some 0 else N.succ <$> index_of c s'
  end.

(** The value of a digit. *)
Definition b64_value (c : ascii) : option N := index_of c b64_alphabet.

Definition byte (n : N) : ascii := ascii_of_N n.

(** Three bytes give four digits; one or two bytes at the end are padded
    with [=]. *)
Fixpoint base64 (bytes : string) : string :=
  match bytes with
  | "" => ""
  | String a "" =>
      String (b64_char (code a / 4)) (String (b64_char (code a mod 4 * 16)) "==")
  | String a (String b "") =>
      String (b64_char (code a / 4))
        (String (b64_char (code a mod 4 * 16 + code b / 16))
           (String (b64_char (code b mod 16 * 4)) "="))
  | String a (String b (String d rest)) =>
      String (b64_char (code a / 4))
        (String (b64_char (code a mod 4 * 16 + code b / 16))
           (String (b64_char (code b mod 16 * 4 + code d / 64))
              (String (b64_char (code d mod 64)) (base64 rest))))
  end.

(** Four digits give three bytes; padding is accepted at the end only. *)
Fixpoint base64_decode (s : string) : option string :=
  match s with
  | "" => Some ""
  | String c1 (String c2 (String c3 (String c4 rest))) =>
      v1 ← b64_value c1;
      v2 ← b64_value c2;
      let b1 := byte (v1 * 4 + v2 / 16) in
      if decide (c3 = "="%char) then
        if decide (c4 = "="%char ∧ rest = "") then Some (String b1 "") else None
      else
        v3 ← b64_value c3;
        let b2 := byte (v2 mod 16 * 16 + v3 / 4) in
        if decide (c4 = "="%char) then
          if decide (rest = "") then Some (String b1 (String b2 "")) else None
        else
          v4 ← b64_value c4;
          let b3 := byte (v3 mod 4 * 64 + v4) in
          r ← base64_decode rest;
          Some (String b1 (String b2 (String b3 r)))
  | _ => None
  end.

(** ** The URL *)

(** [FileReader.readAsDataURL]: a file without a declared type is read
    as [application/octet-stream]. *)
Definition media_type (f : File) : string :=
  if truthy (file_type f) then file_type f else "application/octet-stream".

Definition data_url (type bytes : string) : string :=
  "data:" +:+ type +:+ ";base64," +:+ base64 bytes.

Definition readAsDataURL (f : File) : string :=
  data_url (media_type f) (file_bytes f).

(** [new File([], '')]. *)
Definition empty_file : File := mkFile "" "" 0 "".

(** [strip_prefix p s]: what follows [p] in [s]. *)
Fixpoint strip_prefix (p s : string) : option string :=
  match p, s with
  | "", _ => Some s
  | String a p', String b s' => if decide (a = b) then strip_prefix p' s' else None
  | _, "" => None
  end.

(** [split_at c s]: what precedes the first [c] in [s], and what follows
    it. *)
Fixpoint split_at (c : ascii) (s : string) : option (string * string) :=
  match s with
  | "" => None
  | String d s' =>
      if decide (d = c) then Some ("", s')
      else '(a, b) ← split_at c s'; Some (String d a, b)
  end.

(** The media type and the bytes of a Base64 [data:] URL. *)
Definition parse_data_url (u : string) : option (string * string) :=
  r ← strip_prefix "data:" u;
  '(type, r') ← split_at ";" r;
  payload ← strip_prefix "base64," r';
  bytes ← base64_decode payload;
  Some (type, bytes).

(** ** Facts *)

Lemma N_below_64 (P : N → Prop) :
  Forall P (N.of_nat <$> seq 0 64) → ∀ n, n < 64 → P n.
Proof.
  intros HP n Hn. rewrite Forall_forall in HP. apply HP.
  apply list_elem_of_fmap. exists (N.to_nat n). split; [lia|].
  apply elem_of_seq. lia.
Qed.

Lemma b64_value_char n : n < 64 → b64_value (b64_char n) = Some n.
Proof.
  revert n. apply N_below_64.
  apply (bool_decide_unpack _). by vm_compute.
Qed.

Lemma b64_char_not_pad n : n < 64 → b64_char n ≠ "="%char.
Proof.
  revert n. apply N_below_64.
  apply (bool_decide_unpack _). by vm_compute.
Qed.

Lemma code_lt c : code c < 256.
Proof. apply N_ascii_bounded. Qed.

Lemma byte_code c : byte (code c) = c.
Proof. apply ascii_N_embedding. Qed.

(** Induction on a byte string three bytes at a time. *)
Lemma string_ind3 (P : string → Prop) :
  P "" → (∀ a, P (String a "")) → (∀ a b, P (String a (String b ""))) →
  (∀ a b d r, P r → P (String a (String b (String d r)))) →
  ∀ s, P s.
Proof.
  intros H0 H1 H2 H3.
  assert (∀ s, P s ∧ (∀ a, P (String a s)) ∧ (∀ a b, P (String a (String b s)))) as H;
    [|intros s; apply H].
  induction s as [|c s (IH0 & IH1 & IH2)]; [auto|].
  split_and!; [auto..|]. intros a b. by apply H3.
Qed.

(** *** Base64 round trip *)

(** Quotients and remainders are read by [lia] through their
    equations. *)
#[local] Ltac Zify.zify_post_hook ::= Z.to_euclidean_division_equations.

Lemma base64_decode_quad n1 n2 n3 n4 rest :
  n1 < 64 → n2 < 64 → n3 < 64 → n4 < 64 →
  base64_decode
    (String (b64_char n1) (String (b64_char n2)
       (String (b64_char n3) (String (b64_char n4) rest)))) =
  r ← base64_decode rest;
  Some (String (byte (n1 * 4 + n2 / 16))
          (String (byte (n2 mod 16 * 16 + n3 / 4))
             (String (byte (n3 mod 4 * 64 + n4)) r))).
Proof.
  intros H1 H2 H3 H4. cbn [base64_decode].
  rewrite !b64_value_char by done. cbn [mbind option_bind].
  by rewrite !decide_False by by apply b64_char_not_pad.
Qed.

Lemma base64_decode_pad1 n1 n2 n3 :
  n1 < 64 → n2 < 64 → n3 < 64 →
  base64_decode
    (String (b64_char n1) (String (b64_char n2) (String (b64_char n3) "="))) =
  Some (String (byte (n1 * 4 + n2 / 16))
          (String (byte (n2 mod 16 * 16 + n3 / 4)) "")).
Proof.
  intros H1 H2 H3. cbn [base64_decode].
  rewrite !b64_value_char by done. cbn [mbind option_bind].
  by rewrite decide_False by by apply b64_char_not_pad.
Qed.

Lemma base64_decode_pad2 n1 n2 :
  n1 < 64 → n2 < 64 →
  base64_decode (String (b64_char n1) (String (b64_char n2) "==")) =
  Some (String (byte (n1 * 4 + n2 / 16)) "").
Proof.
  intros H1 H2. cbn [base64_decode].
  by rewrite !b64_value_char by done.
Qed.

(** A byte rebuilt from its value is the byte. *)
Lemma byte_eq n c : n = code c → byte n = c.
Proof. intros ->. apply byte_code. Qed.

(** Decoding the Base64 of a byte string gives the byte string. *)
Theorem base64_decode_encode bytes : base64_decode (base64 bytes) = Some bytes.
Proof.
  induction bytes as [|a|a b|a b d r IH] using string_ind3; [done|..];
    pose proof (code_lt a); try pose proof (code_lt b); try pose proof (code_lt d);
    cbn [base64].
  - rewrite base64_decode_pad2 by lia. by rewrite (byte_eq _ a) by lia.
  - rewrite base64_decode_pad1 by lia.
    by rewrite (byte_eq _ a), (byte_eq _ b) by lia.
  - rewrite base64_decode_quad, IH by lia. cbn [mbind option_bind].
    by rewrite (byte_eq _ a), (byte_eq _ b), (byte_eq _ d) by lia.
Qed.

(** Four digits for every three bytes, the last group padded. *)
Lemma base64_length bytes :
  N.of_nat (String.length (base64 bytes)) = 4 * ((N.of_nat (String.length bytes) + 2) / 3).
Proof.
  induction bytes as [|a|a b|a b d r IH] using string_ind3; [done..|].
  cbn [base64 String.length]. lia.
Qed.

(** *** The URL determines the type and the bytes *)

Lemma strip_prefix_app p s : strip_prefix p (p +:+ s) = Some s.
Proof.
  induction p as [|a p IH]; simpl; [by destruct s|]. by rewrite decide_True.
Qed.

Lemma split_at_app c a b :
  all_chars (λ d, bool_decide (d ≠ c)) a = true →
  split_at c (a +:+ String c b) = Some (a, b).
Proof.
  induction a as [|d a IH]; simpl; [by rewrite decide_True|].
  rewrite andb_true_iff, bool_decide_eq_true. intros [Hd Ha].
  by rewrite decide_False, IH by done.
Qed.

(** A media type holds no semicolon before its parameters; the types
    the sources build and accept have no parameters. *)
Definition plain_type (type : string) : bool :=
  all_chars (λ d, bool_decide (d ≠ ";"%char)) type.

(** The URL of a media type and bytes reads as that type and those
    bytes. *)
Theorem parse_data_url_data_url type bytes :
  plain_type type = true →
  parse_data_url (data_url type bytes) = Some (type, bytes).
Proof.
  intros Ht. unfold parse_data_url, data_url.
  rewrite strip_prefix_app. cbn [mbind option_bind].
  change (";base64," +:+ base64 bytes) with (String ";" ("base64," +:+ base64 bytes)).
  rewrite split_at_app by done. cbn [mbind option_bind].
  rewrite strip_prefix_app. cbn [mbind option_bind].
  by rewrite base64_decode_encode.
Qed.

(** Whatever the file, the reader's result is a non-empty string. *)
Lemma readAsDataURL_truthy f : truthy (readAsDataURL f) = true.
Proof. done. Qed.

(** The empty file that [FileUpload] hands over on clearing reads as a
    non-empty URL of no bytes. *)
Lemma readAsDataURL_empty_file :
  readAsDataURL empty_file = "data:application/octet-stream;base64,".
Proof. done. Qed.
