(* ===== verification/FileUpload.v ===== *)
(** * FileUpload: the file strategy of image capture

    [src/components/FileUpload.tsx].  The component keeps a preview and
    an error message, checks the file the user selects, and hands an
    accepted file to its parent through the callback [onFileSelect].  A
    world of the model is the component's state, the value of the hidden
    file input, the reads that its [FileReader]s have started and not
    finished, and the state of the parent, on which the callback acts.

    A read finishes at a time of its own: [reader_onload k] is the load
    event of the [k]-th pending read.  [triggerFileInput] opens the file
    dialog and changes nothing; the selection that follows is the event
    [ChangeFiles]. *)

From Stdlib Require Import Ascii String NArith.
From S2P Require Import Prelude JsString Types Regex DataUrl.

#[local] Open Scope string_scope.
#[local] Open Scope list_scope.
#[local] Open Scope N_scope.

Module FileUpload.

(** ** State *)

Record State : Type := mkState {
  preview : option string;
  error : option string;
}.

#[export] Instance State_eq_dec : EqDecision State.
Proof. solve_decision. Defined.

Definition initial : State := mkState None None.

(** [5 * 1024 * 1024]. *)
Definition MAX_SIZE : N := 5 * 1024 * 1024.

Definition NOT_AN_IMAGE : string := "Please select an image file (JPEG, PNG, etc.)".
Definition TOO_LARGE : string := "File is too large. Maximum size is 5MB.".

(** The two checks of [handleFileChange]. *)
Definition type_ok (file : File) : bool := js_match (file_type file) "image.*".
Definition size_ok (file : File) : bool := negb (MAX_SIZE <? file_size file).
Definition accepted (file : File) : bool := type_ok file && size_ok file.

(** ** What is rendered *)

Record View : Type := mkView {
  dropzone : bool;                 (* the "Click to upload" area *)
  error_text : option string;      (* the red line *)
  preview_src : option string;     (* the image, with its clear button *)
}.

Definition render (st : State) : View :=
  mkView (negb (truthy_opt (preview st)))
         (if truthy_opt (error st) then error st else None)
         (if truthy_opt (preview st) then preview st else None).

(** ** Events *)

Inductive event : Type :=
| ChangeFiles (files : list File)
| ReaderLoaded (k : nat)
| ClickClear.

Section file_upload.
Context {P : Type}.
Variable onFileSelect : File → P → P.

(** A world: the component, the file input, the pending reads and the
    parent. *)
Record World : Type := mkWorld {
  state : State;
  input_value : string;
  pending : list File;
  parent : P;
}.

Definition setPreview (v : option string) (w : World) : World :=
  mkWorld (mkState v (error (state w))) (input_value w) (pending w) (parent w).

Definition setError (v : option string) (w : World) : World :=
  mkWorld (mkState (preview (state w)) v) (input_value w) (pending w) (parent w).

(** [reader.readAsDataURL(file)]: the read is started. *)
Definition start_read (file : File) (w : World) : World :=
  mkWorld (state w) (input_value w) (pending w ++ [file]) (parent w).

(** A call of the callback. *)
Definition call_parent (file : File) (w : World) : World :=
  mkWorld (state w) (input_value w) (pending w) (onFileSelect file (parent w)).

Definition handleFileChange (files : list File) (w : World) : World :=
  match head files with
  | None => w
  | Some file =>
      if negb (type_ok file) then setError (Some NOT_AN_IMAGE) w
      else if MAX_SIZE <? file_size file then setError (Some TOO_LARGE) w
      else call_parent file (start_read file (setError None w))
  end.

(** [reader.onload] of the [k]-th pending read. *)
Definition reader_onload (k : nat) (w : World) : World :=
  match pending w !! k with
  | None => w
  | Some file =>
      let w' := mkWorld (state w) (input_value w) (delete k (pending w)) (parent w) in
      let result := readAsDataURL file in
      if truthy result then setPreview (Some result) w' else w'
  end.

Definition clearImage (w : World) : World :=
  let w1 := setPreview None w in
  let w2 := mkWorld (state w1) "" (pending w1) (parent w1) in
  call_parent empty_file w2.

(** The value the browser gives the input when files are chosen. *)
Definition chosen_value (files : list File) : string :=
  match head files with
  | None => ""
  | Some file => "C:\fakepath\" +:+ file_name file
  end.

Definition handle (e : event) (w : World) : World :=
  match e with
  | ChangeFiles files =>
      handleFileChange files
        (mkWorld (state w) (chosen_value files) (pending w) (parent w))
  | ReaderLoaded k => reader_onload k w
  | ClickClear => clearImage w
  end.

(** Which events a world offers: the clear button is on the preview, a
    load event needs a pending read. *)
Definition offered (w : World) (e : event) : Prop :=
  match e with
  | ChangeFiles _ => True
  | ReaderLoaded k => (k < length (pending w))%nat
  | ClickClear => is_Some (preview_src (render (state w)))
  end.

(** The worlds of a session. *)
Inductive reachable_upload : World → Prop :=
| reachable_start p : reachable_upload (mkWorld initial "" [] p)
| reachable_handle w e :
    reachable_upload w → offered w e → reachable_upload (handle e w).

(** The invariant: what is shown and what is being read are accepted
    files. *)
Record inv (w : World) : Prop := mkInv {
  inv_preview :
    preview (state w) = None ∨
    ∃ file, accepted file = true ∧ preview (state w) = Some (readAsDataURL file);
  inv_pending : Forall (λ file, accepted file = true) (pending w);
  inv_error :
    error (state w) = None ∨ error (state w) = Some NOT_AN_IMAGE ∨
    error (state w) = Some TOO_LARGE;
}.

End file_upload.

Arguments World : clear implicits.
Arguments mkWorld {P}.

End FileUpload.
Export FileUpload.

(** ** Facts *)

Lemma type_ok_includes file : type_ok file = includes (file_type file) "image".
Proof. apply (js_match_prefix_any _ "image"). done. Qed.

(** C21.  The type check is not anchored and the ceiling is inclusive: a
    file is accepted exactly when its declared type holds the text
    [image], wherever it stands, and its size is at most 5 MiB. *)
Theorem accepted_spec file :
  accepted file = true ↔
  (∃ a b, file_type file = a +:+ "image" +:+ b) ∧ (file_size file <= 5242880)%N.
Proof.
  unfold accepted, size_ok, MAX_SIZE.
  by rewrite andb_true_iff, type_ok_includes, includes_spec, negb_true_iff, N.ltb_ge.
Qed.

(** The size check accepts the files of at most 5 MiB. *)
Theorem size_ok_spec file : size_ok file = true ↔ (file_size file <= 5242880)%N.
Proof. unfold size_ok, MAX_SIZE. rewrite negb_true_iff, N.ltb_ge. done. Qed.

Section file_upload_facts.
Context {P : Type}.
Variable onFileSelect : File → P → P.
Implicit Types (w : World P) (file : File).

#[local] Abbreviation handleFileChange := (handleFileChange onFileSelect).
#[local] Abbreviation clearImage := (clearImage onFileSelect).
#[local] Abbreviation handle := (handle onFileSelect).
#[local] Abbreviation reachable_upload := (reachable_upload onFileSelect).

(** What a refused file is told. *)
Definition refusal (file : File) : string :=
  if type_ok file then TOO_LARGE else NOT_AN_IMAGE.

Lemma handleFileChange_refused files file w :
  head files = Some file → accepted file = false →
  handleFileChange files w = setError (Some (refusal file)) w.
Proof.
  unfold handleFileChange, accepted, size_ok, refusal. intros -> Hacc.
  destruct (type_ok file); simpl in *; [|done].
  apply negb_false_iff in Hacc. by rewrite Hacc.
Qed.

Lemma handleFileChange_passed files file w :
  head files = Some file → accepted file = true →
  handleFileChange files w =
  call_parent onFileSelect file (start_read file (setError None w)).
Proof.
  unfold handleFileChange, accepted, size_ok. intros ->.
  rewrite andb_true_iff, negb_true_iff. by intros [-> ->].
Qed.

(** C8.  A file of another type or above the ceiling is refused: the message
    names the failed check, the parent is not called, no read starts and
    the preview stays. *)
Theorem handleFileChange_rejects files file w :
  head files = Some file → accepted file = false →
  let w' := handleFileChange files w in
  error (state w') = Some (refusal file) ∧ parent w' = parent w ∧
  pending w' = pending w ∧ preview (state w') = preview (state w).
Proof. intros Hf Hacc. by rewrite (handleFileChange_refused _ _ _ Hf Hacc). Qed.

(** An accepted file is handed to the parent once, its read starts and
    the message is cleared. *)
Theorem handleFileChange_accepts files file w :
  head files = Some file → accepted file = true →
  let w' := handleFileChange files w in
  error (state w') = None ∧ parent w' = onFileSelect file (parent w) ∧
  pending w' = pending w ++ [file] ∧ preview (state w') = preview (state w).
Proof. intros Hf Hacc. by rewrite (handleFileChange_passed _ _ _ Hf Hacc). Qed.

(** Clearing removes the preview, empties the input and hands the parent
    an empty file; the message stays. *)
Theorem upload_clearImage_spec w :
  let w' := clearImage w in
  preview (state w') = None ∧ input_value w' = "" ∧
  parent w' = onFileSelect empty_file (parent w) ∧
  error (state w') = error (state w) ∧ pending w' = pending w.
Proof. done. Qed.

(** *** The invariant *)

Lemma inv_start (p : P) : inv (mkWorld initial "" [] p).
Proof. split; simpl; auto. Qed.

Lemma inv_handleFileChange files w : inv w → inv (handleFileChange files w).
Proof.
  intros [Hp Hq He]. destruct (head files) as [file|] eqn:Hf;
    [|by unfold handleFileChange; rewrite Hf].
  destruct (accepted file) eqn:Hacc.
  - rewrite (handleFileChange_passed _ _ _ Hf Hacc).
    split; simpl; [done| |by left]. apply Forall_app. by repeat constructor.
  - rewrite (handleFileChange_refused _ _ _ Hf Hacc).
    split; simpl; [done..|]. unfold refusal. destruct (type_ok file); auto.
Qed.

Lemma inv_reader_onload k w : inv w → inv (reader_onload k w).
Proof.
  intros [Hp Hq He]. unfold reader_onload.
  destruct (pending w !! k) as [file|] eqn:Hk; [|done].
  rewrite readAsDataURL_truthy. split; simpl; [|by apply Forall_delete|done].
  right. exists file. split; [|done].
  rewrite Forall_forall in Hq. eapply Hq, list_elem_of_lookup_2, Hk.
Qed.

Lemma inv_clearImage w : inv w → inv (clearImage w).
Proof. intros [Hp Hq He]. split; simpl; auto. Qed.

Lemma inv_handle e w : inv w → inv (handle e w).
Proof.
  intros Hinv. destruct e as [files|k|]; simpl;
    [apply inv_handleFileChange|by apply inv_reader_onload|by apply inv_clearImage].
  by destruct Hinv.
Qed.

(** C22.  In every world of a session the preview, when there is one, is the
    URL of an accepted file, and only accepted files are being read. *)
Theorem reachable_upload_inv w : reachable_upload w → inv w.
Proof. induction 1 as [p|w e _ IH _]; [apply inv_start|by apply inv_handle]. Qed.

(** Under the invariant the preview reads back as the type and the
    bytes of an accepted file: the string handed on is the file, whole. *)
Theorem preview_decodes w u :
  inv w → preview (state w) = Some u →
  ∃ file, accepted file = true ∧
          (plain_type (file_type file) = true →
           parse_data_url u = Some (file_type file, file_bytes file)).
Proof.
  intros [[Hp|(file & Hacc & Hp)] _ _] Hu; [congruence|].
  exists file. split; [done|]. intros Hplain.
  assert (u = readAsDataURL file) as -> by congruence.
  unfold readAsDataURL, media_type.
  assert (truthy (file_type file) = true) as ->.
  { apply andb_true_iff in Hacc as [Ht _]. rewrite type_ok_includes in Ht.
    by destruct (file_type file). }
  by apply parse_data_url_data_url.
Qed.
(** *** What the parent sees *)

(** An event leaves the parent's state as it was or calls
    [onFileSelect] once. *)
Lemma parent_upload_handle e w :
  parent (handle e w) = parent w ∨
  ∃ file, parent (handle e w) = onFileSelect file (parent w).
Proof.
  destruct e; cbn;
    unfold FileUpload.handleFileChange, reader_onload, FileUpload.clearImage;
    repeat case_match; cbn; eauto.
Qed.

End file_upload_facts.

(** ** The component on sample files

    The parent keeps the files it was handed, oldest first. *)

Definition log_file : File → list File → list File := λ file p, p ++ [file].

Definition portrait : File := mkFile "me.png" "image/png" 3 "PNG".
Definition second : File := mkFile "other.jpg" "image/jpeg" 4 "JFIF".
Definition oversized : File := mkFile "big.png" "image/png" 5242881 "PNG".
Definition at_ceiling : File := mkFile "max.png" "image/png" 5242880 "PNG".
Definition document : File := mkFile "cv.pdf" "application/pdf" 4 "%PDF".
Definition imagemap : File := mkFile "areas.map" "text/x-imagemap" 4 "rect".

Definition start : World (list File) := mkWorld initial "" [] [].

Lemma handleFileChange_rejects_witness :
  let w' := handleFileChange log_file [oversized] start in
  error (state w') = Some (refusal oversized) ∧ parent w' = parent start ∧
  pending w' = pending start ∧ preview (state w') = preview (state start).
Proof. apply (handleFileChange_rejects log_file [oversized] oversized start); done. Defined.

Lemma handleFileChange_accepts_witness :
  let w' := handleFileChange log_file [at_ceiling] start in
  error (state w') = None ∧ parent w' = log_file at_ceiling (parent start) ∧
  pending w' = pending start ++ [at_ceiling] ∧
  preview (state w') = preview (state start).
Proof. apply (handleFileChange_accepts log_file [at_ceiling] at_ceiling start); done. Defined.

Lemma reachable_upload_inv_witness :
  inv (handle log_file (ReaderLoaded 0)
         (handle log_file (ChangeFiles [portrait]) start)).
Proof.
  apply (reachable_upload_inv log_file).
  apply reachable_handle; [|by vm_compute].
  apply reachable_handle; [apply reachable_start|done].
Defined.

Lemma preview_decodes_witness :
  ∃ file, accepted file = true ∧
          (plain_type (file_type file) = true →
           parse_data_url "data:image/png;base64,UE5H"
           = Some (file_type file, file_bytes file)).
Proof.
  apply (preview_decodes
           (handle log_file (ReaderLoaded 0)
              (handle log_file (ChangeFiles [portrait]) start))); [|done].
  do 2 apply inv_handle. apply inv_start.
Defined.

(** The two refusals, and a file that is no image and is accepted
    because its type holds the text. *)
Example refusals :
  refusal document = NOT_AN_IMAGE ∧ refusal oversized = TOO_LARGE ∧
  accepted document = false ∧ accepted oversized = false ∧
  accepted imagemap = true.
Proof. done. Qed.

(** Reads finish in any order: when the first of two selected files
    loads last, the preview shows the first file while the parent was
    last handed the second. *)
Example preview_of_older_file :
  let w := handle log_file (ReaderLoaded 0)
             (handle log_file (ReaderLoaded 1)
                (handle log_file (ChangeFiles [second])
                   (handle log_file (ChangeFiles [portrait]) start))) in
  preview (state w) = Some (readAsDataURL portrait) ∧
  last (parent w) = Some second.
Proof. done. Qed.

(** After a refusal the message stays when the preview is cleared. *)
Example message_outlives_clear :
  let w := handle log_file ClickClear
             (handle log_file (ChangeFiles [document])
                (handle log_file (ReaderLoaded 0)
                   (handle log_file (ChangeFiles [portrait]) start))) in
  render (state w) = mkView true (Some NOT_AN_IMAGE) None ∧
  parent w = [portrait; empty_file].
Proof. done. Qed.
