(* ===== verification/CameraCapture.v ===== *)
(** * CameraCapture: the camera strategy of image capture

    [src/components/CameraCapture.tsx].  The component asks the browser
    for a video stream, shows it, and on a click draws the current frame
    on a canvas, hands the picture to its parent through [onCapture] and
    stops the stream.

    A world of the model is the component's state, what the DOM holds
    for it (whether the [video] element is mounted, the stream assigned
    to it), the streams whose tracks are live, the number of pending
    [getUserMedia] requests, whether the component is mounted, and the
    state of the parent.  The [video] element is rendered only while
    [isCameraActive] holds, so [videoRef.current] is the element exactly
    after a render with [isCameraActive]; [commit] is that render and
    the cleanup of the effect on [[stream]].

    A request settles at a time of its own: [getUserMedia_settled] is
    the rest of [startCamera] after its [await].  The frame of the video
    is a raster; the JPEG coder of the browser is a parameter. *)

From Stdlib Require Import Ascii String NArith.
From stdpp Require Import gmap.
From S2P Require Import Prelude JsString Types DataUrl.

#[local] Open Scope string_scope.
#[local] Open Scope list_scope.

Module CameraCapture.

(** ** The browser's side *)

(** A [MediaStream], by identity. *)
Definition MediaStream : Type := nat.

(** How a request settles: with a stream, or with a thrown value, which
    is an [Error] with a name or something else. *)
Inductive settlement : Type :=
| Granted (mediaStream : MediaStream)
| Rejected (name : option string).

(** A frame: rows of pixels. *)
Definition picture : Type := list (list N).

(** The transform [translate(width, 0); scale(-1, 1)]: every row is
    drawn from right to left. *)
Definition mirror (p : picture) : picture := reverse <$> p.

Definition videoWidth (p : picture) : nat := default 0%nat (length <$> head p).
Definition videoHeight (p : picture) : nat := length p.

(** ** State *)

Record State : Type := mkState {
  isCameraActive : bool;
  hasPermission : option bool;
  errorMessage : option string;
  capturedImage : option string;
  stream : option MediaStream;
}.

(** [useState(existingImage || null)] and the other initial values. *)
Definition initial (existingImage : option string) : State :=
  mkState false None None (js_or existingImage None) None.

Definition DEFAULT_MESSAGE : string :=
  "Camera access denied or not available. Please use file upload instead.".
Definition DENIED_MESSAGE : string :=
  "Camera permission was denied. Please allow camera access and try again.".
Definition NOT_FOUND_MESSAGE : string :=
  "No camera found on your device. Please use file upload instead.".
Definition BUSY_MESSAGE : string :=
  "Camera is in use by another application. Please close other apps using the camera.".

(** The message of the [catch] block. *)
Definition error_message (name : option string) : string :=
  match name with
  | Some n =>
      if decide (n = "NotAllowedError") then DENIED_MESSAGE
      else if decide (n = "NotFoundError") then NOT_FOUND_MESSAGE
      else if decide (n = "NotReadableError") then BUSY_MESSAGE
      else DEFAULT_MESSAGE
  | None => DEFAULT_MESSAGE
  end.

(** ** What is rendered *)

Record View : Type := mkView {
  open_button : bool;
  error_box : option string;
  video : bool;                    (* the live view with Capture and Cancel *)
  captured_src : option string;    (* the picture with its clear button *)
}.

Definition render (st : State) : View :=
  mkView (negb (isCameraActive st) && negb (truthy_opt (capturedImage st)))
         (if bool_decide (hasPermission st = Some false) && truthy_opt (errorMessage st)
          then errorMessage st else None)
         (isCameraActive st)
         (if truthy_opt (capturedImage st) then capturedImage st else None).

(** ** Events *)

Inductive event : Type :=
| ClickOpen
| Settled (s : settlement)
| ClickCapture (frame : picture)
| ClickCancel
| ClickClear
| Unmount.

Section camera.
Context {P : Type}.
Variable onCapture : string → P → P.
Variable jpeg : picture → string.

Record World : Type := mkWorld {
  state : State;
  video_mounted : bool;               (* [videoRef.current] is the element *)
  srcObject : option MediaStream;     (* of the element *)
  live : gset MediaStream;            (* streams with a track not stopped *)
  requests : nat;                     (* [getUserMedia] calls not settled *)
  mounted : bool;
  parent : P;
}.

Definition first_world (existingImage : option string) (p : P) : World :=
  mkWorld (initial existingImage) false None ∅ 0 true p.

(** A state setter: nothing once the component is unmounted. *)
Definition set (f : State → State) (w : World) : World :=
  if mounted w then
    mkWorld (f (state w)) (video_mounted w) (srcObject w) (live w) (requests w)
      (mounted w) (parent w)
  else w.

Definition setIsCameraActive (v : bool) : World → World :=
  set (λ st, mkState v (hasPermission st) (errorMessage st) (capturedImage st) (stream st)).
Definition setHasPermission (v : option bool) : World → World :=
  set (λ st, mkState (isCameraActive st) v (errorMessage st) (capturedImage st) (stream st)).
Definition setErrorMessage (v : option string) : World → World :=
  set (λ st, mkState (isCameraActive st) (hasPermission st) v (capturedImage st) (stream st)).
Definition setCapturedImage (v : option string) : World → World :=
  set (λ st, mkState (isCameraActive st) (hasPermission st) (errorMessage st) v (stream st)).
Definition setStream (v : option MediaStream) : World → World :=
  set (λ st, mkState (isCameraActive st) (hasPermission st) (errorMessage st)
               (capturedImage st) v).

(** [stream.getTracks().forEach(track => track.stop())]. *)
Definition stop_tracks (s : MediaStream) (w : World) : World :=
  mkWorld (state w) (video_mounted w) (srcObject w) (live w ∖ {[ s ]}) (requests w)
    (mounted w) (parent w).

(** [videoRef.current.srcObject = v], on a mounted element. *)
Definition set_srcObject (v : option MediaStream) (w : World) : World :=
  mkWorld (state w) (video_mounted w) v (live w) (requests w) (mounted w) (parent w).

Definition call_parent (imageSrc : string) (w : World) : World :=
  mkWorld (state w) (video_mounted w) (srcObject w) (live w) (requests w) (mounted w)
    (onCapture imageSrc (parent w)).

(** [startCamera] up to its [await]: the request is made. *)
Definition startCamera (w : World) : World :=
  mkWorld (state w) (video_mounted w) (srcObject w) (live w) (S (requests w))
    (mounted w) (parent w).

(** [startCamera] after its [await]. *)
Definition getUserMedia_settled (s : settlement) (w : World) : World :=
  let w := mkWorld (state w) (video_mounted w) (srcObject w) (live w)
             (pred (requests w)) (mounted w) (parent w) in
  match s with
  | Granted mediaStream =>
      let w := mkWorld (state w) (video_mounted w) (srcObject w)
                 (live w ∪ {[ mediaStream ]}) (requests w) (mounted w) (parent w) in
      if video_mounted w then
        setErrorMessage None
          (setHasPermission (Some true)
             (setIsCameraActive true
                (setStream (Some mediaStream)
                   (set_srcObject (Some mediaStream) w))))
      else w
  | Rejected name =>
      setIsCameraActive false
        (setErrorMessage (Some (error_message name))
           (setHasPermission (Some false) w))
  end.

(** [stopCamera], with the [stream] of the render it was made in. *)
Definition stopCamera (closure : State) (w : World) : World :=
  let w1 :=
    match stream closure with
    | Some s => setStream None (stop_tracks s w)
    | None => w
    end in
  let w2 := if video_mounted w1 then set_srcObject None w1 else w1 in
  setIsCameraActive false w2.

(** [canvas.toDataURL('image/jpeg', 0.8)] after the mirrored drawing; a
    canvas without area gives ["data:,"]. *)
Definition toDataURL (frame : picture) : string :=
  if decide (videoWidth frame = 0%nat ∨ videoHeight frame = 0%nat) then "data:,"
  else data_url "image/jpeg" (jpeg (mirror frame)).

Definition captureImage (closure : State) (frame : picture) (w : World) : World :=
  if video_mounted w && mounted w then
    let imageDataUrl := toDataURL frame in
    stopCamera closure
      (call_parent imageDataUrl (setCapturedImage (Some imageDataUrl) w))
  else w.

Definition clearImage (w : World) : World :=
  call_parent "" (setCapturedImage None w).

(** The cleanup of the effect on [[stream]], with the [stream] of the
    render that set it up. *)
Definition cleanup (closure : State) (w : World) : World :=
  match stream closure with
  | Some s => stop_tracks s w
  | None => w
  end.

(** The render after an event: the effect is cleaned up when [stream]
    changed, and the [video] element is there exactly when
    [isCameraActive]; an element that goes takes its [srcObject] along. *)
Definition commit (before : State) (w : World) : World :=
  let w1 := if decide (stream before = stream (state w)) then w else cleanup before w in
  let shown := isCameraActive (state w1) && mounted w1 in
  mkWorld (state w1) shown (if shown then srcObject w1 else None) (live w1)
    (requests w1) (mounted w1) (parent w1).

Definition unmount (w : World) : World :=
  let w1 := cleanup (state w) w in
  mkWorld (state w1) false None (live w1) (requests w1) false (parent w1).

Definition handler (closure : State) (e : event) (w : World) : World :=
  match e with
  | ClickOpen => startCamera w
  | Settled s => getUserMedia_settled s w
  | ClickCapture frame => captureImage closure frame w
  | ClickCancel => stopCamera closure w
  | ClickClear => clearImage w
  | Unmount => unmount w
  end.

Definition handle (e : event) (w : World) : World :=
  commit (state w) (handler (state w) e w).

(** Which events a world offers. *)
Definition offered (w : World) (e : event) : Prop :=
  match e with
  | ClickOpen => mounted w = true ∧ open_button (render (state w)) = true
  | Settled _ => (0 < requests w)%nat
  | ClickCapture _ | ClickCancel => mounted w = true ∧ video (render (state w)) = true
  | ClickClear => mounted w = true ∧ is_Some (captured_src (render (state w)))
  | Unmount => mounted w = true
  end.

(** The worlds of a session. *)
Inductive reachable_camera : World → Prop :=
| reachable_first_world existingImage p :
    reachable_camera (first_world existingImage p)
| reachable_handled w e :
    reachable_camera w → offered w e → reachable_camera (handle e w).

End camera.

Arguments World : clear implicits.
Arguments mkWorld {P}.

End CameraCapture.
Export CameraCapture.

(** ** Facts *)

(** The three failures of the specification have messages of their own,
    and every other failure has the fourth. *)
Theorem error_message_distinct :
  NoDup [error_message (Some "NotAllowedError"); error_message (Some "NotFoundError");
         error_message (Some "NotReadableError"); error_message None] ∧
  ∀ n, n ∉ ["NotAllowedError"; "NotFoundError"; "NotReadableError"] →
       error_message (Some n) = DEFAULT_MESSAGE.
Proof.
  split; [apply (bool_decide_unpack _); by vm_compute|].
  intros n Hn. unfold error_message.
  repeat case_decide; subst; try done; exfalso; apply Hn; set_solver.
Qed.

(** The mirrored drawing of the canvas and the mirrored display of the
    video ([scaleX(-1)]) show the same picture; mirroring twice gives
    the frame back. *)
Lemma mirror_involutive p : mirror (mirror p) = p.
Proof.
  unfold mirror. rewrite <- list_fmap_compose. rewrite <- (list_fmap_id p) at 2.
  apply list_fmap_ext. intros _ row _. apply reverse_involutive.
Qed.

Section picture_facts.
Variable jpeg : picture → string.

(** The picture of a frame with area is a JPEG [data:] URL of the
    mirrored frame. *)
Theorem toDataURL_parse frame :
  videoWidth frame ≠ 0%nat → videoHeight frame ≠ 0%nat →
  parse_data_url (toDataURL jpeg frame) = Some ("image/jpeg", jpeg (mirror frame)).
Proof.
  intros Hw Hh. unfold toDataURL. rewrite decide_False by tauto.
  by apply parse_data_url_data_url.
Qed.

Lemma toDataURL_truthy frame : truthy (toDataURL jpeg frame) = true.
Proof. unfold toDataURL. by case_decide. Qed.
End picture_facts.

Section camera_facts.
Context {P : Type}.
Variable onCapture : string → P → P.
Variable jpeg : picture → string.
Implicit Types (w : World P) (e : event) (s : MediaStream).

#[local] Abbreviation handle := (handle onCapture jpeg).
#[local] Abbreviation handler := (handler onCapture jpeg).
#[local] Abbreviation captureImage := (captureImage onCapture jpeg).
#[local] Abbreviation reachable_camera := (reachable_camera onCapture jpeg).

(** The camera is off: no live view, no stream held, no element. *)
Definition camera_off w : Prop :=
  isCameraActive (state w) = false ∧ stream (state w) = None ∧
  video_mounted w = false ∧ srcObject w = None.

Lemma camera_off_handle e w : camera_off w → camera_off (handle e w).
Proof.
  destruct w as [[a hp em ci st] vm so lv rq m p]. intros (Ha & Hs & Hv & Ho).
  simpl in *. subst. unfold camera_off.
  destruct e as [|[ms|name]|frame| | |], m; done.
Qed.

Lemma reachable_camera_off w : reachable_camera w → camera_off w.
Proof.
  induction 1 as [existingImage p|w e _ IH _]; [done|by apply camera_off_handle].
Qed.

(** C20.  In every world of a session the camera is off: [isCameraActive] is
    set only where [videoRef.current] is an element, and the element is
    rendered only when [isCameraActive] holds.  The live view is never
    shown, and its Capture and Cancel buttons are never offered. *)
Theorem camera_never_active w :
  reachable_camera w →
  camera_off w ∧ video (render (state w)) = false ∧
  (∀ frame, ¬ offered w (ClickCapture frame)) ∧ ¬ offered w ClickCancel.
Proof.
  intros Hoff%reachable_camera_off. split; [done|].
  destruct Hoff as (Ha & _). unfold offered. simpl. rewrite Ha.
  split_and!; [done|intros _ [_ [=]]|intros [_ [=]]].
Qed.

Lemma camera_off_live e w : camera_off w → live w ⊆ live (handle e w).
Proof.
  destruct w as [[a hp em ci st] vm so lv rq m p]. intros (Ha & Hs & Hv & Ho).
  simpl in *. subst.
  destruct e as [|[ms|name]|frame| | |], m; simpl; set_solver.
Qed.

(** A session after some events, offered or not. *)
Definition camera_run (es : list event) w : World P := foldl (λ w e, handle e w) w es.

Lemma camera_off_run es w s : camera_off w → s ∈ live w → s ∈ live (camera_run es w).
Proof.
  revert w. induction es as [|e es IH]; intros w Hoff Hs; [done|].
  apply IH; [by apply camera_off_handle|]. by apply (camera_off_live e w).
Qed.

(** C5.  A granted request leaks its stream: the element that [startCamera]
    looks for is not mounted, so the stream is dropped with its tracks
    live, the component shows what it showed, and nothing that happens
    later stops the tracks. *)
Theorem granted_stream_leaks w s es :
  reachable_camera w →
  state (handle (Settled (Granted s)) w) = state w ∧
  s ∈ live (camera_run es (handle (Settled (Granted s)) w)).
Proof.
  intros Hoff%reachable_camera_off. split.
  - destruct w as [[a hp em ci st] vm so lv rq m p], Hoff as (Ha & Hs & Hv & Ho).
    simpl in *. by subst.
  - apply camera_off_run; [by apply camera_off_handle|].
    destruct w as [[a hp em ci st] vm so lv rq m p], Hoff as (Ha & Hs & Hv & Ho).
    simpl in *. subst. simpl. set_solver.
Qed.

(** A refused request: the message of the failure is shown, the camera
    is off and no stream is live that was not. *)
Theorem rejected_shows_message w name :
  reachable_camera w → mounted w = true →
  let w' := handle (Settled (Rejected name)) w in
  error_box (render (state w')) = Some (error_message name) ∧
  camera_off w' ∧ live w' = live w.
Proof.
  intros Hoff%reachable_camera_off Hm.
  destruct w as [[a hp em ci st] vm so lv rq m p], Hoff as (Ha & Hs & Hv & Ho).
  simpl in *. subst. split; [|done]. simpl.
  unfold error_message, DENIED_MESSAGE, NOT_FOUND_MESSAGE, BUSY_MESSAGE, DEFAULT_MESSAGE.
  destruct name; repeat case_decide; done.
Qed.

(** *** The handlers on a camera that is on

    No session reaches such a world ([camera_never_active]); these are
    the facts of [captureImage], [stopCamera] and the cleanup on their
    own. *)

Definition camera_on s w : Prop :=
  stream (state w) = Some s ∧ isCameraActive (state w) = true ∧
  video_mounted w = true ∧ mounted w = true.

Lemma stopped s (X : gset MediaStream) : s ∉ X ∖ {[ s ]}.
Proof. rewrite elem_of_difference, elem_of_singleton. tauto. Qed.

(** The ways out of the live view. *)
Definition is_exit e : bool :=
  match e with
  | ClickCapture _ | ClickCancel | Unmount => true
  | _ => false
  end.

(** C19.  Every way out of the live view stops the tracks of the stream held
    and takes the stream off the element. *)
Theorem exit_releases s w e :
  camera_on s w → is_exit e = true →
  let w' := handle e w in
  video_mounted w' = false ∧ srcObject w' = None ∧ s ∉ live w'.
Proof.
  destruct w as [[a hp em ci st] vm so lv rq m p]. intros (Hs & Ha & Hv & Hm) He.
  simpl in *. subst. unfold handle, commit.
  destruct e; try done; simpl; repeat case_decide; try done;
    split_and!; try done; apply stopped.
Qed.

(** C36.  A capture hands the parent the picture it shows, once, and turns
    the camera off. *)
Theorem captureImage_hands_over s w frame :
  camera_on s w →
  let w' := handle (ClickCapture frame) w in
  parent w' = onCapture (toDataURL jpeg frame) (parent w) ∧
  capturedImage (state w') = Some (toDataURL jpeg frame) ∧
  isCameraActive (state w') = false ∧ stream (state w') = None.
Proof.
  destruct w as [[a hp em ci st] vm so lv rq m p]. intros (Hs & Ha & Hv & Hm).
  simpl in *. by subst.
Qed.

(** Clearing hands the parent the empty string. *)
Lemma camera_clearImage_spec w :
  mounted w = true →
  let w' := clearImage onCapture w in
  capturedImage (state w') = None ∧ parent w' = onCapture "" (parent w) ∧
  live w' = live w.
Proof. destruct w as [[a hp em ci st] vm so lv rq m p]. simpl. by intros ->. Qed.
(** *** What the parent sees *)

Lemma parent_cleanup before w : parent (cleanup before w) = parent w.
Proof. unfold cleanup. by repeat case_match. Qed.

Lemma parent_commit before w : parent (commit before w) = parent w.
Proof. unfold commit. cbn. case_decide; by rewrite ?parent_cleanup. Qed.

(** An event leaves the parent's state as it was or calls [onCapture]
    once. *)
Lemma parent_handle e w :
  parent (handle e w) = parent w ∨
  ∃ imageSrc, parent (handle e w) = onCapture imageSrc (parent w).
Proof.
  unfold CameraCapture.handle. rewrite parent_commit.
  destruct e; cbn [CameraCapture.handler];
    unfold startCamera, getUserMedia_settled, CameraCapture.captureImage, stopCamera,
      clearImage,
      unmount, setErrorMessage, setHasPermission, setIsCameraActive,
      setStream, setCapturedImage, set_srcObject, stop_tracks, call_parent, set;
    cbn; rewrite ?parent_cleanup; repeat case_match; cbn; eauto.
Qed.

End camera_facts.

(** ** The component on sample worlds

    The parent keeps the pictures it was handed, oldest first; the coder
    writes a fixed text. *)

Definition log_picture : string → list string → list string := λ img p, p ++ [img].
Definition sample_jpeg : picture → string := λ _, "JFIF".
Definition sample_frame : picture := [[1; 2]; [3; 4]]%N.

(** A form is opened and the button clicked. *)
Definition opened : World (list string) :=
  handle log_picture sample_jpeg ClickOpen (first_world None []).

(** A world with the camera on, which no session reaches. *)
Definition live_view : World (list string) :=
  mkWorld (mkState true (Some true) None None (Some 7%nat)) true (Some 7%nat) {[ 7%nat ]}
    0 true [].

Lemma camera_never_active_witness :
  let w := handle log_picture sample_jpeg (Settled (Granted 7%nat)) opened in
  camera_off w ∧ video (render (state w)) = false ∧
  (∀ frame, ¬ offered w (ClickCapture frame)) ∧ ¬ offered w ClickCancel.
Proof.
  apply (camera_never_active log_picture sample_jpeg).
  apply reachable_handled; [|by vm_compute].
  apply reachable_handled; [apply reachable_first_world|done].
Defined.

Lemma granted_stream_leaks_witness :
  state (handle log_picture sample_jpeg (Settled (Granted 7%nat)) opened) = state opened ∧
  7%nat ∈ live (camera_run log_picture sample_jpeg [Unmount]
                  (handle log_picture sample_jpeg (Settled (Granted 7%nat)) opened)).
Proof.
  apply (granted_stream_leaks log_picture sample_jpeg opened 7%nat [Unmount]).
  apply reachable_handled; [apply reachable_first_world|done].
Defined.

Lemma rejected_shows_message_witness :
  let w' := handle log_picture sample_jpeg (Settled (Rejected (Some "NotFoundError"))) opened in
  error_box (render (state w')) = Some (error_message (Some "NotFoundError")) ∧
  camera_off w' ∧ live w' = live opened.
Proof.
  apply (rejected_shows_message log_picture sample_jpeg opened (Some "NotFoundError"));
    [|done].
  apply reachable_handled; [apply reachable_first_world|done].
Defined.

Lemma exit_releases_witness :
  let w' := handle log_picture sample_jpeg Unmount live_view in
  video_mounted w' = false ∧ srcObject w' = None ∧ 7%nat ∉ live w'.
Proof. apply (exit_releases log_picture sample_jpeg 7%nat live_view Unmount); done. Defined.

Lemma captureImage_hands_over_witness :
  let w' := handle log_picture sample_jpeg (ClickCapture sample_frame) live_view in
  parent w' = log_picture (toDataURL sample_jpeg sample_frame) (parent live_view) ∧
  capturedImage (state w') = Some (toDataURL sample_jpeg sample_frame) ∧
  isCameraActive (state w') = false ∧ stream (state w') = None.
Proof.
  apply (captureImage_hands_over log_picture sample_jpeg 7%nat live_view sample_frame).
  done.
Defined.

Lemma toDataURL_parse_witness :
  parse_data_url (toDataURL sample_jpeg sample_frame)
  = Some ("image/jpeg", sample_jpeg (mirror sample_frame)).
Proof. apply (toDataURL_parse sample_jpeg sample_frame); done. Defined.

(** The button does nothing that shows: after a granted request the
    page offers what it offered, the live view is absent, and the
    camera is on. *)
Example open_camera_shows_nothing :
  let w := handle log_picture sample_jpeg (Settled (Granted 7%nat)) opened in
  render (state w) = render (initial None) ∧ video (render (state w)) = false ∧
  live w = {[ 7%nat ]}.
Proof. done. Qed.

(** A frame without area, as before the metadata of the video has
    loaded, gives a picture that is no image and is not empty. *)
Example capture_without_area :
  toDataURL sample_jpeg [] = "data:," ∧ truthy (toDataURL sample_jpeg []) = true.
Proof. done. Qed.
