(* ===== verification/Capture.v ===== *)
(** * Capture: the capture component that a form mounts

    Both forms render one of the two capture components, by the
    strategy chosen, and give it a callback that acts on their own
    state.  The models of the components carry the state of their
    parent; this file holds the sum of the two, with the case of no
    component mounted, and the access to the parent's state in it.
    When a render replaces the child, React unmounts the one that goes:
    a camera component runs its cleanup and stays in the model
    ([Replaced]) with the streams it has not stopped and the requests
    of [getUserMedia] that settle after it is gone. *)

From Stdlib Require Import String.
From stdpp Require Import gmap.
From S2P Require Import Prelude JsString Types DataUrl FileUpload CameraCapture.

#[local] Open Scope string_scope.
#[local] Open Scope list_scope.

(** ['camera' | 'file']. *)
Inductive UploadType : Type := use_camera | use_file.

#[export] Instance UploadType_eq_dec : EqDecision UploadType.
Proof. solve_decision. Defined.

Section capture.
Context {P : Type}.

(** A camera component without its parent: what is left of one that
    React has unmounted. *)
Definition forget (c : CameraCapture.World P) : CameraCapture.World () :=
  CameraCapture.mkWorld (CameraCapture.state c) (video_mounted c) (srcObject c)
    (live c) (requests c) (mounted c) ().

(** The mounted child, with the parent's state in it.  [Replaced old ch]
    is the child [ch] where a camera component was before: [old] is
    that component after its unmount, with the streams it has not
    stopped and the requests that have not settled yet. *)
Inductive Child : Type :=
| CameraChild (c : CameraCapture.World P)
| FileChild (u : FileUpload.World P)
| NoChild (p : P)
| Replaced (old : CameraCapture.World ()) (ch : Child).

Fixpoint shell (ch : Child) : P :=
  match ch with
  | CameraChild c => CameraCapture.parent c
  | FileChild u => FileUpload.parent u
  | NoChild p => p
  | Replaced _ ch => shell ch
  end.

Fixpoint map_shell (f : P → P) (ch : Child) : Child :=
  match ch with
  | CameraChild c =>
      CameraChild
        (CameraCapture.mkWorld (CameraCapture.state c) (video_mounted c) (srcObject c)
           (live c) (requests c) (mounted c) (f (CameraCapture.parent c)))
  | FileChild u =>
      FileChild
        (FileUpload.mkWorld (FileUpload.state u) (input_value u) (pending u)
           (f (FileUpload.parent u)))
  | NoChild p => NoChild (f p)
  | Replaced old ch => Replaced old (map_shell f ch)
  end.

(** The component of a strategy, just mounted; the camera component is
    given the picture that exists. *)
Definition mount_capture (t : UploadType) (existingImage : option string) (p : P)
    : Child :=
  match t with
  | use_camera => CameraChild (first_world existingImage p)
  | use_file => FileChild (FileUpload.mkWorld FileUpload.initial "" [] p)
  end.

(** Whether the mounted child is the component of a strategy. *)
Fixpoint shows (t : UploadType) (ch : Child) : bool :=
  match ch, t with
  | CameraChild _, use_camera | FileChild _, use_file => true
  | Replaced _ ch, _ => shows t ch
  | _, _ => false
  end.

(** The render puts [new] where [ch] was.  React unmounts the child that
    goes: the cleanup of a camera component runs, and the component
    stays behind with what it has not released. *)
Fixpoint replace (new ch : Child) : Child :=
  match ch with
  | CameraChild c =>
      Replaced (forget (CameraCapture.commit (CameraCapture.state c)
                          (CameraCapture.unmount c))) new
  | FileChild _ | NoChild _ => new
  | Replaced old ch => Replaced old (replace new ch)
  end.

(** The child that is mounted now. *)
Fixpoint current (ch : Child) : Child :=
  match ch with
  | Replaced _ ch => current ch
  | _ => ch
  end.

(** The camera components unmounted so far, oldest first. *)
Fixpoint retired (ch : Child) : list (CameraCapture.World ()) :=
  match ch with
  | Replaced old ch => old :: retired ch
  | _ => []
  end.

(** An event of the child, with the callback the parent gave it. *)
Fixpoint camera_event (onCapture : string → P → P) (jpeg : picture → string)
    (e : CameraCapture.event) (ch : Child) : Child :=
  match ch with
  | CameraChild c => CameraChild (CameraCapture.handle onCapture jpeg e c)
  | Replaced old ch => Replaced old (camera_event onCapture jpeg e ch)
  | _ => ch
  end.

Fixpoint upload_event (onFileSelect : File → P → P) (e : FileUpload.event)
    (ch : Child) : Child :=
  match ch with
  | FileChild u => FileChild (FileUpload.handle onFileSelect e u)
  | Replaced old ch => Replaced old (upload_event onFileSelect e ch)
  | _ => ch
  end.

(** A request of the [k]-th unmounted camera component settles: the rest
    of its [startCamera] runs, on a component that is gone. *)
Fixpoint retired_settled (k : nat) (s : settlement) (ch : Child) : Child :=
  match ch, k with
  | Replaced old ch, 0%nat =>
      Replaced (CameraCapture.commit (CameraCapture.state old)
                  (getUserMedia_settled s old)) ch
  | Replaced old ch, S k => Replaced old (retired_settled k s ch)
  | _, _ => ch
  end.

(** Which events of a child the page offers. *)
Fixpoint camera_offered (ch : Child) (e : CameraCapture.event) : Prop :=
  match ch with
  | CameraChild c => CameraCapture.offered c e
  | Replaced _ ch => camera_offered ch e
  | _ => False
  end.

Fixpoint upload_offered (ch : Child) (e : FileUpload.event) : Prop :=
  match ch with
  | FileChild u => FileUpload.offered u e
  | Replaced _ ch => upload_offered ch e
  | _ => False
  end.

(** The [k]-th unmounted camera component has a request that has not
    settled. *)
Definition retired_offered (ch : Child) (k : nat) : Prop :=
  ∃ old, retired ch !! k = Some old ∧ (0 < requests old)%nat.

(** The streams with a live track, of the mounted camera component and
    of those unmounted. *)
Fixpoint live_streams (ch : Child) : gset MediaStream :=
  match ch with
  | CameraChild c => live c
  | Replaced old ch => live old ∪ live_streams ch
  | _ => ∅
  end.

Lemma shell_map_shell f ch : shell (map_shell f ch) = f (shell ch).
Proof. induction ch; by simpl. Qed.

Lemma map_shell_compose f g ch : map_shell f (map_shell g ch) = map_shell (f ∘ g) ch.
Proof. induction ch; simpl; by f_equal. Qed.

Lemma shell_mount_capture t existingImage p :
  shell (mount_capture t existingImage p) = p.
Proof. by destruct t. Qed.

Lemma shell_replace new ch : shell (replace new ch) = shell new.
Proof. induction ch; by simpl. Qed.

Lemma replace_map_shell new f ch : replace new (map_shell f ch) = replace new ch.
Proof.
  induction ch as [c| | |old ch IH]; simpl; [|done..|by f_equal].
  f_equal. unfold forget, CameraCapture.commit, CameraCapture.unmount, cleanup.
  destruct c as [[a hp em ci [st|]] vm so lv rq m p]; simpl; by repeat case_decide.
Qed.

Lemma shell_retired_settled k s ch : shell (retired_settled k s ch) = shell ch.
Proof. revert k. induction ch; intros [|k]; simpl; auto. Qed.

Lemma retired_map_shell f ch : retired (map_shell f ch) = retired ch.
Proof. induction ch; simpl; by f_equal. Qed.
End capture.

(** ** What a child's event does to the parent

    A property of the parent's state that the callback keeps holds
    after an event of the child. *)

Section parent_invariants.
Context {P : Type} (I : P → Prop).

Lemma camera_event_inv (onCapture : string → P → P) jpeg e ch :
  (∀ imageSrc p, I p → I (onCapture imageSrc p)) →
  I (shell ch) → I (shell (camera_event onCapture jpeg e ch)).
Proof.
  intros Hcb. induction ch as [c| | |old ch IH]; [|done..|done].
  cbn [camera_event shell].
  by destruct (parent_handle onCapture jpeg e c) as [->|[x ->]]; auto.
Qed.

Lemma upload_event_inv (onFileSelect : File → P → P) e ch :
  (∀ file p, I p → I (onFileSelect file p)) →
  I (shell ch) → I (shell (upload_event onFileSelect e ch)).
Proof.
  intros Hcb. induction ch as [|u| |old ch IH]; [done| |done..].
  cbn [upload_event shell].
  by destruct (parent_upload_handle onFileSelect e u) as [->|[x ->]]; auto.
Qed.
End parent_invariants.

(** ** The streams of the camera components

    No camera component of a session is ever on
    ([CameraCapture.camera_never_active]); so none holds the stream it
    was granted, and neither its cleanup nor anything else stops a
    track. *)

Section streams.
Context {P : Type}.
Implicit Types (ch new : Child (P:=P)) (c : CameraCapture.World P).

(** Every camera component, mounted or gone, is off. *)
Fixpoint all_off ch : Prop :=
  match ch with
  | CameraChild c => camera_off c
  | Replaced old ch => camera_off old ∧ all_off ch
  | _ => True
  end.

Lemma forget_unmount_off c :
  camera_off c →
  camera_off (forget (CameraCapture.commit (CameraCapture.state c) (CameraCapture.unmount c))) ∧
  live (forget (CameraCapture.commit (CameraCapture.state c) (CameraCapture.unmount c)))
  = live c.
Proof.
  destruct c as [[a hp em ci st] vm so lv rq m p]. intros (Ha & Hs & Hv & Ho).
  simpl in *. by subst.
Qed.

Lemma settled_off s (old : CameraCapture.World ()) :
  camera_off old →
  camera_off (CameraCapture.commit (CameraCapture.state old) (getUserMedia_settled s old)) ∧
  live old ⊆ live (CameraCapture.commit (CameraCapture.state old)
                     (getUserMedia_settled s old)).
Proof.
  intros Hoff. split.
  - exact (camera_off_handle (λ _ u, u) (λ _, "") (Settled s) old Hoff).
  - exact (camera_off_live (λ _ u, u) (λ _, "") (Settled s) old Hoff).
Qed.

Lemma all_off_map_shell f ch : all_off (map_shell f ch) ↔ all_off ch.
Proof. induction ch as [c| | |old ch IH]; simpl; [by destruct c|done..|by rewrite IH]. Qed.

Lemma live_streams_map_shell f ch : live_streams (map_shell f ch) = live_streams ch.
Proof. induction ch; simpl; by f_equal. Qed.

Lemma all_off_mount_capture t existingImage (p : P) :
  all_off (mount_capture t existingImage p).
Proof. by destruct t. Qed.

Lemma live_streams_mount_capture t existingImage (p : P) :
  live_streams (mount_capture t existingImage p) = ∅.
Proof. by destruct t. Qed.

Lemma all_off_replace new ch : all_off new → all_off ch → all_off (replace new ch).
Proof.
  intros Hnew. induction ch as [c| | |old ch IH]; cbn [replace all_off]; [|done..|].
  - intros Hc. split; [|done]. by apply forget_unmount_off.
  - intros [? ?]. auto.
Qed.

(** The render stops no track: the streams of the child that goes are
    live after its unmount. *)
Lemma live_streams_replace new ch :
  all_off ch → live_streams ch ⊆ live_streams (replace new ch).
Proof.
  induction ch as [c| | |old ch IH]; cbn [replace live_streams all_off].
  - intros Hc. rewrite (proj2 (forget_unmount_off c Hc)). apply union_subseteq_l.
  - intros _. apply empty_subseteq.
  - intros _. apply empty_subseteq.
  - intros [_ Hch]. apply union_mono_l. auto.
Qed.

Lemma all_off_camera_event onCapture jpeg e ch :
  all_off ch → all_off (camera_event onCapture jpeg e ch).
Proof.
  induction ch as [c| | |old ch IH]; cbn [camera_event all_off]; [|done..|].
  - apply camera_off_handle.
  - intros [? ?]. auto.
Qed.

Lemma live_streams_camera_event onCapture jpeg e ch :
  all_off ch → live_streams ch ⊆ live_streams (camera_event onCapture jpeg e ch).
Proof.
  induction ch as [c| | |old ch IH]; cbn [camera_event live_streams all_off]; [|done..|].
  - apply camera_off_live.
  - intros [_ Hch]. apply union_mono_l. auto.
Qed.

Lemma all_off_upload_event onFileSelect e ch :
  all_off ch → all_off (upload_event onFileSelect e ch).
Proof.
  induction ch as [c| | |old ch IH]; cbn [upload_event all_off]; [done..|].
  intros [? ?]. auto.
Qed.

Lemma live_streams_upload_event onFileSelect e ch :
  live_streams (upload_event onFileSelect e ch) = live_streams ch.
Proof. induction ch; simpl; by f_equal. Qed.

Lemma all_off_retired_settled k s ch : all_off ch → all_off (retired_settled k s ch).
Proof.
  revert k. induction ch as [c| | |old ch IH]; intros [|k]; simpl; try done.
  - intros [Ho ?]. split; [|done]. by apply settled_off.
  - intros [? ?]. auto.
Qed.

Lemma live_streams_retired_settled k s ch :
  all_off ch → live_streams ch ⊆ live_streams (retired_settled k s ch).
Proof.
  revert k. induction ch as [c| | |old ch IH]; intros [|k]; simpl; try done.
  - intros [Ho ?]. apply union_mono_r. by apply settled_off.
  - intros [? Hch]. apply union_mono_l. auto.
Qed.

(** A granted request of a camera component that is gone: the stream is
    live, and the component is as it was. *)
Lemma retired_granted k s ch old :
  all_off ch → retired ch !! k = Some old →
  s ∈ live_streams (retired_settled k (Granted s) ch).
Proof.
  revert k. induction ch as [c| | |o ch IH]; intros [|k]; simpl; try done.
  - intros [Ho _] [= ->]. apply elem_of_union_l.
    destruct old as [[a hp em ci st] vm so lv rq m []], Ho as (Ha & Hs & Hv & Hso).
    simpl in *. subst. simpl. apply elem_of_union_r. by apply elem_of_singleton.
  - intros [_ Hch] Hk. apply elem_of_union_r. by apply IH.
Qed.
End streams.

Arguments Child : clear implicits.
