(* ===== verification/RegistrationForm.v ===== *)
(** * RegistrationForm: the submission path

    The component [RegistrationForm], kept in the sources as
    [src/unnamed/part_002].  The form keeps the photo as
    a string, two flags and the choice of capture strategy; the library
    react-hook-form keeps the values of the fields and the errors of
    the last validation.  The form mounts one capture component,
    [CameraCapture] or [FileUpload], and gives it a callback; on
    submission it validates the values against the schema, requires a
    photo, and calls [addRegistrant].

    A world of the model is the mounted child, whose model carries the
    state of its parent, and the storage.  The parent's part ([Shell])
    is the form's state, the reads its own [FileReader]s have started,
    the alerts raised, and the timers set.  While the success message
    is shown the form, and its child with it, is not mounted.  A child
    that a render replaces is unmounted ([Capture.replace]); a camera
    component stays in the world with what it has not released, and a
    request of it that settles later is the event [Gone].

    Two library functions are parameters: the e-mail test of the schema
    and the time value of a date string.  The errors are those of the
    last submission: react-hook-form's validation of a field on its
    later changes is not modelled. *)

From Stdlib Require Import Ascii String ZArith NArith.
From stdpp Require Import gmap.
From S2P Require Import Prelude JsString Types Json Codec Storage Registrants.
From S2P Require Import RegistrationService DataUrl FileUpload CameraCapture Capture.

#[local] Open Scope string_scope.
#[local] Open Scope list_scope.

Module RegistrationForm.

(** ** The values of the fields and the schema *)

(** [RegistrationFormValues]: what the inputs hold, as strings. *)
Record Values : Type := mkValues {
  v_fullName : string;
  v_email : string;
  v_phone : string;
  v_address : string;
  v_gender : string;
  v_dateOfBirth : string;
}.

(** [defaultValues: { gender: 'male' }]; an input without a default is
    empty. *)
Definition defaultValues : Values := mkValues "" "" "" "" "male" "".

Definition FULL_NAME_MESSAGE : string :=
  "Full name is required and must be at least 3 characters".
Definition EMAIL_MESSAGE : string := "Invalid email address".
Definition PHONE_MESSAGE : string := "Phone number must be at least 10 digits".
Definition ADDRESS_MESSAGE : string := "Address is required".
Definition GENDER_MESSAGE : string := "Please select a gender".
Definition DATE_MESSAGE : string := "Date of birth must be in the past".
Definition NO_PHOTO_ALERT : string := "Please capture or upload a photo".
Definition ERROR_ALERT : string :=
  "An error occurred while submitting the form. Please try again.".

(** [z.string().min(n)]. *)
Definition min_length (n : nat) (s : string) : bool := (n <=? String.length s)%nat.

(** One issue of the schema: the field and its message. *)
Definition issue (ok : bool) (field message : string) : list (string * string) :=
  if ok then [] else [(field, message)].

(** ** State *)

Module RF.
Record State : Type := mkState {
  photoData : string;
  isSubmitting : bool;
  submitSuccess : bool;
  uploadType : UploadType;
  values : Values;
  errors : list (string * string);
}.
End RF.

Definition form_initial : RF.State := RF.mkState "" false false use_camera defaultValues [].

(** The parent's part of a world. *)
Record Shell : Type := mkShell {
  form : RF.State;
  reading : list File;       (* reads of [handleFileUpload] not yet loaded *)
  alerts : list string;      (* calls of [alert], oldest first *)
  timers : nat;              (* [setTimeout] calls not yet fired *)
}.

Definition set_form (f : RF.State → RF.State) (p : Shell) : Shell :=
  mkShell (f (form p)) (reading p) (alerts p) (timers p).

Definition setPhotoData (v : string) : Shell → Shell :=
  set_form (λ st, RF.mkState v (RF.isSubmitting st) (RF.submitSuccess st)
                    (RF.uploadType st) (RF.values st) (RF.errors st)).
Definition setIsSubmitting (v : bool) : Shell → Shell :=
  set_form (λ st, RF.mkState (RF.photoData st) v (RF.submitSuccess st)
                    (RF.uploadType st) (RF.values st) (RF.errors st)).
Definition setSubmitSuccess (v : bool) : Shell → Shell :=
  set_form (λ st, RF.mkState (RF.photoData st) (RF.isSubmitting st) v
                    (RF.uploadType st) (RF.values st) (RF.errors st)).
Definition setUploadType (v : UploadType) : Shell → Shell :=
  set_form (λ st, RF.mkState (RF.photoData st) (RF.isSubmitting st) (RF.submitSuccess st)
                    v (RF.values st) (RF.errors st)).
Definition set_values (v : Values) : Shell → Shell :=
  set_form (λ st, RF.mkState (RF.photoData st) (RF.isSubmitting st) (RF.submitSuccess st)
                    (RF.uploadType st) v (RF.errors st)).
Definition set_errors (v : list (string * string)) : Shell → Shell :=
  set_form (λ st, RF.mkState (RF.photoData st) (RF.isSubmitting st) (RF.submitSuccess st)
                    (RF.uploadType st) (RF.values st) v).

(** [reset()] of react-hook-form: the default values, no error. *)
Definition reset (p : Shell) : Shell := set_errors [] (set_values defaultValues p).

Definition alert (message : string) (p : Shell) : Shell :=
  mkShell (form p) (reading p) (alerts p ++ [message]) (timers p).

Definition setTimeout (p : Shell) : Shell :=
  mkShell (form p) (reading p) (alerts p) (S (timers p)).

(** ** The callbacks given to the capture components *)

Definition handlePhotoCapture (imageSrc : string) : Shell → Shell :=
  setPhotoData imageSrc.

(** [handleFileUpload]: the read is started; [reader.onload] is
    [file_loaded]. *)
Definition handleFileUpload (file : File) (p : Shell) : Shell :=
  mkShell (form p) (reading p ++ [file]) (alerts p) (timers p).

Definition file_loaded (k : nat) (p : Shell) : Shell :=
  match reading p !! k with
  | None => p
  | Some file =>
      let p' := mkShell (form p) (delete k (reading p)) (alerts p) (timers p) in
      let result := readAsDataURL file in
      if truthy result then setPhotoData result p' else p'
  end.

(** ** The mounted child *)

(** The child that the form mounts for the strategy chosen:
    [<CameraCapture onCapture={handlePhotoCapture} />] or
    [<FileUpload onFileSelect={handleFileUpload} />]. *)
Definition mount_child (p : Shell) : Child Shell :=
  mount_capture (RF.uploadType (form p)) None p.

(** ** Events *)

Inductive form_event : Type :=
| Input (v : Values)
| ClickUse (t : UploadType)
| Camera (e : CameraCapture.event)
| Upload (e : FileUpload.event)
| FileLoaded (k : nat)
| Submit (today : Z) (env : Env)
| Timeout
| Gone (k : nat) (s : settlement).   (* a request of an unmounted camera settles *)

Section registration_form.
Context `{Storage St} `{Codec (list Registrant)}.
Variable is_email : string → bool.
Variable date_value : string → option Z.
Variable jpeg : picture → string.

#[local] Abbreviation world := (Child Shell * St)%type.

(** ** The schema *)

(** The refinement of [dateOfBirth]: [new Date(val) < new Date()]; a
    string that is no date compares [false]. *)
Definition in_the_past (today : Z) (val : string) : bool :=
  match date_value val with
  | Some t => (t <? today)%Z
  | None => false
  end.

(** [registrationSchema]: the issues of the values, in the order of the
    schema. *)
Definition registrationSchema (today : Z) (v : Values) : list (string * string) :=
  issue (min_length 3 (v_fullName v)) "fullName" FULL_NAME_MESSAGE ++
  issue (is_email (v_email v)) "email" EMAIL_MESSAGE ++
  issue (min_length 10 (v_phone v)) "phone" PHONE_MESSAGE ++
  issue (min_length 5 (v_address v)) "address" ADDRESS_MESSAGE ++
  issue (bool_decide (is_Some (gender_of_string (v_gender v)))) "gender" GENDER_MESSAGE ++
  issue (in_the_past today (v_dateOfBirth v)) "dateOfBirth" DATE_MESSAGE.

(** [{ ...data, photoData }]. *)
Definition registrantData (v : Values) (g : Gender) (photoData : string)
    : Form.RegistrantFormData :=
  Form.mkFormData (v_fullName v) (v_email v) (v_phone v) (v_address v) g
    (v_dateOfBirth v) (Some photoData) None.

(** ** Handlers *)

Definition set_shell (f : Shell → Shell) : eff world exn () :=
  writes (λ w, (map_shell f w.1, w.2)).

Definition onSubmit (closure : RF.State) (g : Gender) (env : Env) : eff world exn () :=
  if negb (truthy (RF.photoData closure)) then set_shell (alert NO_PHOTO_ALERT)
  else
    set_shell (setIsSubmitting true);;
    try_finally
      (try_catch
         (on_snd (addRegistrant env
                    (registrantData (RF.values closure) g (RF.photoData closure)));;
          set_shell (setSubmitSuccess true);;
          set_shell reset;;
          set_shell (setPhotoData "");;
          set_shell setTimeout)
         (λ _, set_shell (alert ERROR_ALERT)))
      (set_shell (setIsSubmitting false)).

(** [handleSubmit(onSubmit)]: the resolver first; [onSubmit] only
    without an issue. *)
Definition handleSubmit (closure : RF.State) (today : Z) (env : Env)
    : eff world exn () :=
  let issues := registrationSchema today (RF.values closure) in
  match issues, gender_of_string (v_gender (RF.values closure)) with
  | [], Some g => set_shell (set_errors []);; onSubmit closure g env
  | _, _ => set_shell (set_errors issues)
  end.

(** The callback of [setTimeout], 5 seconds later. *)
Definition timeout (p : Shell) : Shell :=
  setSubmitSuccess false (mkShell (form p) (reading p) (alerts p) (pred (timers p))).

Definition form_handler (e : form_event) : eff world exn () := λ w,
  match e with
  | Input v => set_shell (set_values v) w
  | ClickUse t => set_shell (setUploadType t) w
  | Camera e => writes (λ w, (camera_event handlePhotoCapture jpeg e w.1, w.2)) w
  | Upload e => writes (λ w, (upload_event handleFileUpload e w.1, w.2)) w
  | FileLoaded k => set_shell (file_loaded k) w
  | Submit today env => handleSubmit (form (shell w.1)) today env w
  | Timeout => set_shell timeout w
  | Gone k s => writes (λ w, (retired_settled k s w.1, w.2)) w
  end.

(** The render after an event: the success message replaces the form,
    and the form mounts the child of the chosen strategy; the child
    that goes is unmounted. *)
Definition rerender (ch : Child Shell) : Child Shell :=
  let p := shell ch in
  if RF.submitSuccess (form p) then replace (NoChild p) ch
  else if shows (RF.uploadType (form p)) ch then ch
  else replace (mount_child p) ch.

Definition form_dispatch (e : form_event) (w : world) : world :=
  let w' := (form_handler e w).1 in (rerender w'.1, w'.2).

(** The form on a storage, before any event. *)
Definition mount_form (s : St) : world :=
  (mount_child (mkShell form_initial [] [] 0), s).

(** Which events a world offers. *)
Definition form_offered (w : world) (e : form_event) : Prop :=
  match e with
  | Input _ | ClickUse _ => RF.submitSuccess (form (shell w.1)) = false
  | Submit _ _ =>
      RF.submitSuccess (form (shell w.1)) = false ∧
      RF.isSubmitting (form (shell w.1)) = false
  | Camera e => camera_offered w.1 e
  | Upload e => upload_offered w.1 e
  | FileLoaded k => (k < length (reading (shell w.1)))%nat
  | Timeout => (0 < timers (shell w.1))%nat
  | Gone k _ => retired_offered w.1 k
  end.

(** The worlds of a session on the form. *)
Inductive reachable_form : world → Prop :=
| reachable_mounted s : view s = Some [] → reachable_form (mount_form s)
| reachable_dispatch w e :
    reachable_form w → form_offered w e → reachable_form (form_dispatch e w).

End registration_form.

End RegistrationForm.
Export RegistrationForm.

(** ** Facts *)

Section registration_form_facts.
Context `{Storage St} `{Codec (list Registrant)}.
Variable is_email : string → bool.
Variable date_value : string → option Z.
Variable jpeg : picture → string.
Implicit Types (w : Child Shell * St) (ch : Child Shell) (s : St) (p : Shell).

#[local] Abbreviation registrationSchema := (registrationSchema is_email date_value).
#[local] Abbreviation handleSubmit := (handleSubmit is_email date_value).
#[local] Abbreviation form_dispatch := (form_dispatch is_email date_value jpeg).
#[local] Abbreviation form_offered := (form_offered (St:=St)).
#[local] Abbreviation reachable_form := (reachable_form is_email date_value jpeg).

(** What [onSubmit] does to the parent when the service returned, and
    when it threw. *)
Definition submitted (p : Shell) : Shell :=
  setIsSubmitting false
    (setTimeout (setPhotoData "" (reset (setSubmitSuccess true (setIsSubmitting true p))))).

Definition submit_failed (p : Shell) : Shell :=
  setIsSubmitting false (alert ERROR_ALERT (setIsSubmitting true p)).

Lemma onSubmit_run closure g env ch s :
  truthy (RF.photoData closure) = true →
  onSubmit closure g env (ch, s) =
  let run := addRegistrant env
               (registrantData (RF.values closure) g (RF.photoData closure)) s in
  ((map_shell (if run.2 is Returns _ then submitted else submit_failed) ch, run.1),
   Returns ()).
Proof.
  intros Hp. unfold onSubmit. rewrite Hp. cbn [negb].
  unfold set_shell, try_finally, try_catch, on_snd, mbind, eff_mbind, eff_bind, writes.
  cbn [fst snd].
  destruct (addRegistrant _ _ s) as [s' [r|e]]; cbn [fst snd];
    by rewrite !map_shell_compose.
Qed.

Lemma onSubmit_no_photo closure g env ch s :
  truthy (RF.photoData closure) = false →
  onSubmit closure g env (ch, s) = ((map_shell (alert NO_PHOTO_ALERT) ch, s), Returns ()).
Proof. intros Hp. unfold onSubmit. by rewrite Hp. Qed.

Lemma shell_mount_child p : shell (mount_child p) = p.
Proof. apply shell_mount_capture. Qed.

(** A render mounts and unmounts; it does not touch the parent. *)
Lemma shell_rerender ch : shell (rerender ch) = shell ch.
Proof.
  unfold rerender. repeat case_match; by rewrite ?shell_replace, ?shell_mount_child.
Qed.

Lemma issue_nil ok field message : issue ok field message = [] ↔ ok = true.
Proof. by destruct ok. Qed.

(** Values without an issue have a gender of the enumeration. *)
Lemma schema_gender today v :
  registrationSchema today v = [] → is_Some (gender_of_string (v_gender v)).
Proof.
  unfold RegistrationForm.registrationSchema. rewrite !app_nil, !issue_nil.
  intros (_ & _ & _ & _ & Hg%bool_decide_eq_true & _). done.
Qed.

Lemma handleSubmit_invalid closure today env ch s :
  registrationSchema today (RF.values closure) ≠ [] →
  handleSubmit closure today env (ch, s) =
  ((map_shell (set_errors (registrationSchema today (RF.values closure))) ch, s),
   Returns ()).
Proof.
  intros Hne. unfold RegistrationForm.handleSubmit.
  destruct (registrationSchema _ _); [done|]. done.
Qed.

Lemma handleSubmit_valid closure today env ch s g :
  registrationSchema today (RF.values closure) = [] →
  gender_of_string (v_gender (RF.values closure)) = Some g →
  handleSubmit closure today env (ch, s) =
  onSubmit closure g env (map_shell (set_errors []) ch, s).
Proof. intros Hv Hg. unfold RegistrationForm.handleSubmit. by rewrite Hv, Hg. Qed.

(** *** Submission *)

(** Values with an issue: the issues are shown; nothing is stored and no
    alert is raised. *)
Theorem submit_invalid today env ch s :
  registrationSchema today (RF.values (form (shell ch))) ≠ [] →
  let w' := form_dispatch (Submit today env) (ch, s) in
  w'.2 = s ∧
  shell w'.1 =
  set_errors (registrationSchema today (RF.values (form (shell ch)))) (shell ch).
Proof.
  intros Hne. unfold form_dispatch. cbn [form_handler fst snd].
  rewrite handleSubmit_invalid by done. cbn [fst snd].
  by rewrite shell_rerender, shell_map_shell.
Qed.

(** C37.  Valid values without a photo: the alert is raised and nothing is
    stored. *)
Theorem submit_needs_photo today env ch s :
  registrationSchema today (RF.values (form (shell ch))) = [] →
  truthy (RF.photoData (form (shell ch))) = false →
  let w' := form_dispatch (Submit today env) (ch, s) in
  w'.2 = s ∧ shell w'.1 = alert NO_PHOTO_ALERT (set_errors [] (shell ch)).
Proof.
  intros Hv Hp. destruct (schema_gender _ _ Hv) as [g Hg].
  unfold form_dispatch. cbn [form_handler fst snd].
  rewrite (handleSubmit_valid _ _ _ _ _ g), onSubmit_no_photo by done. cbn [fst snd].
  by rewrite shell_rerender, !shell_map_shell.
Qed.

(** C11.  Valid values with a photo, on a storage that holds [rs]: the record
    that [addRegistrant] builds from the values and the photo is stored
    after [rs] and the success message replaces the form, emptied; or
    the write is refused, the error alert is raised, the form keeps its
    values and its photo, and the storage holds [rs] still. *)
Theorem submit_stores today env ch s rs :
  registrationSchema today (RF.values (form (shell ch))) = [] →
  truthy (RF.photoData (form (shell ch))) = true →
  view s = Some rs →
  ∃ g, gender_of_string (v_gender (RF.values (form (shell ch)))) = Some g ∧
  let data := registrantData (RF.values (form (shell ch))) g
                (RF.photoData (form (shell ch))) in
  let w' := form_dispatch (Submit today env) (ch, s) in
  (w'.1 = replace (NoChild (submitted (set_errors [] (shell ch)))) ch ∧
   view w'.2 = Some (rs ++ [newRegistrant env data])) ∨
  (shell w'.1 = submit_failed (set_errors [] (shell ch)) ∧ view w'.2 = Some rs).
Proof.
  intros Hv Hp Hrs. destruct (schema_gender _ _ Hv) as [g Hg]. exists g.
  split; [done|]. unfold form_dispatch.
  cbn [form_handler fst snd].
  rewrite (handleSubmit_valid _ _ _ _ _ g), onSubmit_run by done.
  destruct (addRegistrant_refines s rs env
              (registrantData (RF.values (form (shell ch))) g
                 (RF.photoData (form (shell ch)))) Hrs) as [_ Hcases].
  destruct (addRegistrant _ _ s) as [s' o]. cbn [fst snd] in *.
  destruct Hcases as [(-> & Hv' & _)|(-> & Hv' & _)]; [left|right].
  - split; [|done]. unfold rerender. by rewrite !shell_map_shell, !replace_map_shell.
  - split; [|done]. by rewrite shell_rerender, !shell_map_shell.
Qed.

(** *** What the form stores *)

Definition has_photo (r : Registrant) : Prop := truthy_opt (Types.photoData r) = true.

(** A submission leaves the collection as it was or adds one record with
    a photo. *)
Lemma submit_view today env ch s rs :
  view s = Some rs →
  view (form_dispatch (Submit today env) (ch, s)).2 = Some rs ∨
  ∃ r, has_photo r ∧ view (form_dispatch (Submit today env) (ch, s)).2 = Some (rs ++ [r]).
Proof.
  intros Hrs. unfold form_dispatch. cbn [form_handler fst snd].
  destruct (decide (registrationSchema today (RF.values (form (shell ch))) = []))
    as [Hv|Hv]; [|by rewrite handleSubmit_invalid by done; left].
  destruct (schema_gender _ _ Hv) as [g Hg]. rewrite (handleSubmit_valid _ _ _ _ _ g) by done.
  destruct (truthy (RF.photoData (form (shell ch)))) eqn:Hp;
    [|by rewrite onSubmit_no_photo by done; left].
  rewrite onSubmit_run by done. cbn [fst snd].
  destruct (addRegistrant_refines s rs env
              (registrantData (RF.values (form (shell ch))) g
                 (RF.photoData (form (shell ch)))) Hrs) as [_ [(_ & ? & _)|(_ & ? & _)]];
    [right|by left].
  eexists. split; [|done]. done.
Qed.

(** C23.  Every record that a session of the form stores has a photo. *)
Theorem form_stores_photos w :
  reachable_form w → ∃ rs, view w.2 = Some rs ∧ Forall has_photo rs.
Proof.
  induction 1 as [s Hs|[ch s] e _ (rs & Hrs & Hall) _]; [by exists []|].
  destruct e as [v|t|ce|ue|k|today env| |k st]; try by exists rs.
  destruct (submit_view today env ch s rs Hrs) as [?|(r & Hr & ?)]; [by exists rs|].
  exists (rs ++ [r]). split; [done|]. apply Forall_app. by repeat constructor.
Qed.
(** *** The streams of a session *)

#[local] Abbreviation form_handler := (form_handler is_email date_value jpeg).

(** A submission acts on the parent only. *)
Lemma handleSubmit_child closure today env ch s :
  ∃ f, (handleSubmit closure today env (ch, s)).1.1 = map_shell f ch.
Proof.
  destruct (decide (registrationSchema today (RF.values closure) = [])) as [Hv|Hv];
    [|rewrite handleSubmit_invalid by done; by eexists].
  destruct (schema_gender _ _ Hv) as [g Hg]. rewrite (handleSubmit_valid _ _ _ _ _ g) by done.
  destruct (truthy (RF.photoData closure)) eqn:Hp;
    [rewrite onSubmit_run by done|rewrite onSubmit_no_photo by done];
    cbn [fst snd]; rewrite map_shell_compose; by eexists.
Qed.

Lemma form_handler_streams e ch s :
  all_off ch →
  all_off (form_handler e (ch, s)).1.1 ∧
  live_streams ch ⊆ live_streams (form_handler e (ch, s)).1.1.
Proof.
  intros Hoff.
  destruct e as [v|t|ce|ue|k|today env| |k st]; cbn [form_handler set_shell writes fst snd];
    rewrite ?all_off_map_shell, ?live_streams_map_shell, ?live_streams_upload_event;
    try done.
  - auto using all_off_camera_event, live_streams_camera_event.
  - auto using all_off_upload_event.
  - destruct (handleSubmit_child (form (shell ch)) today env ch s) as [f ->].
    by rewrite all_off_map_shell, live_streams_map_shell.
  - auto using all_off_retired_settled, live_streams_retired_settled.
Qed.

Lemma rerender_streams ch :
  all_off ch → all_off (rerender ch) ∧ live_streams ch ⊆ live_streams (rerender ch).
Proof.
  intros Hoff. unfold rerender, mount_child. repeat case_match;
    (split; [|done || by apply live_streams_replace]);
    try done; apply all_off_replace; try done; apply all_off_mount_capture.
Qed.

Lemma form_dispatch_streams e ch s :
  all_off ch →
  all_off (form_dispatch e (ch, s)).1 ∧
  live_streams ch ⊆ live_streams (form_dispatch e (ch, s)).1.
Proof.
  intros Hoff. unfold form_dispatch. cbn [fst snd].
  destruct (form_handler_streams e ch s Hoff) as [Hoff' Hsub].
  destruct (rerender_streams _ Hoff') as [? Hsub']. split; [done|].
  by etrans.
Qed.

Lemma reachable_form_off w : reachable_form w → all_off w.1.
Proof.
  induction 1 as [s Hs|[ch s] e _ IH _]; [apply all_off_mount_capture|].
  by apply form_dispatch_streams.
Qed.

(** C15.  A session of the form stops no track.  Every camera component of
    the session is off, the mounted one and those that the form has
    unmounted; and a stream that is live is live after every event: the
    switch to the file strategy and the success message unmount the
    camera component, and its cleanup has no stream to stop. *)
Theorem form_streams_stay_live w e :
  reachable_form w →
  all_off w.1 ∧ live_streams w.1 ⊆ live_streams (form_dispatch e w).1.
Proof.
  intros Hoff%reachable_form_off. destruct w as [ch s]. split; [done|].
  by apply form_dispatch_streams.
Qed.

(** A request that settles after the form has unmounted the camera
    component: the stream granted is live, and stays so. *)
Theorem gone_granted_leaks w k st e :
  reachable_form w → form_offered w (Gone k (Granted st)) →
  let w' := form_dispatch (Gone k (Granted st)) w in
  st ∈ live_streams w'.1 ∧ st ∈ live_streams (form_dispatch e w').1.
Proof.
  intros Hr Hoffered. pose proof Hoffered as (old & Hk & _).
  assert (st ∈ live_streams (form_dispatch (Gone k (Granted st)) w).1) as Hin.
  { pose proof (reachable_form_off w Hr) as Hoff. destruct w as [ch s].
    unfold form_dispatch. cbn [form_handler writes fst snd].
    apply (proj2 (rerender_streams _ (all_off_retired_settled _ _ _ Hoff))).
    exact (retired_granted k st ch old Hoff Hk). }
  split; [done|].
  assert (reachable_form (form_dispatch (Gone k (Granted st)) w)) as Hr'
    by by apply reachable_dispatch.
  apply reachable_form_off in Hr'.
  destruct (form_dispatch (Gone k (Granted st)) w) as [ch' s'].
  by apply (form_dispatch_streams e ch' s' Hr').
Qed.
End registration_form_facts.

(** ** The form on sample data

    The storage is the unbounded map; an e-mail address is a string
    with an at sign; one date string has a time value. *)

Definition sample_email : string → bool := λ s, includes s "@".
Definition sample_date : string → option Z :=
  λ s, if decide (s = "1990-01-01") then Some 631152000000%Z else None.
Definition sample_today : Z := 1731060000000.

Definition alice_values : Values :=
  mkValues "Alice Smith" "alice@example.com" "5550100100" "1 Main Street" "female"
    "1990-01-01".

Definition play (es : list form_event) (w : Child Shell * gmap string string)
    : Child Shell * gmap string string :=
  foldl (λ w e, form_dispatch sample_email sample_date sample_jpeg e w) w es.

(** The form with the file strategy chosen and Alice's values typed. *)
Definition typed : Child Shell * gmap string string :=
  play [ClickUse use_file; Input alice_values] (mount_form ∅).

(** The same once a portrait has been chosen and read. *)
Definition with_portrait : Child Shell * gmap string string :=
  play [Upload (ChangeFiles [portrait]); FileLoaded 0] typed.

Lemma submit_invalid_witness :
  let w' := form_dispatch sample_email sample_date sample_jpeg
              (Submit sample_today Sample.env1) (mount_form ∅) in
  w'.2 = ∅ ∧
  shell w'.1 =
  set_errors (registrationSchema sample_email sample_date sample_today
                (RF.values (form (shell (mount_form (St:=gmap string string) ∅).1))))
    (shell (mount_form (St:=gmap string string) ∅).1).
Proof.
  apply (submit_invalid sample_email sample_date sample_jpeg sample_today Sample.env1
           (mount_form (St:=gmap string string) ∅).1 ∅).
  by vm_compute.
Defined.

Lemma submit_needs_photo_witness :
  let w' := form_dispatch sample_email sample_date sample_jpeg
              (Submit sample_today Sample.env1) typed in
  w'.2 = typed.2 ∧ shell w'.1 = alert NO_PHOTO_ALERT (set_errors [] (shell typed.1)).
Proof.
  apply (submit_needs_photo sample_email sample_date sample_jpeg sample_today Sample.env1
           typed.1 typed.2); by vm_compute.
Defined.

Lemma submit_stores_witness :
  ∃ g, gender_of_string (v_gender (RF.values (form (shell with_portrait.1)))) = Some g ∧
  let data := registrantData (RF.values (form (shell with_portrait.1))) g
                (RF.photoData (form (shell with_portrait.1))) in
  let w' := form_dispatch sample_email sample_date sample_jpeg
              (Submit sample_today Sample.env1) (with_portrait.1, with_portrait.2) in
  (w'.1 = replace (NoChild (submitted (set_errors [] (shell with_portrait.1))))
            with_portrait.1 ∧
   view w'.2 = Some ([] ++ [newRegistrant Sample.env1 data])) ∨
  (shell w'.1 = submit_failed (set_errors [] (shell with_portrait.1)) ∧
   view w'.2 = Some []).
Proof.
  apply (submit_stores sample_email sample_date sample_jpeg sample_today Sample.env1
           with_portrait.1 with_portrait.2 []); by vm_compute.
Defined.

Lemma form_stores_photos_witness :
  ∃ rs, view (play [Submit sample_today Sample.env1] with_portrait).2 = Some rs ∧
        Forall has_photo rs.
Proof.
  apply (form_stores_photos sample_email sample_date sample_jpeg).
  apply reachable_dispatch; [|by vm_compute].
  do 2 (apply reachable_dispatch; [|by vm_compute]).
  do 2 (apply reachable_dispatch; [|done]).
  by apply reachable_mounted.
Defined.

(** The camera asked for, and the strategy changed before the browser
    answers: the camera component is unmounted with its request
    pending. *)
Definition asked : Child Shell * gmap string string :=
  play [Camera ClickOpen] (mount_form ∅).
Definition switched : Child Shell * gmap string string :=
  play [ClickUse use_file] asked.

Lemma reachable_asked : reachable_form sample_email sample_date sample_jpeg asked.
Proof. apply reachable_dispatch; [by apply reachable_mounted|by vm_compute]. Qed.

Lemma reachable_switched : reachable_form sample_email sample_date sample_jpeg switched.
Proof. apply reachable_dispatch; [apply reachable_asked|done]. Qed.

Lemma form_streams_stay_live_witness :
  all_off asked.1 ∧
  live_streams asked.1 ⊆
  live_streams (form_dispatch sample_email sample_date sample_jpeg
                  (Camera (Settled (Granted 7%nat))) asked).1.
Proof.
  apply (form_streams_stay_live sample_email sample_date sample_jpeg asked).
  apply reachable_asked.
Defined.

Lemma gone_granted_leaks_witness :
  let w' := form_dispatch sample_email sample_date sample_jpeg
              (Gone 0 (Granted 7%nat)) switched in
  7%nat ∈ live_streams w'.1 ∧
  7%nat ∈ live_streams (form_dispatch sample_email sample_date sample_jpeg
                          (ClickUse use_camera) w').1.
Proof.
  apply (gone_granted_leaks sample_email sample_date sample_jpeg switched 0 7%nat
           (ClickUse use_camera)); [apply reachable_switched|].
  eexists. split; [reflexivity|]. vm_compute. lia.
Defined.

(** The unmounted camera component and its stream, event by event: the
    request is pending when the component goes, the stream is granted
    to a component that is gone, and the form, with the file strategy
    and later with a new camera component, shows nothing of it. *)
Example scenario_stream_outlives_camera :
  let w := play [Gone 0 (Granted 7%nat); ClickUse use_camera] switched in
  requests <$> retired switched.1 = [1%nat] ∧
  elements (live_streams w.1) = [7%nat] ∧
  (isCameraActive ∘ CameraCapture.state) <$> retired w.1 = [false] ∧
  shows use_camera w.1 = true.
Proof. vm_compute. split_and!; reflexivity. Qed.

(** The submission path, end to end: Alice's record is stored with the
    URL of the portrait, and the success message is shown. *)
Example scenario_submit :
  let w := play [Submit sample_today Sample.env1] with_portrait in
  view w.2 =
    Some [newRegistrant Sample.env1
            (registrantData alice_values female (readAsDataURL portrait))] ∧
  RF.submitSuccess (form (shell w.1)) = true ∧ RF.photoData (form (shell w.1)) = "".
Proof. by vm_compute. Qed.

(** Clearing an uploaded picture does not clear the photo: the parent
    reads the empty file it is handed, and the form then stores a
    record whose photo is a URL of no bytes. *)
Example cleared_photo_is_stored :
  let w := play [Upload (FileUpload.ReaderLoaded 0); Upload FileUpload.ClickClear; FileLoaded 0;
                 Submit sample_today Sample.env1] with_portrait in
  fmap (M:=list) Types.photoData <$> view w.2
  = Some [Some "data:application/octet-stream;base64,"].
Proof. by vm_compute. Qed.

(** A read that finishes late: a second file chosen just before the
    submission is not the photo stored, and its URL becomes the photo
    of the emptied form, which shows no preview for it. *)
Example late_read_outlives_submission :
  let w := play [Upload (ChangeFiles [second]); Submit sample_today Sample.env1;
                 FileLoaded 0; Timeout] with_portrait in
  fmap (M:=list) Types.photoData <$> view w.2 = Some [Some (readAsDataURL portrait)] ∧
  RF.photoData (form (shell w.1)) = readAsDataURL second ∧
  RF.values (form (shell w.1)) = defaultValues ∧
  current w.1 = FileChild (FileUpload.mkWorld FileUpload.initial "" [] (shell w.1)).
Proof. by vm_compute. Qed.
