(* ===== verification/EditRegistrant.v ===== *)
(** * EditRegistrant: the edit form

    [src/components/EditRegistrant.tsx].  The component reads the
    record of the route's [id] in an effect at mount, fills the fields
    of the form and the photo from it, and on submission calls
    [updateRegistrant] with the values and the photo it holds, then
    goes to the dashboard.

    A world is the mounted capture component, whose model carries the
    parent's part, and the storage.  The parent's part ([EditShell]) is
    the form's state, the route's [id], the reads its own
    [FileReader]s have started and the location of the router.  The
    form, and the capture component with it, is mounted when the
    record has been loaded and no error is set.

    The schema is that of the registration form, declared again in the
    source with the same text.  The effect has no handler: an error
    that [getRegistrantById] throws leaves it, and React, with no error
    boundary in [App], unmounts the tree ([unmount_tree]); the page is
    then blank ([PageBlank]) and offers nothing.  A capture component
    that a render replaces is unmounted ([Capture.replace]). *)

From Stdlib Require Import Ascii String ZArith NArith.
From stdpp Require Import gmap.
From S2P Require Import Prelude JsString Types Json Codec Storage Registrants.
From S2P Require Import RegistrationService DataUrl FileUpload CameraCapture Capture.
From S2P Require Import RegistrationForm.

#[local] Open Scope string_scope.
#[local] Open Scope list_scope.

Module EditRegistrant.

Definition DASHBOARD : string := "/admin/dashboard".
Definition NOT_FOUND : string := "Registrant not found".
Definition UPDATE_FAILED : string := "Failed to update registrant".
Definition UPDATE_ERROR : string := "An error occurred while updating the registrant".

(** ** State *)

Module ER.
Record State : Type := mkState {
  photoData : string;
  isSubmitting : bool;
  isLoading : bool;
  uploadType : UploadType;
  error : option string;
  values : Values;
  errors : list (string * string);
}.
End ER.

(** The state of the first render; no field has a value yet. *)
Definition edit_initial : ER.State :=
  ER.mkState "" false true use_file None (mkValues "" "" "" "" "" "") [].

(** The parent's part of a world. *)
Record EditShell : Type := mkEditShell {
  edit : ER.State;
  param_id : option string;     (* [useParams().id] *)
  edit_reading : list File;     (* reads of [handleFileUpload] not yet loaded *)
  location : string;            (* where the router is *)
  unmounted : bool;             (* React has removed the tree *)
}.

Definition set_edit (f : ER.State → ER.State) (p : EditShell) : EditShell :=
  mkEditShell (f (edit p)) (param_id p) (edit_reading p) (location p) (unmounted p).

Definition setPhotoData (v : string) : EditShell → EditShell :=
  set_edit (λ st, ER.mkState v (ER.isSubmitting st) (ER.isLoading st) (ER.uploadType st)
                    (ER.error st) (ER.values st) (ER.errors st)).
Definition setIsSubmitting (v : bool) : EditShell → EditShell :=
  set_edit (λ st, ER.mkState (ER.photoData st) v (ER.isLoading st) (ER.uploadType st)
                    (ER.error st) (ER.values st) (ER.errors st)).
Definition setIsLoading (v : bool) : EditShell → EditShell :=
  set_edit (λ st, ER.mkState (ER.photoData st) (ER.isSubmitting st) v (ER.uploadType st)
                    (ER.error st) (ER.values st) (ER.errors st)).
Definition setUploadType (v : UploadType) : EditShell → EditShell :=
  set_edit (λ st, ER.mkState (ER.photoData st) (ER.isSubmitting st) (ER.isLoading st) v
                    (ER.error st) (ER.values st) (ER.errors st)).
Definition setError (v : option string) : EditShell → EditShell :=
  set_edit (λ st, ER.mkState (ER.photoData st) (ER.isSubmitting st) (ER.isLoading st)
                    (ER.uploadType st) v (ER.values st) (ER.errors st)).
Definition set_edit_values (v : Values) : EditShell → EditShell :=
  set_edit (λ st, ER.mkState (ER.photoData st) (ER.isSubmitting st) (ER.isLoading st)
                    (ER.uploadType st) (ER.error st) v (ER.errors st)).
Definition set_edit_errors (v : list (string * string)) : EditShell → EditShell :=
  set_edit (λ st, ER.mkState (ER.photoData st) (ER.isSubmitting st) (ER.isLoading st)
                    (ER.uploadType st) (ER.error st) (ER.values st) v).

Definition navigate (to : string) (p : EditShell) : EditShell :=
  mkEditShell (edit p) (param_id p) (edit_reading p) to (unmounted p).

(** An error that no handler catches leaves an effect: React removes the
    whole tree (App.tsx has no error boundary), and the page stays
    blank. *)
Definition unmount_tree (p : EditShell) : EditShell :=
  mkEditShell (edit p) (param_id p) [] (location p) true.

(** The six calls of [setValue]. *)
Definition values_of (registrant : Registrant) : Values :=
  mkValues (fullName registrant) (email registrant) (phone registrant)
    (address registrant) (gender_to_string (gender registrant))
    (dateOfBirth registrant).

(** ** The callbacks given to the capture components *)

Definition handlePhotoCapture (imageSrc : string) : EditShell → EditShell :=
  setPhotoData imageSrc.

Definition handleFileUpload (file : File) (p : EditShell) : EditShell :=
  mkEditShell (edit p) (param_id p) (edit_reading p ++ [file]) (location p) (unmounted p).

Definition edit_file_loaded (k : nat) (p : EditShell) : EditShell :=
  match edit_reading p !! k with
  | None => p
  | Some file =>
      let p' := mkEditShell (edit p) (param_id p) (delete k (edit_reading p)) (location p)
                  (unmounted p) in
      let result := readAsDataURL file in
      if truthy result then setPhotoData result p' else p'
  end.

(** ** Events *)

Inductive edit_event : Type :=
| EditInput (v : Values)
| EditClickUse (t : UploadType)
| EditCamera (e : CameraCapture.event)
| EditUpload (e : FileUpload.event)
| EditFileLoaded (k : nat)
| EditSubmit (today : Z) (env : Env)
| EditClickBack
| EditGone (k : nat) (s : settlement).  (* a request of an unmounted camera settles *)

Section edit_registrant.
Context `{Storage St} `{Codec (list Registrant)}.
Variable is_email : string → bool.
Variable date_value : string → option Z.
Variable jpeg : picture → string.

#[local] Abbreviation world := (Child EditShell * St)%type.

(** [editSchema]: the text of [registrationSchema]. *)
Definition editSchema (today : Z) (v : Values) : list (string * string) :=
  registrationSchema is_email date_value today v.

Definition set_parent (f : EditShell → EditShell) : eff world exn () :=
  writes (λ w, (map_shell f w.1, w.2)).

(** The effect of [useEffect(..., [id, navigate, setValue])]. *)
Definition load (i : option string) : eff world exn () :=
  if negb (truthy_opt i) then set_parent (navigate DASHBOARD)
  else
    registrant ← on_snd (getRegistrantById (default "" i));
    match registrant with
    | None =>
        set_parent (setError (Some NOT_FOUND));;
        set_parent (setIsLoading false)
    | Some registrant =>
        set_parent (set_edit_values (values_of registrant));;
        (if truthy_opt (photoData registrant)
         then set_parent (setPhotoData (default "" (photoData registrant)))
         else mret ());;
        set_parent (setIsLoading false)
    end.

Definition onSubmit (closure : ER.State) (i : option string) (g : Gender) (env : Env)
    : eff world exn () :=
  if negb (truthy_opt i) then mret ()
  else
    set_parent (setIsSubmitting true);;
    try_finally
      (try_catch
         (result ← on_snd (updateRegistrant env (default "" i)
                             (registrantData (ER.values closure) g (ER.photoData closure)));
          if result is Some _ then set_parent (navigate DASHBOARD)
          else set_parent (setError (Some UPDATE_FAILED)))
         (λ _, set_parent (setError (Some UPDATE_ERROR))))
      (set_parent (setIsSubmitting false)).

Definition handleSubmit (closure : ER.State) (i : option string) (today : Z) (env : Env)
    : eff world exn () :=
  let issues := editSchema today (ER.values closure) in
  match issues, gender_of_string (v_gender (ER.values closure)) with
  | [], Some g => set_parent (set_edit_errors []);; onSubmit closure i g env
  | _, _ => set_parent (set_edit_errors issues)
  end.

Definition edit_handler (e : edit_event) : eff world exn () := λ w,
  match e with
  | EditInput v => set_parent (set_edit_values v) w
  | EditClickUse t => set_parent (setUploadType t) w
  | EditCamera e => writes (λ w, (camera_event handlePhotoCapture jpeg e w.1, w.2)) w
  | EditUpload e => writes (λ w, (upload_event handleFileUpload e w.1, w.2)) w
  | EditFileLoaded k => set_parent (edit_file_loaded k) w
  | EditSubmit today env =>
      handleSubmit (edit (shell w.1)) (param_id (shell w.1)) today env w
  | EditClickBack => set_parent (navigate DASHBOARD) w
  | EditGone k s => writes (λ w, (retired_settled k s w.1, w.2)) w
  end.

(** What the component shows. *)
Inductive Page : Type :=
| PageBlank                      (* nothing: the tree is unmounted *)
| PageGone                       (* the router shows another route *)
| PageSpinner
| PageError (message : string)
| PageForm.

Definition route (i : option string) : string := "/admin/edit/" +:+ default "" i.

Definition page (p : EditShell) : Page :=
  if unmounted p then PageBlank
  else if negb (bool_decide (location p = route (param_id p))) then PageGone
  else if ER.isLoading (edit p) then PageSpinner
  else if truthy_opt (ER.error (edit p)) then PageError (default "" (ER.error (edit p)))
  else PageForm.

(** The render after an event: the capture component is there with the
    form, and is the one of the strategy chosen; the camera component is
    mounted with the photo the form holds; the child that goes is
    unmounted. *)
Definition edit_rerender (ch : Child EditShell) : Child EditShell :=
  let p := shell ch in
  match page p with
  | PageForm =>
      if shows (ER.uploadType (edit p)) ch then ch
      else replace (mount_capture (ER.uploadType (edit p))
                      (Some (ER.photoData (edit p))) p) ch
  | _ => replace (NoChild p) ch
  end.

Definition edit_dispatch (e : edit_event) (w : world) : world :=
  let w' := (edit_handler e w).1 in (edit_rerender w'.1, w'.2).

(** The parent's part at the first render, on the route of [i]. *)
Definition first_shell (i : option string) : EditShell :=
  mkEditShell edit_initial i [] (route i) false.

(** The component on the route of [i], after its effect.  The effect has
    no [try]: what [getRegistrantById] throws leaves it, and React
    unmounts the tree. *)
Definition mount_edit (i : option string) (s : St) : world :=
  match load i (NoChild (first_shell i), s) with
  | (w, Returns _) => (edit_rerender w.1, w.2)
  | (w, Throws _) => (NoChild (unmount_tree (shell w.1)), w.2)
  end.

Definition edit_offered (w : world) (e : edit_event) : Prop :=
  match e with
  | EditInput _ | EditClickUse _ => page (shell w.1) = PageForm
  | EditSubmit _ _ =>
      page (shell w.1) = PageForm ∧ ER.isSubmitting (edit (shell w.1)) = false
  | EditCamera e => camera_offered w.1 e
  | EditUpload e => upload_offered w.1 e
  | EditFileLoaded k => (k < length (edit_reading (shell w.1)))%nat
  | EditClickBack =>
      page (shell w.1) = PageForm ∨ ∃ m, page (shell w.1) = PageError m
  | EditGone k _ => retired_offered w.1 k
  end.

(** The worlds of a session on the route of [i], over the storage [s]. *)
Inductive reachable_edit (i : option string) (s : St) : world → Prop :=
| reachable_mount_edit : reachable_edit i s (mount_edit i s)
| reachable_edit_dispatch w e :
    reachable_edit i s w → edit_offered w e → reachable_edit i s (edit_dispatch e w).

End edit_registrant.

End EditRegistrant.
Export EditRegistrant.

(** ** Facts *)

(** What the effect does to the parent, by what it found. *)
Definition loaded_parent (found : option Registrant) (p : EditShell) : EditShell :=
  match found with
  | None => setIsLoading false (setError (Some NOT_FOUND) p)
  | Some r =>
      setIsLoading false
        ((if truthy_opt (photoData r) then setPhotoData (default "" (photoData r))
          else λ p, p) (set_edit_values (values_of r) p))
  end.

(** What [onSubmit] does to the parent, by the outcome of the update. *)
Definition updated_parent (o : outcome exn (option Registrant)) (p : EditShell)
    : EditShell :=
  setIsSubmitting false
    (match o with
     | Returns (Some _) => navigate DASHBOARD
     | Returns None => setError (Some UPDATE_FAILED)
     | Throws _ => setError (Some UPDATE_ERROR)
     end (setIsSubmitting true p)).

Section edit_registrant_facts.
Context `{Storage St} `{Codec (list Registrant)}.
Variable is_email : string → bool.
Variable date_value : string → option Z.
Variable jpeg : picture → string.
Implicit Types (ch : Child EditShell) (s : St) (p : EditShell) (i : string).
Implicit Types (rs : list Registrant) (r old : Registrant).

#[local] Abbreviation editSchema := (editSchema is_email date_value).
#[local] Abbreviation handleSubmit := (handleSubmit is_email date_value).
#[local] Abbreviation edit_dispatch := (edit_dispatch is_email date_value jpeg).
#[local] Abbreviation edit_offered := (edit_offered (St:=St)).

Lemma load_run i ch s :
  truthy i = true →
  load (Some i) (ch, s) =
  let run := getRegistrantById i s in
  match run.2 with
  | Returns found => ((map_shell (loaded_parent found) ch, run.1), Returns ())
  | Throws e => ((ch, run.1), Throws e)
  end.
Proof.
  intros Hi. unfold load. cbn [truthy_opt]. rewrite Hi. cbn [negb].
  change (default "" (Some i)) with i.
  unfold mbind, eff_mbind, eff_bind, on_snd. cbn [fst snd].
  destruct (getRegistrantById i s) as [s' [[r|]|e]]; cbn [fst snd]; [| |done];
    unfold loaded_parent; [destruct (truthy_opt (photoData r))|];
    unfold set_parent, writes, mret, eff_mret, eff_ret; cbn [fst snd];
    by rewrite ?map_shell_compose.
Qed.

Lemma edit_onSubmit_run closure i g env ch s :
  truthy i = true →
  onSubmit closure (Some i) g env (ch, s) =
  let run := updateRegistrant env i
               (registrantData (ER.values closure) g (ER.photoData closure)) s in
  ((map_shell (updated_parent run.2) ch, run.1), Returns ()).
Proof.
  intros Hi. unfold onSubmit. cbn [truthy_opt]. rewrite Hi. cbn [negb].
  change (default "" (Some i)) with i.
  unfold try_finally, try_catch, mbind, eff_mbind, eff_bind, on_snd, set_parent, writes.
  cbn [fst snd].
  destruct (updateRegistrant env i _ s) as [s' [[r|]|e]]; cbn [fst snd];
    by rewrite !map_shell_compose.
Qed.

Lemma edit_handleSubmit_valid closure (i : option string) today env ch s g :
  editSchema today (ER.values closure) = [] →
  gender_of_string (v_gender (ER.values closure)) = Some g →
  handleSubmit closure i today env (ch, s) =
  onSubmit closure i g env (map_shell (set_edit_errors []) ch, s).
Proof. intros Hv Hg. unfold EditRegistrant.handleSubmit. by rewrite Hv, Hg. Qed.

(** No route of the form is the dashboard. *)
Lemma route_not_dashboard (i : option string) : DASHBOARD ≠ route i.
Proof. done. Qed.

Lemma page_navigate p :
  unmounted p = false → page (navigate DASHBOARD p) = PageGone.
Proof. unfold page. cbn. intros ->. by rewrite bool_decide_eq_false_2. Qed.

(** A render mounts and unmounts; it does not touch the parent. *)
Lemma shell_edit_rerender ch : shell (edit_rerender ch) = shell ch.
Proof.
  unfold edit_rerender. repeat case_match; by rewrite ?shell_replace, ?shell_mount_capture.
Qed.

Lemma page_updated o p :
  page p = PageForm →
  page (updated_parent o (set_edit_errors [] p)) =
  match o with
  | Returns (Some _) => PageGone
  | Returns None => PageError UPDATE_FAILED
  | Throws _ => PageError UPDATE_ERROR
  end.
Proof.
  unfold page. destruct p as [[pd sub loading ut err vs errs] pid rd loc un]. cbn.
  destruct un; [done|]. destruct (bool_decide (loc = route pid)) eqn:Hloc; [|done].
  destruct loading; [done|]. destruct (truthy_opt err); [done|]. intros _.
  destruct o as [[?|]|?]; cbn; rewrite ?Hloc; [|done..].
  by rewrite bool_decide_eq_false_2.
Qed.

(** *** Submission *)

Lemma edit_submit_run today env ch s i g :
  param_id (shell ch) = Some i → truthy i = true →
  editSchema today (ER.values (edit (shell ch))) = [] →
  gender_of_string (v_gender (ER.values (edit (shell ch)))) = Some g →
  edit_dispatch (EditSubmit today env) (ch, s) =
  let run := updateRegistrant env i
               (registrantData (ER.values (edit (shell ch))) g
                  (ER.photoData (edit (shell ch)))) s in
  (edit_rerender (map_shell (updated_parent run.2) (map_shell (set_edit_errors []) ch)),
   run.1).
Proof.
  intros Hid Hi Hv Hg. unfold edit_dispatch. cbn [edit_handler fst snd]. rewrite Hid.
  by rewrite (edit_handleSubmit_valid _ _ _ _ _ _ g), edit_onSubmit_run by done.
Qed.

(** C12.  Valid values on the form of the route of [i], over a storage that
    holds [rs]: the record of [i] is replaced by the one that
    [updateRegistrant] builds from the values and the photo the form
    holds, and the router goes to the dashboard; when [rs] has no
    record of [i] nothing is stored and the page shows that the update
    failed; or a write is refused, [rs] is stored still and the page
    shows that an error occurred. *)
Theorem submit_updates today env ch s rs i :
  page (shell ch) = PageForm →
  param_id (shell ch) = Some i → truthy i = true →
  editSchema today (ER.values (edit (shell ch))) = [] →
  view s = Some rs →
  ∃ g, gender_of_string (v_gender (ER.values (edit (shell ch)))) = Some g ∧
  let updated := Spec.update env i
                   (registrantData (ER.values (edit (shell ch))) g
                      (ER.photoData (edit (shell ch)))) rs in
  let w' := edit_dispatch (EditSubmit today env) (ch, s) in
  (view w'.2 = Some (default rs (snd <$> updated)) ∧
   page (shell w'.1) = if updated is Some _ then PageGone else PageError UPDATE_FAILED) ∨
  (view w'.2 = Some rs ∧ page (shell w'.1) = PageError UPDATE_ERROR).
Proof.
  intros Hpage Hid Hi Hv Hrs. destruct (schema_gender _ _ _ _ Hv) as [g Hg]. exists g.
  split; [done|]. rewrite (edit_submit_run _ _ _ _ i g) by done.
  cbn [fst snd]. rewrite shell_edit_rerender, !shell_map_shell, page_updated by done.
  destruct (updateRegistrant_refines s rs env i
              (registrantData (ER.values (edit (shell ch))) g
                 (ER.photoData (edit (shell ch)))) Hrs) as [_ Hcases].
  destruct (updateRegistrant _ _ _ s) as [s' o]. cbn [fst snd] in *.
  destruct Hcases as [(-> & Hv' & _)|(-> & Hv' & _)]; [left|by right].
  split; [done|]. by destruct (Spec.update _ _ _ _).
Qed.

(** *** The effect when the service throws *)

Lemma page_unmount p : page (unmount_tree p) = PageBlank.
Proof. done. Qed.

(** A blank page offers nothing. *)
Lemma blank_offers_nothing p s e :
  page p = PageBlank → edit_reading p = [] → ¬ edit_offered (NoChild p, s) e.
Proof.
  intros Hp Hr. unfold EditRegistrant.edit_offered. cbn [fst shell]. rewrite Hp, Hr.
  destruct e; cbn;
    [done|done|by intros []..|lia|by intros []|by intros [|[]]|by intros (? & ? & _)].
Qed.

(** C39.  The effect of the form has no handler.  When [getRegistrantById]
    throws (the text stored is not JSON, or the browser refuses the
    first write of the empty array), the error leaves the effect and
    React unmounts the tree: the page is blank and offers nothing, and
    the storage is as the call left it. *)
Theorem mount_edit_throws i s s' x e :
  truthy i = true → getRegistrantById i s = (s', Throws x) →
  mount_edit (Some i) s = (NoChild (unmount_tree (first_shell (Some i))), s') ∧
  page (shell (mount_edit (Some i) s).1) = PageBlank ∧
  ¬ edit_offered (mount_edit (Some i) s) e.
Proof.
  intros Hi Hrun. unfold mount_edit. rewrite load_run, Hrun by done. cbn [fst snd shell].
  split_and!; [done..|]. by apply blank_offers_nothing.
Qed.
End edit_registrant_facts.

(** *** Sessions *)

Section edit_sessions.
Context `{Storage St} `{Codec (list Registrant)}.
Variable is_email : string → bool.
Variable date_value : string → option Z.
Variable jpeg : picture → string.
Implicit Types (ch : Child EditShell) (s : St) (p : EditShell) (i : string).
Implicit Types (rs : list Registrant).

#[local] Abbreviation editSchema := (editSchema is_email date_value).
#[local] Abbreviation handleSubmit := (handleSubmit is_email date_value).
#[local] Abbreviation edit_dispatch := (edit_dispatch is_email date_value jpeg).
#[local] Abbreviation reachable_edit := (reachable_edit is_email date_value jpeg).

Lemma param_id_set_edit f p : param_id (set_edit f p) = param_id p.
Proof. done. Qed.

Lemma param_id_edit_file_loaded k p : param_id (edit_file_loaded k p) = param_id p.
Proof. unfold edit_file_loaded. by repeat case_match. Qed.

Lemma param_id_loaded_parent found p : param_id (loaded_parent found p) = param_id p.
Proof. unfold loaded_parent. by repeat case_match. Qed.

(** The storage after the effect holds what it held, and the route's
    identifier is the parameter. *)
Lemma mount_edit_keeps i s rs :
  truthy i = true → view s = Some rs →
  param_id (shell (mount_edit (Some i) s).1) = Some i ∧
  view (mount_edit (Some i) s).2 = Some rs.
Proof.
  intros Hi Hv. unfold mount_edit. rewrite load_run by done.
  destruct (getRegistrantById_refines s rs i Hv) as [_ Hcases].
  destruct (getRegistrantById i s) as [s' o]. cbn [fst snd] in *.
  destruct Hcases as [(-> & Hv' & _)|(-> & Hv' & _)]; cbn [fst snd];
    by rewrite ?shell_edit_rerender, ?shell_map_shell, ?param_id_loaded_parent.
Qed.

(** A submission keeps the parameter, and stores what was stored or
    the update of the record of the parameter. *)
Lemma edit_handler_submit closure i today env ch s rs :
  truthy i = true → view s = Some rs → param_id (shell ch) = Some i →
  let w' := (handleSubmit closure (Some i) today env (ch, s)).1 in
  param_id (shell w'.1) = Some i ∧ ∃ rs', view w'.2 = Some rs' ∧ only_at i rs rs'.
Proof.
  intros Hi Hv Hid. unfold EditRegistrant.handleSubmit.
  destruct (editSchema _ _) as [|? ?];
    [destruct (gender_of_string _) as [g|]|]; cbn [set_parent writes fst snd];
    rewrite ?shell_map_shell, ?param_id_set_edit;
    [|split; [done|]; exists rs; eauto using only_at_refl..].
  unfold mbind, eff_mbind, eff_bind. cbn [set_parent writes fst snd].
  rewrite edit_onSubmit_run by done. cbn [fst snd]. rewrite !shell_map_shell.
  split; [by destruct (updateRegistrant _ _ _ _).2 as [[?|]|?]|].
  destruct (updateRegistrant_refines s rs env i
              (registrantData (ER.values closure) g (ER.photoData closure)) Hv)
    as [_ [(_ & Hv' & _)|(_ & Hv' & _)]]; eexists; (split; [done|]);
    [|apply only_at_refl].
  destruct (Spec.update _ _ _ _) as [[r rs']|] eqn:Hu; cbn;
    eauto using only_at_update, only_at_refl.
Qed.

Lemma edit_dispatch_keeps e i ch s rs :
  truthy i = true → view s = Some rs → param_id (shell ch) = Some i →
  let w' := edit_dispatch e (ch, s) in
  param_id (shell w'.1) = Some i ∧ ∃ rs', view w'.2 = Some rs' ∧ only_at i rs rs'.
Proof.
  intros Hi Hv Hid. unfold edit_dispatch. cbn [fst snd]. rewrite shell_edit_rerender.
  destruct e as [v|t|ce|ue|k|today env| |k st]; cbn [edit_handler fst snd];
    [..|rewrite Hid; by apply edit_handler_submit| |];
    cbn [set_parent writes fst snd]; rewrite ?shell_map_shell;
    (split; [|exists rs; eauto using only_at_refl]);
    rewrite ?param_id_edit_file_loaded, ?shell_retired_settled; try done.
  - by apply (camera_event_inv (λ p, param_id p = Some i)).
  - by apply (upload_event_inv (λ p, param_id p = Some i)).
Qed.

(** C24.  The sessions of the form on the route of [i] keep every record:
    the storage holds the records it held at mount, in their order,
    but for the record of [i], which keeps its identifier and its date
    of creation. *)
Theorem reachable_edit_only_at i s rs w :
  truthy i = true → view s = Some rs →
  reachable_edit (Some i) s w →
  param_id (shell w.1) = Some i ∧ ∃ rs', view w.2 = Some rs' ∧ only_at i rs rs'.
Proof.
  intros Hi Hv. induction 1 as [|[ch s'] e _ (Hid & rs' & Hv' & Hrs') _].
  - destruct (mount_edit_keeps i s rs Hi Hv). eauto using only_at_refl.
  - destruct (edit_dispatch_keeps e i ch s' rs' Hi Hv' Hid) as (? & rs'' & ? & ?).
    eauto using only_at_trans.
Qed.
End edit_sessions.

(** *** On a storage that refuses no write *)

(** The record that an edit in which nothing is touched stores for
    [r]: [r] with a new photo path when it has a photo. *)
Definition repathed (env : Env) (r : Registrant) : Registrant :=
  if truthy_opt (photoData r)
  then mkRegistrant (id r) (fullName r) (email r) (phone r) (address r) (gender r)
         (dateOfBirth r) (photo_path (date_now env)) (photoData r) (createdAt r)
  else r.

Section edit_registrant_unbounded.
Context `{Storage St} `{Codec (list Registrant)} `{!Unbounded St}.
Variable is_email : string → bool.
Variable date_value : string → option Z.
Variable jpeg : picture → string.
Implicit Types (s : St) (i : string) (rs : list Registrant) (r : Registrant).

#[local] Abbreviation editSchema := (editSchema is_email date_value).
#[local] Abbreviation edit_dispatch := (edit_dispatch is_email date_value jpeg).
#[local] Abbreviation edit_offered := (edit_offered (St:=St)).

Lemma mount_edit_run i s rs :
  truthy i = true → view s = Some rs →
  ∃ s', view s' = Some rs ∧
        mount_edit (Some i) s =
        (edit_rerender (NoChild (loaded_parent (Spec.getById i rs) (first_shell (Some i)))),
         s').
Proof.
  intros Hi Hv. unfold mount_edit. rewrite load_run by done.
  destruct (refines_unbounded _ _ _ _ _ (getRegistrantById_refines s rs i Hv))
    as (Hr & Hv' & _).
  destruct (getRegistrantById i s) as [s' o]. cbn [fst snd] in *. subst o.
  by exists s'.
Qed.

(** The parent's part once the record [r] has been loaded. *)
Definition loaded_shell (i : string) (r : Registrant) : EditShell :=
  mkEditShell
    (ER.mkState (default "" (photoData r)) false false use_file None (values_of r) [])
    (Some i) [] (route (Some i)) false.

Lemma loaded_parent_found i r :
  loaded_parent (Some r) (first_shell (Some i)) = loaded_shell i r.
Proof. unfold loaded_parent, loaded_shell. by destruct (photoData r) as [[|??]|]. Qed.

Lemma page_loaded_shell i r : page (loaded_shell i r) = PageForm.
Proof. unfold page. cbn. by rewrite bool_decide_eq_true_2. Qed.

(** C28.  The form of a record that is stored: the fields hold the record's
    values and the photo is the record's, the file strategy is chosen
    and its component is mounted, and the storage holds what it
    held. *)
Theorem mount_edit_found i s rs r :
  truthy i = true → view s = Some rs → Spec.getById i rs = Some r →
  let w := mount_edit (Some i) s in
  w.1 = mount_capture use_file (Some (default "" (photoData r))) (loaded_shell i r) ∧
  page (shell w.1) = PageForm ∧ view w.2 = Some rs.
Proof.
  intros Hi Hv Hr. destruct (mount_edit_run i s rs Hi Hv) as (s' & Hv' & ->).
  rewrite Hr, loaded_parent_found. unfold edit_rerender. cbn [shell fst snd].
  rewrite page_loaded_shell. split_and!; [done| |done]. apply page_loaded_shell.
Qed.

(** C38.  The route of an identifier that no record has: the page shows that
    the registrant was not found, offers the way back and nothing
    else, and the storage holds what it held. *)
Theorem mount_edit_not_found i s rs :
  truthy i = true → view s = Some rs → Spec.getById i rs = None →
  let w := mount_edit (Some i) s in
  page (shell w.1) = PageError NOT_FOUND ∧ view w.2 = Some rs ∧
  ∀ e, edit_offered w e ↔ e = EditClickBack.
Proof.
  intros Hi Hv Hr. destruct (mount_edit_run i s rs Hi Hv) as (s' & Hv' & ->).
  rewrite Hr.
  assert (page (loaded_parent None (first_shell (Some i))) = PageError NOT_FOUND) as Hp.
  { unfold page. cbn. by rewrite bool_decide_eq_true_2. }
  unfold edit_rerender. cbn [shell fst snd]. rewrite Hp. cbn [replace shell].
  split_and!; [done..|]. intros e. unfold EditRegistrant.edit_offered. cbn [fst shell].
  rewrite Hp.
  destruct e; cbn; split; try done; try lia; try (by intros []); eauto.
  by intros (? & ? & _).
Qed.

Lemma untouched_data env r :
  updatedRegistrant env r
    (registrantData (values_of r) (gender r) (default "" (photoData r))) = repathed env r.
Proof.
  unfold updatedRegistrant, repathed, js_or. destruct r as [? ? ? ? ? ? ? ? photo ?]. cbn.
  by destruct photo as [[|??]|].
Qed.

(** C25.  The form of a stored record, submitted as it was mounted: the
    record keeps its fields, and its photo path is a new one when it
    has a photo. *)
Theorem untouched_edit today env i s rs index r :
  truthy i = true → view s = Some rs → findIndex i rs = Some (index, r) →
  editSchema today (values_of r) = [] →
  view (edit_dispatch (EditSubmit today env) (mount_edit (Some i) s)).2 =
  Some (<[index:=repathed env r]> rs).
Proof.
  intros Hi Hv Hf Hok.
  assert (Spec.getById i rs = Some r) as Hr by (unfold Spec.getById; by rewrite Hf).
  destruct (mount_edit_run i s rs Hi Hv) as (s' & Hv' & ->).
  rewrite Hr, loaded_parent_found.
  rewrite (edit_submit_run _ _ _ _ _ _ _ i (gender r));
    rewrite ?shell_edit_rerender; cbn [shell loaded_shell edit param_id ER.values];
    [|done..|apply gender_of_to_string].
  cbn [snd ER.photoData].
  destruct (refines_unbounded _ _ _ _ _
              (updateRegistrant_refines s' rs env i
                 (registrantData (values_of r) (gender r) (default "" (photoData r))) Hv'))
    as (_ & -> & _).
  unfold Spec.update. rewrite Hf. cbn. by rewrite untouched_data.
Qed.
End edit_registrant_unbounded.

(** ** The edit form on sample data

    The storage holds the three sample records; the form is that of
    the first, Alice's, which has a photo. *)

Definition alice_id : string := "3f2b8c1e-0001".
Definition alice_stored : Registrant := newRegistrant Sample.env1 Sample.alice.

Definition edit_play (es : list edit_event) (w : Child EditShell * gmap string string)
    : Child EditShell * gmap string string :=
  foldl (λ w e, edit_dispatch sample_email sample_date sample_jpeg e w) w es.

(** The form of Alice's record, mounted. *)
Definition editing : Child EditShell * gmap string string :=
  mount_edit (Some alice_id) three_stored.

(** The same with another name typed. *)
Definition renamed : Child EditShell * gmap string string :=
  edit_play
    [EditInput (mkValues "Alice Jones" "alice@example.com" "5550100100" "1 Main Street"
                  "female" "1990-01-01")] editing.

Lemma mount_edit_found_witness :
  let w := mount_edit (Some alice_id) three_stored in
  w.1 = mount_capture use_file (Some (default "" (photoData alice_stored)))
          (loaded_shell alice_id alice_stored) ∧
  page (shell w.1) = PageForm ∧ view w.2 = Some Sample.three.
Proof.
  apply (mount_edit_found alice_id three_stored Sample.three alice_stored);
    by vm_compute.
Defined.

Lemma mount_edit_not_found_witness :
  let w := mount_edit (Some "3f2b8c1e-0009") three_stored in
  page (shell w.1) = PageError NOT_FOUND ∧ view w.2 = Some Sample.three ∧
  ∀ e, edit_offered w e ↔ e = EditClickBack.
Proof.
  apply (mount_edit_not_found "3f2b8c1e-0009" three_stored Sample.three); by vm_compute.
Defined.

Lemma mount_edit_throws_witness :
  mount_edit (Some alice_id) garbled
  = (NoChild (unmount_tree (first_shell (Some alice_id))), garbled) ∧
  page (shell (mount_edit (Some alice_id) garbled).1) = PageBlank ∧
  ¬ edit_offered (mount_edit (Some alice_id) garbled) EditClickBack.
Proof.
  apply (mount_edit_throws alice_id garbled garbled SyntaxError EditClickBack);
    by vm_compute.
Defined.

(** The same on an origin too full for the empty array: the write of
    [initializeStorage] is refused. *)
Example mount_edit_full_origin :
  page (shell (mount_edit (Some alice_id) (empty_storage (Some 5%N))).1) = PageBlank.
Proof. by vm_compute. Qed.

Lemma submit_updates_witness :
  ∃ g, gender_of_string (v_gender (ER.values (edit (shell renamed.1)))) = Some g ∧
  let updated := Spec.update Sample.env2 alice_id
                   (registrantData (ER.values (edit (shell renamed.1))) g
                      (ER.photoData (edit (shell renamed.1)))) Sample.three in
  let w' := edit_dispatch sample_email sample_date sample_jpeg
              (EditSubmit sample_today Sample.env2) (renamed.1, renamed.2) in
  (view w'.2 = Some (default Sample.three (snd <$> updated)) ∧
   page (shell w'.1) = if updated is Some _ then PageGone else PageError UPDATE_FAILED) ∨
  (view w'.2 = Some Sample.three ∧ page (shell w'.1) = PageError UPDATE_ERROR).
Proof.
  apply (submit_updates sample_email sample_date sample_jpeg sample_today Sample.env2
           renamed.1 renamed.2 Sample.three alice_id); by vm_compute.
Defined.

Lemma untouched_edit_witness :
  view (edit_dispatch sample_email sample_date sample_jpeg
          (EditSubmit sample_today Sample.env2) (mount_edit (Some alice_id) three_stored)).2 =
  Some (<[0%nat:=repathed Sample.env2 alice_stored]> Sample.three).
Proof.
  apply (untouched_edit sample_email sample_date sample_jpeg sample_today Sample.env2
           alice_id three_stored Sample.three 0 alice_stored); by vm_compute.
Defined.

Lemma reachable_edit_only_at_witness :
  param_id (shell (edit_play [EditSubmit sample_today Sample.env2] renamed).1)
  = Some alice_id ∧
  ∃ rs', view (edit_play [EditSubmit sample_today Sample.env2] renamed).2 = Some rs' ∧
         only_at alice_id Sample.three rs'.
Proof.
  apply (reachable_edit_only_at sample_email sample_date sample_jpeg alice_id three_stored
           Sample.three); [by vm_compute..|].
  do 2 (apply reachable_edit_dispatch; [|by vm_compute]).
  apply reachable_mount_edit.
Defined.

(** Alice's record after the name has been changed: the new name, the
    photo it had, and the photo path of the time of the edit. *)
Example scenario_rename :
  let w := edit_play [EditSubmit sample_today Sample.env2] renamed in
  page (shell w.1) = PageGone ∧
  (λ r, (fullName r, photoData r, photoPath r, createdAt r)) <$>
    (view w.2 ≫= Spec.getById alice_id) =
  Some ("Alice Jones", Some Sample.photo, photo_path (date_now Sample.env2),
        createdAt alice_stored) ∧
  photoPath alice_stored ≠ photo_path (date_now Sample.env2).
Proof. by vm_compute. Qed.

(** The photo of a record cannot be taken away: the form of the camera
    strategy shows the record's photo, the clear button empties the
    form's photo, and the record stored by the submission has the
    photo it had. *)
Example photo_cannot_be_removed :
  let shown := edit_play [EditClickUse use_camera] editing in
  let cleared := edit_play [EditCamera ClickClear] shown in
  edit_offered shown (EditCamera ClickClear) ∧
  ER.photoData (edit (shell cleared.1)) = "" ∧
  edit_offered cleared (EditSubmit sample_today Sample.env2) ∧
  let w := edit_play [EditSubmit sample_today Sample.env2] cleared in
  view w.2 = Some Sample.three.
Proof. vm_compute. split_and!; by eauto. Qed.
