(* ===== verification/System.v ===== *)
(** * System: the parts together

    The components meet in the storage.  This file holds what is true
    of their composition: the session and the service write one key
    each and do not see each other's writes; what the registration
    form stores is what the dashboard lists; the edit link of a row of
    the dashboard opens the form of that row's record, and what the
    edit form stores is listed in the record's place; and the edit
    route of a record that was deleted in the dashboard shows that it
    was not found.

    The flows are stated on a storage that refuses no write: on a
    refusal the first component of a flow stores nothing, which its
    own file shows. *)

From Stdlib Require Import Ascii String ZArith NArith.
From stdpp Require Import gmap.
From S2P Require Import Prelude JsString Types Json Codec Storage Registrants.
From S2P Require Import RegistrationService AuthContext Query AdminDashboard.
From S2P Require Import DataUrl FileUpload CameraCapture Capture RegistrationForm.
From S2P Require Import EditRegistrant.

#[local] Open Scope string_scope.
#[local] Open Scope list_scope.

(** ** The two keys *)

Section keys.
Context `{Storage St} `{Codec (list Registrant)}.
Implicit Types (s : St) (rs : list Registrant).

Lemma keys_distinct : ADMIN_KEY ≠ STORAGE_KEY.
Proof. done. Qed.

(** The list a storage holds depends on the service's key only. *)
Lemma view_frame s s' : getItem STORAGE_KEY s' = getItem STORAGE_KEY s → view s' = view s.
Proof. unfold view. by intros ->. Qed.

(** No event of a session (a page load, a login, a logout) changes the
    list of registrants the storage holds. *)
Theorem session_keeps_registrants e (w : AuthContext.world St) :
  view (AuthContext.handle e w).1.2 = view w.2.
Proof. apply view_frame, handle_frame. done. Qed.

(** A call of the service touches no other key, whatever the storage
    holds. *)
Lemma after_frame c s : frame s (after c s).
Proof.
  destruct (view s) as [rs|] eqn:Hv.
  - apply (call_refines c s rs Hv).
  - unfold after. by rewrite run_call_unreadable.
Qed.

(** C18.  No call of the service changes the session that the next page
    load restores. *)
Theorem service_keeps_session c st s :
  (reload (st, after c s)).1.1 = (reload (st, s)).1.1.
Proof.
  unfold reload, restore. cbn [snd]. rewrite !bind_reads. cbn [fst snd].
  rewrite (after_frame c s ADMIN_KEY) by done.
  destruct (truthy_opt _); [|done].
  unfold JSON_parse. by destruct (read _).
Qed.
End keys.

(** ** Flows between the components *)

Section flows.
Context `{Storage St} `{Codec (list Registrant)} `{!Unbounded St}.
Variable is_email : string → bool.
Variable date_value : string → option Z.
Variable jpeg : picture → string.
Implicit Types (s : St) (rs : list Registrant) (i : string).

#[local] Abbreviation form_dispatch := (form_dispatch is_email date_value jpeg).
#[local] Abbreviation edit_dispatch := (edit_dispatch is_email date_value jpeg).

(** The dashboard, mounted on a storage that holds [rs], lists [rs]. *)
Lemma mount_lists s rs :
  view s = Some rs →
  registrants (mount s).1 = rs ∧ filteredRegistrants (mount s).1 = rs ∧
  isLoading (mount s).1 = false ∧ currentPage (mount s).1 = 1%Z ∧
  view (mount s).2 = Some rs.
Proof.
  intros Hv. unfold mount. rewrite loadRegistrants_run.
  destruct (refines_unbounded _ _ _ _ _ (getAll_refines s rs Hv)) as (Hr & Hv' & _).
  destruct (getAllRegistrants s) as [s' o]. cbn [fst snd] in *. subst o.
  by rewrite settle_changed.
Qed.

(** *** From the form to the dashboard *)

(** C13.  A registration that is stored is the last record the dashboard
    lists. *)
Theorem registered_is_listed today env ch s rs :
  registrationSchema is_email date_value today (RF.values (form (shell ch))) = [] →
  truthy (RF.photoData (form (shell ch))) = true →
  view s = Some rs →
  ∃ g, gender_of_string (v_gender (RF.values (form (shell ch)))) = Some g ∧
  let w' := form_dispatch (Submit today env) (ch, s) in
  registrants (mount w'.2).1 =
  rs ++ [newRegistrant env
           (registrantData (RF.values (form (shell ch))) g
              (RF.photoData (form (shell ch))))].
Proof.
  intros Hok Hp Hv. destruct (schema_gender _ _ _ _ Hok) as [g Hg]. exists g.
  split; [done|]. apply mount_lists. unfold RegistrationForm.form_dispatch.
  cbn [form_handler fst snd].
  rewrite (handleSubmit_valid _ _ _ _ _ _ _ g), RegistrationForm.onSubmit_run by done.
  cbn [fst snd].
  by destruct (refines_unbounded _ _ _ _ _
                 (addRegistrant_refines s rs env
                    (registrantData (RF.values (form (shell ch))) g
                       (RF.photoData (form (shell ch)))) Hv)) as (_ & ? & _).
Qed.

(** *** From the dashboard to the edit form and back *)

(** The edit link of a row leads to the route of the row's record. *)
Lemma row_edit_route formatDate st r :
  row_edit (render_row formatDate st r) = route (Some (id r)).
Proof. done. Qed.

(** C29.  Over a collection with distinct identifiers, the edit link of a
    record opens the form with that record's values and photo. *)
Theorem edit_link_opens formatDate st s rs r :
  view s = Some rs → Spec.unique_ids rs → r ∈ rs → truthy (id r) = true →
  let w := mount_edit (Some (id r)) s in
  location (shell w.1) = row_edit (render_row formatDate st r) ∧
  page (shell w.1) = PageForm ∧
  ER.values (edit (shell w.1)) = values_of r ∧
  ER.photoData (edit (shell w.1)) = default "" (photoData r).
Proof.
  intros Hv Hu Hr Hi. destruct (mount_edit_run (id r) s rs Hi Hv) as (s' & _ & ->).
  rewrite (getById_unique rs r Hu Hr), loaded_parent_found. cbn [fst].
  rewrite shell_edit_rerender. cbn [shell]. by rewrite page_loaded_shell.
Qed.

(** C14.  An edit that is stored is what the dashboard lists in the record's
    place. *)
Theorem edited_is_listed today env ch s rs i index old :
  param_id (shell ch) = Some i → truthy i = true →
  editSchema is_email date_value today (ER.values (edit (shell ch))) = [] →
  view s = Some rs → findIndex i rs = Some (index, old) →
  ∃ g, gender_of_string (v_gender (ER.values (edit (shell ch)))) = Some g ∧
  let w' := edit_dispatch (EditSubmit today env) (ch, s) in
  registrants (mount w'.2).1 =
  <[index:=updatedRegistrant env old
             (registrantData (ER.values (edit (shell ch))) g
                (ER.photoData (edit (shell ch))))]> rs.
Proof.
  intros Hid Hi Hok Hv Hf. destruct (schema_gender _ _ _ _ Hok) as [g Hg]. exists g.
  split; [done|]. apply mount_lists.
  rewrite (edit_submit_run _ _ _ _ _ _ _ i g) by done. cbn [snd].
  destruct (refines_unbounded _ _ _ _ _
              (updateRegistrant_refines s rs env i
                 (registrantData (ER.values (edit (shell ch))) g
                    (ER.photoData (edit (shell ch)))) Hv)) as (_ & -> & _).
  unfold Spec.update. by rewrite Hf.
Qed.

(** The storage after the second click on a delete button. *)
Lemma confirm_view st s rs i :
  view s = Some rs → deleteConfirm st = Some i →
  view (dispatch (ClickDelete i) (st, s)).2 = Some (Spec.delete i rs).
Proof.
  intros Hv Hc. unfold dispatch. cbn [AdminDashboard.handler fst].
  rewrite (handleDelete_confirmed _ _ _ _ Hc).
  pose proof (refines_unbounded _ _ _ _ _ (deleteRegistrant_refines s rs i Hv)) as Hd.
  destruct (deleteRegistrant i s) as [s1 o]. cbn [fst snd] in Hd.
  destruct Hd as (-> & Hv1 & Hi1 & _). rewrite getAll_initialized, Hv1 by done.
  unfold settle. cbn [fst snd]. by destruct (deps_changed _ _).
Qed.

(** The edit route of a record that has been deleted in the dashboard
    shows that the registrant was not found. *)
Theorem deleted_is_not_found st s rs i :
  view s = Some rs → deleteConfirm st = Some i → truthy i = true →
  page (shell (mount_edit (Some i) (dispatch (ClickDelete i) (st, s)).2).1)
  = PageError NOT_FOUND.
Proof.
  intros Hv Hc Hi.
  destruct (mount_edit_run i _ _ Hi (confirm_view st s rs i Hv Hc)) as (s' & _ & ->).
  rewrite (proj2 (getById_None i _) (delete_not_in i rs)). cbn [fst].
  rewrite shell_edit_rerender. cbn [shell]. unfold page. cbn.
  by rewrite bool_decide_eq_true_2.
Qed.
End flows.

(** ** The flows on sample data *)

Lemma registered_is_listed_witness :
  ∃ g, gender_of_string (v_gender (RF.values (form (shell with_portrait.1)))) = Some g ∧
  let w' := form_dispatch sample_email sample_date sample_jpeg
              (Submit sample_today Sample.env1) (with_portrait.1, with_portrait.2) in
  registrants (mount w'.2).1 =
  [] ++ [newRegistrant Sample.env1
           (registrantData (RF.values (form (shell with_portrait.1))) g
              (RF.photoData (form (shell with_portrait.1))))].
Proof.
  apply (registered_is_listed sample_email sample_date sample_jpeg sample_today
           Sample.env1 with_portrait.1 with_portrait.2 []); by vm_compute.
Defined.

Lemma edit_link_opens_witness :
  let w := mount_edit (Some (id alice_stored)) three_stored in
  location (shell w.1) = row_edit (render_row shown_date AdminDashboard.mounted.1 alice_stored) ∧
  page (shell w.1) = PageForm ∧
  ER.values (edit (shell w.1)) = values_of alice_stored ∧
  ER.photoData (edit (shell w.1)) = default "" (photoData alice_stored).
Proof.
  apply (edit_link_opens shown_date AdminDashboard.mounted.1 three_stored Sample.three alice_stored);
    [by vm_compute|apply (bool_decide_unpack _); by vm_compute| |by vm_compute].
  apply list_elem_of_here.
Defined.

Lemma edited_is_listed_witness :
  ∃ g, gender_of_string (v_gender (ER.values (edit (shell renamed.1)))) = Some g ∧
  let w' := edit_dispatch sample_email sample_date sample_jpeg
              (EditSubmit sample_today Sample.env2) (renamed.1, renamed.2) in
  registrants (mount w'.2).1 =
  <[0%nat:=updatedRegistrant Sample.env2 alice_stored
             (registrantData (ER.values (edit (shell renamed.1))) g
                (ER.photoData (edit (shell renamed.1))))]> Sample.three.
Proof.
  apply (edited_is_listed sample_email sample_date sample_jpeg sample_today Sample.env2
           renamed.1 renamed.2 Sample.three alice_id 0 alice_stored); by vm_compute.
Defined.

Lemma deleted_is_not_found_witness :
  page (shell (mount_edit (Some "3f2b8c1e-0002")
                 (dispatch (ClickDelete "3f2b8c1e-0002") (armed, three_stored)).2).1)
  = PageError NOT_FOUND.
Proof.
  apply (deleted_is_not_found armed three_stored Sample.three "3f2b8c1e-0002");
    by vm_compute.
Defined.

(** A registration, a login, an edit of the name and a look at the
    dashboard: the list holds the one record, with the new name. *)
Example scenario_register_edit_list :
  let registered :=
    (form_dispatch sample_email sample_date sample_jpeg
       (Submit sample_today Sample.env1) with_portrait).2 in
  let logged_in := (AuthContext.handle (Login "admin" "admin123")
                      (initial_state, registered)).1 in
  let editing := mount_edit (Some (randomUUID Sample.env1)) logged_in.2 in
  let edited :=
    edit_play [EditInput (mkValues "Alice Jones" "alice@example.com" "5550100100"
                            "1 Main Street" "female" "1990-01-01");
               EditSubmit sample_today Sample.env2] editing in
  authenticated logged_in.1 = true ∧
  fullName <$> registrants (mount edited.2).1 = ["Alice Jones"] ∧
  (reload (initial_state, edited.2)).1.1 = logged_in.1.
Proof. by vm_compute. Qed.
